(** * Similarity search and indexing engine: a shallow embedding

    The development follows the Python sources
    [batch_processing/batch_search.py], [batch_processing/feature_indexer.py],
    [workers/search_worker.py], [workers/index_worker.py],
    [ui/main_window.py] (class [IndexedSearchWorker]) and
    [ui/index_dialog.py] (method [start_indexing]).

    Conventions.
    - Similarity scores are Python floats that the engine only compares;
      they are modelled as rationals ([Q]) under [Qle_bool]. NaN is not
      modelled.
    - A Python [dict] is an association list in insertion order; assigning
      to a key that is present keeps the key's position.
    - A call that may raise returns an [outcome].
    - A [QThread] run is a function from its inputs (and from the points at
      which a stop request is observed) to the list of signals it emits. *)

From Stdlib Require Import List ZArith QArith String Bool Lia.
From Stdlib Require Import Permutation Sorted.
From Stdlib Require Import DecimalString DecimalNat.
Import ListNotations.

(** Result of a call that may raise an exception. *)
Inductive outcome (A : Type) : Type :=
| Returned (a : A)
| Raised.
Arguments Returned {A} a.
Arguments Raised {A}.

(** ** Python values used by the engine *)
Module Py.

Definition dict (V : Type) : Type := list (string * V).

(** [d[k]] as a lookup that may miss. *)
Fixpoint get {V} (k : string) (d : dict V) : option V :=
  match d with
  | [] => None
  | (k', v) :: t => if String.eqb k k' then Some v else get k t
  end.

(** [k in d]. *)
Definition mem {V} (k : string) (d : dict V) : bool :=
  match get k d with Some _ => true | None => false end.

(** [d[k] = v]: replaces in place, or appends a new key at the end. *)
Fixpoint set {V} (k : string) (v : V) (d : dict V) : dict V :=
  match d with
  | [] => [(k, v)]
  | (k', v') :: t =>
      if String.eqb k k' then (k, v) :: t else (k', v') :: set k v t
  end.

Definition keys {V} (d : dict V) : list string := map fst d.
Definition values {V} (d : dict V) : list V := map snd d.

(** [l[:n]], used by the sources only under the guard [n > 0]. *)
Definition slice_to {A} (n : Z) (l : list A) : list A :=
  firstn (Z.to_nat n) l.

(** A feature payload: a numpy array (it has [ndim] and [shape]), or any
    other Python object with a length (the SIFT extractor returns a pair
    [(keypoints, descriptors)]). The payload itself is opaque data. *)
Inductive features : Type :=
| NdArray (shape : list nat) (data : list Z)
| PyObject (size : nat) (data : list Z).

(** [x.reshape(-1)] when [hasattr(x, 'ndim') and x.ndim > 1]. *)
Definition flatten (x : features) : features :=
  match x with
  | NdArray sh d =>
      if (1 <? List.length sh)%nat then NdArray [fold_right Nat.mul 1%nat sh] d
      else x
  | PyObject _ _ => x
  end.

(** [x.shape] when [hasattr(x, 'shape')]. *)
Definition shape_of (x : features) : option (list nat) :=
  match x with
  | NdArray sh _ => Some sh
  | PyObject _ _ => None
  end.

(** [len(x)]; a zero-dimensional array has no length. *)
Definition len (x : features) : outcome nat :=
  match x with
  | NdArray [] _ => Raised
  | NdArray (n :: _) _ => Returned n
  | PyObject n _ => Returned n
  end.

End Py.

(** ** The extractor contract, as the engine sees it *)
Record extractor : Type := {
  name : string;
  (** [None] is Python's [None]. *)
  extract_features : string -> outcome (option Py.features);
  compare_features : Py.features -> Py.features -> outcome Q
}.

(** A search result [(img_path, similarity)]. *)
Definition result : Type := (string * Q)%type.

(** [results.sort(key=lambda x: x[1], reverse=True)]: a stable sort by
    descending score (entries with equal scores keep their order). *)
Fixpoint insert_desc (x : result) (l : list result) : list result :=
  match l with
  | [] => [x]
  | y :: t => if Qle_bool (snd y) (snd x) then x :: l else y :: insert_desc x t
  end.

Definition sort_desc (l : list result) : list result :=
  fold_right insert_desc [] l.

(** [if max_results > 0: results = results[:max_results]]. *)
Definition limit_results (max_results : Z) (results : list result)
  : list result :=
  if (0 <? max_results)%Z then Py.slice_to max_results results else results.

(** ** What the engine reads from its surroundings *)

(** The unpickled content of an index file. *)
Record index_data : Type := {
  extractor_name : string;
  features_dict : Py.dict Py.features;
  timestamp : Q
}.

(** [pickle.load] may return any object; only the record written by the
    indexer has the keys the search looks up. *)
Inductive pyobj : Type :=
| IndexRecord (d : index_data)
| OtherObject.

(** [open(path, 'rb')] followed by [pickle.load]. *)
Definition storage : Type := string -> outcome pyobj.

Record world : Type := {
  (** [Path(folder).glob(pattern)], as strings. *)
  glob : string -> string -> list string;
  (** [os.path.exists]. *)
  path_exists : string -> bool;
  disk : storage;
  (** [open(path, 'wb')] succeeds. *)
  writable : string -> bool;
  (** [time.time()]. *)
  now : Q;
  (** [os.path.join(folder, ".index", "image_index_" + n + ".pkl")] with
      [n = extractor_name.replace(" ", "_").lower()]. *)
  index_file_for : string -> string -> string;
  (** [feature_extractors.AVAILABLE_EXTRACTORS]. *)
  AVAILABLE_EXTRACTORS : list extractor
}.

Definition with_disk (w : world) (d : storage) : world :=
  {| glob := glob w; path_exists := path_exists w; disk := d;
     writable := writable w; now := now w;
     index_file_for := index_file_for w;
     AVAILABLE_EXTRACTORS := AVAILABLE_EXTRACTORS w |}.

(** [storage] after [pickle.dump(obj, open(path, 'wb'))]. *)
Definition write_file (d : storage) (path : string) (o : pyobj) : storage :=
  fun p => if String.eqb p path then Returned o else d p.

(** Observable actions of the search code on its surroundings. *)
Inductive io_event : Type :=
| StorageRead (index_path : string)
| CompareCall (img_path : string) (query stored : Py.features).

(** ** batch_search.py: BatchSearchProcessor *)
Module BatchSearchProcessor.

Record t : Type := { indexes : Py.dict pyobj }.

(** [__init__]. *)
Definition init : t := {| indexes := [] |}.

Definition load_index (w : world) (self : t) (index_path : string)
  : bool * t * list io_event :=
  match disk w index_path with
  | Returned o =>
      (true, {| indexes := Py.set index_path o (indexes self) |},
       [StorageRead index_path])
  | Raised => (false, self, [StorageRead index_path])
  end.

(** The lookup loop over [AVAILABLE_EXTRACTORS]. *)
Definition find_extractor (exts : list extractor) (nm : string)
  : option extractor :=
  find (fun ext => String.eqb (name ext) nm) exts.

(** [query_features.shape != features.shape] under both [hasattr]s. *)
Definition shapes_differ (q f : Py.features) : bool :=
  match Py.shape_of q, Py.shape_of f with
  | Some s1, Some s2 =>
      if list_eq_dec Nat.eq_dec s1 s2 then false else true
  | _, _ => false
  end.

(** The loop over [features_dict.items()]; [q] is the query after its
    own flattening. *)
Fixpoint scan_entries (w : world) (ext : extractor) (q : Py.features)
    (similarity_threshold : Q) (entries : Py.dict Py.features)
  : list result * list io_event :=
  match entries with
  | [] => ([], [])
  | (img_path, f) :: rest =>
      let '(results, ev) := scan_entries w ext q similarity_threshold rest in
      if negb (path_exists w img_path) then (results, ev)
      else
        let f' := Py.flatten f in
        if shapes_differ q f' then (results, ev)
        else
          match compare_features ext q f' with
          | Returned similarity =>
              if Qle_bool similarity_threshold similarity
              then ((img_path, similarity) :: results,
                    CompareCall img_path q f' :: ev)
              else (results, CompareCall img_path q f' :: ev)
          | Raised => (results, CompareCall img_path q f' :: ev)
          end
  end.

Definition search_in_index (w : world) (self : t)
    (query_features : Py.features) (index_path : string)
    (similarity_threshold : Q) (max_results : Z)
  : outcome (list result) * t * list io_event :=
  let '(loaded, self1, ev1) :=
    if Py.mem index_path (indexes self) then (true, self, [])
    else load_index w self index_path in
  if negb loaded then (Returned [], self1, ev1)
  else
    match Py.get index_path (indexes self1) with
    | None => (Raised, self1, ev1)
    | Some OtherObject => (Raised, self1, ev1)
    | Some (IndexRecord index_data) =>
        match find_extractor (AVAILABLE_EXTRACTORS w)
                (extractor_name index_data) with
        | None => (Returned [], self1, ev1)
        | Some ext =>
            let q := Py.flatten query_features in
            let '(results, ev2) :=
              scan_entries w ext q similarity_threshold
                (features_dict index_data) in
            (Returned (limit_results max_results (sort_desc results)),
             self1, ev1 ++ ev2)
        end
    end.

End BatchSearchProcessor.

(** ** batch_search.py: MultiIndexSearch *)
Module MultiIndexSearch.

Record t : Type := { processor : BatchSearchProcessor.t }.

Definition init : t := {| processor := BatchSearchProcessor.init |}.

(** One pass of the deduplication loop over [all_results]. *)
Definition keep_best (unique_results : Py.dict Q) (r : result)
  : Py.dict Q :=
  let '(img_path, similarity) := r in
  match Py.get img_path unique_results with
  | None => Py.set img_path similarity unique_results
  | Some best =>
      if Qle_bool similarity best then unique_results
      else Py.set img_path similarity unique_results
  end.

(** The merge step: concatenation of the per-index lists,
    deduplication, descending sort. *)
Definition merge_results (per_index : list (list result)) : list result :=
  let all_results := List.concat per_index in
  let unique_results := fold_left keep_best all_results [] in
  sort_desc unique_results.

(** The state the per-index threads share: the processor (with its
    cache), the dictionary [results_per_index], and the actions seen. *)
Definition shared : Type :=
  (BatchSearchProcessor.t * Py.dict (list result) * list io_event)%type.

(** The thread body. A thread whose search raises stores nothing. *)
Definition search_in_one_index (w : world) (query_features : Py.features)
    (similarity_threshold : Q) (max_results : Z)
    (s : shared) (index_path : string) : shared :=
  let '(proc, results_per_index, ev) := s in
  let '(r, proc', ev') :=
    BatchSearchProcessor.search_in_index w proc query_features index_path
      similarity_threshold max_results in
  match r with
  | Returned results =>
      (proc', Py.set index_path results results_per_index, ev ++ ev')
  | Raised => (proc', results_per_index, ev ++ ev')
  end.

(** The threads are taken as atomic tasks that run one after the other;
    [index_paths] lists them in that order. Every statement below
    quantifies over the list, hence over every such order. *)
Definition run_threads (w : world) (self : t)
    (query_features : Py.features) (index_paths : list string)
    (similarity_threshold : Q) (max_results : Z) : shared :=
  fold_left
    (search_in_one_index w query_features similarity_threshold max_results)
    index_paths (processor self, [], []).

Definition search_in_multiple_indexes (w : world) (self : t)
    (query_features : Py.features) (index_paths : list string)
    (similarity_threshold : Q) (max_results : Z)
  : list result * t * list io_event :=
  let '(proc, results_per_index, ev) :=
    run_threads w self query_features index_paths similarity_threshold
      max_results in
  let combined_results := merge_results (Py.values results_per_index) in
  (limit_results max_results combined_results,
   {| processor := proc |}, ev).

End MultiIndexSearch.


(** ** Enumeration of image files (shared by indexer and linear scan) *)

Definition image_extensions : list string :=
  [".jpg"; ".jpeg"; ".png"; ".bmp"; ".tiff"; ".webp"]%string.

(** [str.upper] on the ASCII letters of an extension. *)
Definition upper_ascii (c : Ascii.ascii) : Ascii.ascii :=
  let n := Ascii.nat_of_ascii c in
  if ((97 <=? n) && (n <=? 122))%nat then Ascii.ascii_of_nat (n - 32) else c.

Fixpoint upper (s : string) : string :=
  match s with
  | EmptyString => EmptyString
  | String c t => String (upper_ascii c) (upper t)
  end.

(** The two [glob] calls per extension, in the order of the loop. *)
Definition image_files (w : world) (folder : string) : list string :=
  flat_map
    (fun ext =>
       glob w folder ("*" ++ ext)%string
       ++ glob w folder ("*" ++ upper ext)%string)
    image_extensions.

(** [int(100 * a / b)] for [a >= 0] and [b > 0]: the float quotient is
    truncated. *)
Definition percent (a b : nat) : Z := (100 * Z.of_nat a / Z.of_nat b)%Z.

(** ** feature_indexer.py: FeatureIndexer *)
Module FeatureIndexer.

Record t : Type := {
  folder_path : string;
  extractor_ : extractor;
  output_path : string
}.

(** [__init__]: without an output path the index goes under the folder. *)
Definition init (w : world) (folder : string) (ext : extractor)
    (output : option string) : t :=
  {| folder_path := folder; extractor_ := ext;
     output_path :=
       match output with
       | None => index_file_for w folder (name ext)
       | Some p => p
       end |}.

(** The texts carried by [index_failed]. *)
Inductive failure : Type :=
| NoImagesFound        (* "В указанной папке не найдены изображения" *)
| IndexingCancelled    (* "Индексация была отменена" *)
| IndexCreationError.  (* "Ошибка при создании индекса: ..." *)

Inductive signal : Type :=
| progress_update (value : Z)
| index_completed (index_path : string)
| index_failed (reason : failure).

(** What a run does, in order: the signals it emits, the calls to
    [extract_features], and the file it writes. *)
Inductive event : Type :=
| Emit (s : signal)
| Extract (img_path : string)
| Dump (path : string) (d : index_data).

(** The loop over [enumerate(image_files)]. [stopped i] tells whether
    [stop()] has been called by the time the flags are read at index [i];
    [stop()] sets [running] and [cancelled] together under the mutex. The
    second component is [None] when the loop returned from [run]. *)
Fixpoint index_loop (ext : extractor) (stopped : nat -> bool)
    (total_files i : nat) (files : list string)
    (features_dict : Py.dict Py.features)
  : list event * option (Py.dict Py.features) :=
  match files with
  | [] => ([], Some features_dict)
  | img_path :: rest =>
      if stopped i then ([Emit (index_failed IndexingCancelled)], None)
      else
        let features_dict' :=
          match extract_features ext img_path with
          | Returned (Some features) => Py.set img_path features features_dict
          | Returned None => features_dict
          | Raised => features_dict
          end in
        let progress := percent (i + 1) total_files in
        let '(ev, r) :=
          index_loop ext stopped total_files (S i) rest features_dict' in
        (Extract img_path :: Emit (progress_update progress) :: ev, r)
  end.

Definition run (w : world) (self : t) (stopped : nat -> bool)
  : list event * storage :=
  let files := image_files w (folder_path self) in
  let total_files := List.length files in
  if (total_files =? 0)%nat then ([Emit (index_failed NoImagesFound)], disk w)
  else
    let '(ev, r) :=
      index_loop (extractor_ self) stopped total_files 0 files [] in
    match r with
    | None => (ev, disk w)
    | Some features_dict =>
        if writable w (output_path self) then
          let record :=
            {| extractor_name := name (extractor_ self);
               features_dict := features_dict;
               timestamp := now w |} in
          (ev ++ [Dump (output_path self) record;
                  Emit (index_completed (output_path self))],
           write_file (disk w) (output_path self) (IndexRecord record))
        else (ev ++ [Emit (index_failed IndexCreationError)], disk w)
    end.

End FeatureIndexer.

(** ** index_worker.py: IndexWorker *)
Module IndexWorker.

Record t : Type := {
  folder_path : string;
  extractor_ : extractor;
  output_path : option string
}.

Inductive signal : Type :=
| progress_update (value : Z)
| index_completed (index_path : string)
| index_failed (reason : FeatureIndexer.failure)
| index_cancelled.

Inductive event : Type :=
| Emit (s : signal)
| Extract (img_path : string)
| Dump (path : string) (d : index_data).

(** When [stop()] is called on the worker, relative to its run.
    [StopBeforeIndexer]: before [self.indexer] exists, so only the
    worker's own flag is set. [StopAfter k]: once the indexer has processed
    [k] files and before it reads its flags again (for [k] at least the
    number of files: before the terminal signal is handled). *)
Inductive stop_request : Type :=
| NoStop
| StopBeforeIndexer
| StopAfter (k : nat).

(** The indexer's flags as read at index [i]. *)
Definition indexer_stopped (req : stop_request) (i : nat) : bool :=
  match req with
  | StopAfter k => (k <=? i)%nat
  | NoStop | StopBeforeIndexer => false
  end.

(** The worker's [cancelled] flag when a terminal signal reaches it. *)
Definition cancelled (req : stop_request) : bool :=
  match req with
  | NoStop => false
  | StopBeforeIndexer | StopAfter _ => true
  end.

Definition handle_index_completed (req : stop_request) (index_path : string)
  : signal :=
  if cancelled req then index_cancelled else index_completed index_path.

Definition handle_index_failed (req : stop_request)
    (error_message : FeatureIndexer.failure) : signal :=
  if cancelled req then index_cancelled else index_failed error_message.

(** The three [connect] calls of [run]. *)
Definition relay (req : stop_request) (e : FeatureIndexer.event) : event :=
  match e with
  | FeatureIndexer.Emit (FeatureIndexer.progress_update v) =>
      Emit (progress_update v)
  | FeatureIndexer.Emit (FeatureIndexer.index_completed p) =>
      Emit (handle_index_completed req p)
  | FeatureIndexer.Emit (FeatureIndexer.index_failed m) =>
      Emit (handle_index_failed req m)
  | FeatureIndexer.Extract p => Extract p
  | FeatureIndexer.Dump p d => Dump p d
  end.

Definition run (w : world) (self : t) (req : stop_request)
  : list event * storage :=
  let indexer :=
    FeatureIndexer.init w (folder_path self) (extractor_ self)
      (output_path self) in
  let '(ev, d) := FeatureIndexer.run w indexer (indexer_stopped req) in
  (map (relay req) ev, d).

End IndexWorker.

(** ** search_worker.py: SearchWorker (linear scan, no index) *)
Module SearchWorker.

Record t : Type := {
  query_image_path : string;
  search_folder : string;
  extractor_ : extractor;
  similarity_threshold : Q;
  max_results : Z
}.

(** The texts carried by [error_occurred]. *)
Inductive error : Type :=
| QueryFeaturesFailed  (* "Не удалось извлечь признаки из изображения запроса" *)
| SearchException.     (* "Произошла ошибка при поиске: ..." *)

Inductive signal : Type :=
| progress_update (value : Z)
| result_ready (results : list result)
| error_occurred (message : error)
| search_cancelled.

(** The body of the [try] inside the loop: the new value of [results].
    Any exception leaves [results] as it was. *)
Definition scan_file (self : t) (query_features : Py.features)
    (img_path : string) (results : list result) : list result :=
  match extract_features (extractor_ self) img_path with
  | Returned (Some current_features) =>
      match Py.len current_features with
      | Returned n =>
          if (0 <? n)%nat then
            match compare_features (extractor_ self) query_features
                    current_features with
            | Returned similarity =>
                if Qle_bool (similarity_threshold self) similarity
                then results ++ [(img_path, similarity)]
                else results
            | Raised => results
            end
          else results
      | Raised => results
      end
  | Returned None => results
  | Raised => results
  end.

(** The loop over [enumerate(image_files)]: the signals emitted and the
    value of [results] when the loop is left ([break] on a stop request).
    [stopped i] is the flag as read at index [i]. *)
Fixpoint scan_loop (self : t) (query_features : Py.features)
    (stopped : nat -> bool) (total_files i : nat) (files : list string)
    (results : list result) : list signal * list result :=
  match files with
  | [] => ([], results)
  | img_path :: rest =>
      if stopped i then ([search_cancelled], results)
      else
        let '(ev, final) :=
          scan_loop self query_features stopped total_files (S i) rest
            (scan_file self query_features img_path results) in
        (progress_update (percent i total_files) :: ev, final)
  end.

Definition run (w : world) (self : t) (stopped : nat -> bool) : list signal :=
  match extract_features (extractor_ self) (query_image_path self) with
  | Raised => [error_occurred SearchException]
  | Returned None => [error_occurred QueryFeaturesFailed]
  | Returned (Some query_features) =>
      match Py.len query_features with
      | Raised => [error_occurred SearchException]
      | Returned O => [error_occurred QueryFeaturesFailed]
      | Returned (S _) =>
          let files := image_files w (search_folder self) in
          let total_files := List.length files in
          if (total_files =? 0)%nat
          then [result_ready []; progress_update 100]
          else
            let '(ev, results) :=
              scan_loop self query_features stopped total_files 0 files [] in
            ev ++ [result_ready
                     (limit_results (max_results self) (sort_desc results));
                   progress_update 100]
      end
  end.

End SearchWorker.

(** ** main_window.py: IndexedSearchWorker *)
Module IndexedSearchWorker.

Record t : Type := {
  query_image_path : string;
  index_path : string;
  extractor_ : extractor;
  similarity_threshold : Q;
  max_results : Z;
  batch_processor : BatchSearchProcessor.t
}.

(** [__init__]: every worker gets a processor of its own. *)
Definition init (query index : string) (ext : extractor) (threshold : Q)
    (limit : Z) : t :=
  {| query_image_path := query; index_path := index; extractor_ := ext;
     similarity_threshold := threshold; max_results := limit;
     batch_processor := BatchSearchProcessor.init |}.

Inductive error : Type :=
| QueryFeaturesFailed  (* "Не удалось извлечь признаки из изображения запроса" *)
| SearchException.     (* "Ошибка при поиске: ..." *)

Inductive signal : Type :=
| progress_update (value : Z)
| result_ready (results : list result)
| error_occurred (message : error).

Definition run (w : world) (self : t) : list signal * t * list io_event :=
  match extract_features (extractor_ self) (query_image_path self) with
  | Raised =>
      ([progress_update 10; error_occurred SearchException], self, [])
  | Returned None =>
      ([progress_update 10; error_occurred QueryFeaturesFailed], self, [])
  | Returned (Some query_features) =>
      let '(r, proc, ev) :=
        BatchSearchProcessor.search_in_index w (batch_processor self)
          query_features (index_path self) (similarity_threshold self)
          (max_results self) in
      let self' :=
        {| query_image_path := query_image_path self;
           index_path := index_path self; extractor_ := extractor_ self;
           similarity_threshold := similarity_threshold self;
           max_results := max_results self; batch_processor := proc |} in
      match r with
      | Returned results =>
          ([progress_update 10; progress_update 30; progress_update 90;
            result_ready results; progress_update 100], self', ev)
      | Raised =>
          ([progress_update 10; progress_update 30;
            error_occurred SearchException], self', ev)
      end
  end.

End IndexedSearchWorker.

(** ** index_dialog.py: IndexDialog.start_indexing *)
Module IndexDialog.

(** An element of [existing_indexes]. *)
Record existing_index : Type := {
  index_name : string;
  index_path : string;
  index_extractor : extractor
}.

(** The fields and widget states [start_indexing] reads. *)
Record t : Type := {
  folder_path : string;
  output_path : option string;
  existing_indexes : list existing_index;
  (** [findChild(QTabWidget).currentIndex()]. *)
  tab_index : nat;
  (** [extractor_combo.currentIndex()]. *)
  extractor_combo : nat;
  (** [index_list.currentRow()]. *)
  index_list : nat;
  (** [update_existing_radio.isChecked()]; never read by the method. *)
  update_existing_radio : bool;
  (** [recreate_radio.isChecked()]. *)
  recreate_radio : bool;
  (** The user answers Yes to the confirmation box. *)
  reply_yes : bool
}.

(** [not self.output_path]. *)
Definition falsy (p : option string) : bool :=
  match p with
  | None => true
  | Some s => String.eqb s ""
  end.

(** The worker that [start_indexing] creates and starts; [None] when the
    method returns early or an index is out of range. *)
Definition start_indexing (w : world) (self : t) : option IndexWorker.t :=
  if ((tab_index self =? 0)%nat
      || match existing_indexes self with [] => true | _ => false end)%bool
  then
    match nth_error (AVAILABLE_EXTRACTORS w) (extractor_combo self) with
    | None => None
    | Some selected_extractor =>
        let output :=
          if falsy (output_path self)
          then index_file_for w (folder_path self) (name selected_extractor)
          else match output_path self with Some p => p | None => ""%string end
        in
        Some {| IndexWorker.folder_path := folder_path self;
                IndexWorker.extractor_ := selected_extractor;
                IndexWorker.output_path := Some output |}
    end
  else
    match nth_error (existing_indexes self) (index_list self) with
    | None => None
    | Some selected_index =>
        if (recreate_radio self && negb (reply_yes self))%bool then None
        else
          Some {| IndexWorker.folder_path := folder_path self;
                  IndexWorker.extractor_ := index_extractor selected_index;
                  IndexWorker.output_path := Some (index_path selected_index) |}
    end.

(** [start_indexing] followed by the run of the worker it started. *)
Definition index_now (w : world) (self : t) (req : IndexWorker.stop_request)
  : option (list IndexWorker.event * storage) :=
  match start_indexing w self with
  | None => None
  | Some worker => Some (IndexWorker.run w worker req)
  end.

End IndexDialog.

(** ** Notions used to state the properties *)

(** Descending order on scores. *)
Definition desc (a b : result) : Prop := (snd b <= snd a)%Q.

(** What a limit does to a list of qualifying results: without a positive
    limit every qualifying result is returned; with a positive limit [N]
    the answer has [min N (number qualifying)] entries and nothing left
    out scores above anything returned. The answer is in descending
    order of score in both cases. *)
Definition limit_semantics (max_results : Z) (qualifying r : list result)
  : Prop :=
  StronglySorted desc r
  /\ ((max_results <= 0)%Z -> Permutation r qualifying)
  /\ ((0 < max_results)%Z ->
      (List.length r <= Z.to_nat max_results)%nat
      /\ List.length r = Nat.min (Z.to_nat max_results) (List.length qualifying)
      /\ exists rest,
           Permutation (r ++ rest) qualifying
           /\ forall x y, In x r -> In y rest -> (snd y <= snd x)%Q).

(** [round(a / b)] as Python computes it on the quotient: to the nearest
    integer, a tie going to the even one. Follows the specification's
    formula for the progress value, not the sources. *)
Definition spec_round (a b : Z) : Z :=
  let q := (a / b)%Z in
  let r := (a mod b)%Z in
  if (2 * r <? b)%Z then q
  else if (b <? 2 * r)%Z then (q + 1)%Z
  else if Z.even q then q else (q + 1)%Z.

(** The progress value the specification asks for after file [i] of [n]. *)
Definition spec_progress (i n : nat) : Z :=
  spec_round (100 * Z.of_nat i) (Z.of_nat n).

(** The values carried by the progress signals of an indexing run. *)
Definition progress_values (ev : list IndexWorker.event) : list Z :=
  flat_map
    (fun e =>
       match e with
       | IndexWorker.Emit (IndexWorker.progress_update v) => [v]
       | _ => []
       end) ev.

(** The files handed to [extract_features] during an indexing run. *)
Definition extracted_files (ev : list IndexWorker.event) : list string :=
  flat_map
    (fun e => match e with IndexWorker.Extract p => [p] | _ => [] end) ev.

(** The files written during an indexing run. *)
Definition dumped_files (ev : list IndexWorker.event) : list string :=
  flat_map
    (fun e => match e with IndexWorker.Dump p _ => [p] | _ => [] end) ev.

(** The storage keys read during a search. *)
Definition storage_reads (ev : list io_event) : list string :=
  flat_map (fun e => match e with StorageRead p => [p] | _ => [] end) ev.

(** What the indexer does for the files it processes, the first of which
    has index [i]: one call to [extract_features] and one progress signal
    per file. *)
Fixpoint processed_events (total_files i : nat) (files : list string)
  : list FeatureIndexer.event :=
  match files with
  | [] => []
  | img_path :: rest =>
      FeatureIndexer.Extract img_path
      :: FeatureIndexer.Emit
           (FeatureIndexer.progress_update (percent (i + 1) total_files))
      :: processed_events total_files (S i) rest
  end.

(** The dictionary the indexer has after processing [files]. *)
Definition collect_features (ext : extractor) (files : list string)
    (features_dict : Py.dict Py.features) : Py.dict Py.features :=
  fold_left
    (fun d img_path =>
       match extract_features ext img_path with
       | Returned (Some features) => Py.set img_path features d
       | _ => d
       end)
    files features_dict.

(** The number of files an indexing run over [n] files processes. *)
Definition files_processed (req : IndexWorker.stop_request) (n : nat) : nat :=
  match req with
  | IndexWorker.StopAfter k => Nat.min k n
  | IndexWorker.NoStop | IndexWorker.StopBeforeIndexer => n
  end.

(** The signals of an indexing run that are not progress signals. *)
Definition terminal_signals (ev : list IndexWorker.event)
  : list IndexWorker.signal :=
  flat_map
    (fun e =>
       match e with
       | IndexWorker.Emit (IndexWorker.progress_update _) => []
       | IndexWorker.Emit s => [s]
       | _ => []
       end) ev.

(** The record [d] is what a search against [index_path] works on: it is
    in the processor's cache, or the key is not cached and storage
    yields [d]. *)
Definition available (w : world) (self : BatchSearchProcessor.t)
    (index_path : string) (d : index_data) : Prop :=
  Py.get index_path (BatchSearchProcessor.indexes self) = Some (IndexRecord d)
  \/ (Py.get index_path (BatchSearchProcessor.indexes self) = None
      /\ disk w index_path = Returned (IndexRecord d)).

(** The calls to [compare_features] made for the entry [img_path]. *)
Definition compare_calls_for (img_path : string) (ev : list io_event)
  : list io_event :=
  filter
    (fun e =>
       match e with
       | CompareCall p _ _ => String.eqb p img_path
       | StorageRead _ => false
       end) ev.

(** The dialog with "recreate" chosen and confirmed. *)
Definition choose_recreate (dlg : IndexDialog.t) : IndexDialog.t :=
  {| IndexDialog.folder_path := IndexDialog.folder_path dlg;
     IndexDialog.output_path := IndexDialog.output_path dlg;
     IndexDialog.existing_indexes := IndexDialog.existing_indexes dlg;
     IndexDialog.tab_index := IndexDialog.tab_index dlg;
     IndexDialog.extractor_combo := IndexDialog.extractor_combo dlg;
     IndexDialog.index_list := IndexDialog.index_list dlg;
     IndexDialog.update_existing_radio := false;
     IndexDialog.recreate_radio := true;
     IndexDialog.reply_yes := true |}.

(** [u] maps every path of [all] to its best score in [all], and holds
    no other path. *)
Definition best_of (all : list result) (u : Py.dict Q) : Prop :=
  NoDup (Py.keys u)
  /\ forall p,
       match Py.get p u with
       | None => forall s, ~ In (p, s) all
       | Some b => In (p, b) all /\ forall s, In (p, s) all -> (s <= b)%Q
       end.

(** The cache and the storage reads after the first lines of
    [search_in_index], when a record is available. *)
Definition after_lookup (self : BatchSearchProcessor.t) (index_path : string)
    (d : index_data) : BatchSearchProcessor.t * list io_event :=
  if Py.mem index_path (BatchSearchProcessor.indexes self) then (self, [])
  else
    ({| BatchSearchProcessor.indexes :=
          Py.set index_path (IndexRecord d)
            (BatchSearchProcessor.indexes self) |},
     [StorageRead index_path]).

(** [results_per_index] with every list cut to the limit. *)
Definition limit_each (max_results : Z) (d : Py.dict (list result))
  : Py.dict (list result) :=
  map (fun kv => (fst kv, limit_results max_results (snd kv))) d.

(** The multi-index search as the specification words it: every
    per-index search runs without a limit, and the limit is applied once,
    after the merge. Follows the specification, not the sources. *)
Definition spec_search_many (w : world) (self : MultiIndexSearch.t)
    (query_features : Py.features) (index_paths : list string)
    (similarity_threshold : Q) (limit : Z) : list result :=
  let '(_, results_per_index, _) :=
    MultiIndexSearch.run_threads w self query_features index_paths
      similarity_threshold 0 in
  limit_results limit
    (MultiIndexSearch.merge_results (Py.values results_per_index)).

(** The incremental merge as the specification words it: the existing
    entries are kept as they are, and only files that are not keys of the
    existing record are extracted and added. Follows the specification,
    not the sources. *)
Definition spec_merge_incremental (existing : index_data)
    (files : list string) (ext : extractor) : index_data :=
  {| extractor_name := extractor_name existing;
     features_dict :=
       fold_left
         (fun entries img_path =>
            if Py.mem img_path entries then entries
            else
              match extract_features ext img_path with
              | Returned (Some f) => Py.set img_path f entries
              | _ => entries
              end)
         files (features_dict existing);
     timestamp := timestamp existing |}.

(** ** Concrete surroundings used to exercise the definitions *)
Module Example.

Local Open Scope string_scope.

(** A one-element vector holding [x]. *)
Definition vec (x : Z) : Py.features := Py.NdArray [1%nat] [x].

(** An extractor that reads features from a table and scores a stored
    vector by its first component, in hundredths. *)
Definition toy (table : Py.dict Py.features) : extractor :=
  {| name := "toy";
     extract_features :=
       fun path =>
         match Py.get path table with
         | Some f => Returned (Some f)
         | None => Returned None
         end;
     compare_features :=
       fun _ stored =>
         match stored with
         | Py.NdArray _ (x :: _) => Returned (x # 100)
         | Py.PyObject _ (x :: _) => Returned (x # 100)
         | _ => Raised
         end |}.

Definition disk_of (files : Py.dict pyobj) : storage :=
  fun p => match Py.get p files with Some o => Returned o | None => Raised end.

(** A world whose folders all hold the [.jpg] files [jpgs], where every
    path exists and every file can be written. *)
Definition mk_world (jpgs : list string) (files : Py.dict pyobj)
    (exts : list extractor) : world :=
  {| glob := fun _ pattern => if String.eqb pattern "*.jpg" then jpgs else [];
     path_exists := fun _ => true;
     disk := disk_of files;
     writable := fun _ => true;
     now := 0;
     index_file_for :=
       fun folder n => (folder ++ "/.index/image_index_" ++ n ++ ".pkl")%string;
     AVAILABLE_EXTRACTORS := exts |}.

Definition record_data (entries : Py.dict Py.features) : index_data :=
  {| extractor_name := "toy"; features_dict := entries; timestamp := 0 |}.

Definition record_of (entries : Py.dict Py.features) : pyobj :=
  IndexRecord (record_data entries).

Definition idx_entries : Py.dict Py.features :=
  [("a.jpg", vec 90); ("b.jpg", vec 40); ("c.jpg", vec 95);
   ("d.jpg", Py.NdArray [2%nat] [99%Z; 99%Z])].

(** Two index files that tie on the best score. *)
Definition tie_world : world :=
  mk_world []
    [("i1", record_of [("A", vec 30); ("P", vec 10)]);
     ("i2", record_of [("Q", vec 60); ("P", vec 60)])]
    [toy []].

(** Two index files that both hold [P], scored 0.6 and 0.9. *)
Definition two_stores : world :=
  mk_world []
    [("s1", record_of [("P", vec 60)]); ("s2", record_of [("P", vec 90)])]
    [toy []].

(** One index file; [junk] unpickles to something that is no record;
    [foreign] names an extractor that is not available. *)
Definition one_store : world :=
  mk_world []
    [("idx", record_of idx_entries);
     ("junk", OtherObject);
     ("foreign",
      IndexRecord {| extractor_name := "gone";
                     features_dict := [("a.jpg", vec 90)];
                     timestamp := 0 |})]
    [toy []].

(** The same key with other content. *)
Definition one_store_rewritten : world :=
  mk_world [] [("idx", record_of [("z.jpg", vec 70)])] [toy []].

Definition photos : Py.dict Py.features :=
  [("query.png", vec 100); ("a.jpg", vec 90); ("b.jpg", vec 40);
   ("c.jpg", vec 95)].

(** A folder with three images. *)
Definition folder3 : world :=
  mk_world ["a.jpg"; "b.jpg"; "c.jpg"] [] [toy photos].

(** A folder without images. *)
Definition empty_folder : world := mk_world [] [] [toy photos].

Definition linear_search (limit : Z) : SearchWorker.t :=
  {| SearchWorker.query_image_path := "query.png";
     SearchWorker.search_folder := "pics";
     SearchWorker.extractor_ := toy photos;
     SearchWorker.similarity_threshold := 50 # 100;
     SearchWorker.max_results := limit |}.

(** A folder with ten images. *)
Definition ten : list string :=
  ["f0.jpg"; "f1.jpg"; "f2.jpg"; "f3.jpg"; "f4.jpg"; "f5.jpg"; "f6.jpg";
   "f7.jpg"; "f8.jpg"; "f9.jpg"].

Definition folder10 : world :=
  mk_world ten [] [toy (map (fun p => (p, vec 50)) ten)].

Definition index_worker10 : IndexWorker.t :=
  {| IndexWorker.folder_path := "pics";
     IndexWorker.extractor_ := toy (map (fun p => (p, vec 50)) ten);
     IndexWorker.output_path := Some "pics.pkl" |}.

Definition index_worker3 : IndexWorker.t :=
  {| IndexWorker.folder_path := "pics";
     IndexWorker.extractor_ := toy photos;
     IndexWorker.output_path := Some "pics.pkl" |}.

(** An index that already holds [a.jpg] with an older feature value,
    while the folder now holds [a.jpg] (changed) and [b.jpg] (new). *)
Definition old_entries : Py.dict Py.features := [("a.jpg", vec 10)].

Definition indexed_folder : world :=
  mk_world ["a.jpg"; "b.jpg"] [("old.pkl", record_of old_entries)]
    [toy photos].

Definition update_dialog : IndexDialog.t :=
  {| IndexDialog.folder_path := "pics";
     IndexDialog.output_path := None;
     IndexDialog.existing_indexes :=
       [{| IndexDialog.index_name := "toy";
           IndexDialog.index_path := "old.pkl";
           IndexDialog.index_extractor := toy photos |}];
     IndexDialog.tab_index := 1;
     IndexDialog.extractor_combo := 0;
     IndexDialog.index_list := 0;
     IndexDialog.update_existing_radio := true;
     IndexDialog.recreate_radio := false;
     IndexDialog.reply_yes := false |}.

End Example.

(** ** results_dialog.py and results_panel.py: the grid of results *)
Module ResultsGrid.

(** The loop that places the result widgets: [loads p] tells whether
    [load_image_pixmap] returns a pixmap for [p]; a result whose image
    does not load gets no cell and does not advance the position. The
    output lists the placed results with their [(row, col)]. *)
Fixpoint place (loads : string -> bool) (max_cols row col : nat)
    (results : list result) : list (result * (nat * nat)) :=
  match results with
  | [] => []
  | (img_path, similarity) :: rest =>
      if loads img_path then
        ((img_path, similarity), (row, col))
        :: (if (max_cols <=? col + 1)%nat
            then place loads max_cols (row + 1) 0 rest
            else place loads max_cols row (col + 1) rest)
      else place loads max_cols row col rest
  end.

(** [ResultsDialog.display_results]: three columns. *)
Definition display_results (loads : string -> bool) (results : list result)
  : list (result * (nat * nat)) :=
  place loads 3 0 0 results.

(** [ResultsPanel.set_search_results]: four columns; [None] stands for
    the single "nothing found" label shown for an empty list. *)
Definition set_search_results (loads : string -> bool)
    (results : list result) : option (list (result * (nat * nat))) :=
  match results with
  | [] => None
  | _ => Some (place loads 4 0 0 results)
  end.

End ResultsGrid.

(** ** file_utils.py: save_search_results *)
Module FileUtils.

(** The library calls the export relies on. *)
Record env : Type := {
  (** [shutil.copy2(src, dst)] succeeds. *)
  copy_ok : string -> string -> bool;
  (** Opening [info.txt], writing all its lines and closing it
      succeeds. *)
  info_ok : string -> bool;
  (** [os.path.join(result_dir, name)]. *)
  join : string -> string -> string;
  (** [os.path.basename]. *)
  basename : string -> string;
  (** [os.path.splitext(path)[1]]. *)
  splitext_ext : string -> string;
  (** [f"{similarity:.2f}"]. *)
  fmt2 : Q -> string;
  (** The lines of [info.txt]. *)
  info_lines : string -> list result -> string -> Q -> list string
}.

(** [f"{n:03d}"] for a non-negative [n]: the decimal digits, padded
    with zeros on the left to three characters. *)
Definition pad3 (n : nat) : string :=
  let digits := NilEmpty.string_of_uint (Nat.to_uint n) in
  match String.length digits with
  | O => ("000" ++ digits)%string
  | S O => ("00" ++ digits)%string
  | S (S O) => ("0" ++ digits)%string
  | _ => digits
  end.

Inductive fs_op : Type :=
| Copy (src dst : string)
| WriteInfo (path : string) (lines : list string).

(** The destination of the result at index [i]. *)
Definition result_dest (e : env) (result_dir : string) (i : nat)
    (r : result) : string :=
  join e result_dir
    ("result_" ++ pad3 (i + 1) ++ "_sim_" ++ fmt2 e (snd r)
     ++ splitext_ext e (fst r))%string.

Definition query_dest (e : env) (result_dir query_image_path : string)
  : string :=
  join e result_dir ("query_" ++ basename e query_image_path)%string.

Definition info_dest (e : env) (result_dir : string) : string :=
  join e result_dir "info.txt"%string.

(** The loop over [enumerate(results)]: the copies made, and whether the
    loop ran to its end ([false]: a copy raised). *)
Fixpoint copy_results (e : env) (result_dir : string) (i : nat)
    (results : list result) : bool * list fs_op :=
  match results with
  | [] => (true, [])
  | r :: rest =>
      let dst := result_dest e result_dir i r in
      if copy_ok e (fst r) dst then
        let '(ok, ops) := copy_results e result_dir (S i) rest in
        (ok, Copy (fst r) dst :: ops)
      else (false, [])
  end.

(** The function: its return value and the file operations that
    completed before it returned, in order. An operation that raised is
    not listed; what it may have left behind is not modelled. *)
Definition save_search_results (e : env) (query_image_path : string)
    (results : list result) (result_dir extractor_name : string)
    (similarity_threshold : Q) : bool * list fs_op :=
  let qdst := query_dest e result_dir query_image_path in
  if copy_ok e query_image_path qdst then
    let '(ok, ops) := copy_results e result_dir 0 results in
    if ok then
      if info_ok e (info_dest e result_dir) then
        (true,
         Copy query_image_path qdst :: ops
         ++ [WriteInfo (info_dest e result_dir)
               (info_lines e query_image_path results extractor_name
                  similarity_threshold)])
      else (false, Copy query_image_path qdst :: ops)
    else (false, Copy query_image_path qdst :: ops)
  else (false, []).

(** The paths written by a list of operations. *)
Definition written (ops : list fs_op) : list string :=
  map (fun o => match o with Copy _ dst => dst | WriteInfo p _ => p end) ops.

End FileUtils.

(** ** drag_drop_support.py: DragDropMixin *)
Module DragDropMixin.

Import Ascii.

(** [s.split('.')[-1]]: what follows the last dot, or all of [s] when it
    has no dot. *)
Fixpoint has_dot (s : string) : bool :=
  match s with
  | EmptyString => false
  | String c t => if Ascii.eqb c "."%char then true else has_dot t
  end.

Fixpoint after_last_dot (s : string) : string :=
  match s with
  | EmptyString => EmptyString
  | String c t =>
      if has_dot t then after_last_dot t
      else if Ascii.eqb c "."%char then t
      else s
  end.

Definition image_suffixes : list string :=
  ["jpg"; "jpeg"; "png"; "bmp"; "tiff"; "webp"]%string.

(** The test both handlers apply to a local file path; [lower] is
    [str.lower]. *)
Definition is_image (lower : string -> string) (file_path : string) : bool :=
  let extension := after_last_dot (lower file_path) in
  existsb (String.eqb extension) image_suffixes.

(** [dragEnterEvent] on the local paths of the dragged URLs: [true] for
    [acceptProposedAction], [false] for [ignore]. (Without URLs the
    handler ignores the event, as it does for an empty list.) *)
Definition dragEnterEvent (lower : string -> string) (urls : list string)
  : bool :=
  existsb (is_image lower) urls.

(** [dropEvent]: the path handed to [handle_image_drop], if any; the
    event is accepted exactly when a path is handed over. *)
Definition dropEvent (lower : string -> string) (urls : list string)
  : option string :=
  match urls with
  | [] => None
  | file_path :: _ =>
      if is_image lower file_path then Some file_path else None
  end.

End DragDropMixin.

(** ** Further notions, for properties beyond the claims *)

(** The object a search against [index_path] works on: the cached one if
    the key is cached, else what storage yields ([None] when the load
    fails). *)
Definition looked_up (w : world) (self : BatchSearchProcessor.t)
    (index_path : string) : option pyobj :=
  match Py.get index_path (BatchSearchProcessor.indexes self) with
  | Some o => Some o
  | None =>
      match disk w index_path with
      | Returned o => Some o
      | Raised => None
      end
  end.

(** An entry of a record qualifies for a query: its file exists, its
    shape is compatible, and the comparison returns a score at or above
    the threshold. *)
Definition entry_qualifies (w : world) (ext : extractor) (q : Py.features)
    (thr : Q) (entries : Py.dict Py.features) (p : string) (s : Q) : Prop :=
  exists f,
    In (p, f) entries
    /\ path_exists w p = true
    /\ BatchSearchProcessor.shapes_differ (Py.flatten q) (Py.flatten f) = false
    /\ compare_features ext (Py.flatten q) (Py.flatten f) = Returned s
    /\ (thr <= s)%Q.

(** A file of a folder qualifies in a linear scan: its features are
    extracted, are not of length zero, and compare at or above the
    threshold. *)
Definition file_qualifies (self : SearchWorker.t) (qf : Py.features)
    (p : string) (s : Q) : Prop :=
  exists cf n,
    extract_features (SearchWorker.extractor_ self) p = Returned (Some cf)
    /\ Py.len cf = Returned (S n)
    /\ compare_features (SearchWorker.extractor_ self) qf cf = Returned s
    /\ (SearchWorker.similarity_threshold self <= s)%Q.

(** [d] without the entries under [key]. *)
Definition without_key {V} (key : string) (d : Py.dict V) : Py.dict V :=
  filter (fun kv => negb (String.eqb (fst kv) key)) d.

(** The files whose features the indexer obtains, with those features,
    in the order of the enumeration. *)
Definition extracted (ext : extractor) (files : list string)
  : Py.dict Py.features :=
  flat_map
    (fun p =>
       match extract_features ext p with
       | Returned (Some f) => [(p, f)]
       | _ => []
       end) files.

(** The values carried by the progress signals of a linear scan. *)
Definition scan_progress_values (signals : list SearchWorker.signal)
  : list Z :=
  flat_map
    (fun s =>
       match s with
       | SearchWorker.progress_update v => [v]
       | _ => []
       end) signals.

(** The result lists delivered by a linear scan. *)
Definition scan_results (signals : list SearchWorker.signal)
  : list (list result) :=
  flat_map
    (fun s =>
       match s with
       | SearchWorker.result_ready r => [r]
       | _ => []
       end) signals.

(** The entries of a result list that carry the score [s]. *)
Definition with_score (s : Q) (l : list result) : list result :=
  filter (fun x => Qeq_bool (snd x) s) l.

(** The key [bad] cannot be used by a search on the cache [c]: it is not
    cached and storage fails or yields no record, or what is cached under
    it is no record. *)
Definition unusable (w : world) (bad : string) (c : Py.dict pyobj) : Prop :=
  (Py.get bad c = None
   /\ (disk w bad = Raised \/ disk w bad = Returned OtherObject))
  \/ Py.get bad c = Some OtherObject.

(** Two states of the per-index threads that differ at most in what
    concerns the unusable key [bad]. *)
Definition same_but (w : world) (bad : string)
    (s1 s2 : MultiIndexSearch.shared) : Prop :=
  let c1 := BatchSearchProcessor.indexes (fst (fst s1)) in
  let c2 := BatchSearchProcessor.indexes (fst (fst s2)) in
  let r1 := snd (fst s1) in
  let r2 := snd (fst s2) in
  (forall p, p <> bad -> Py.get p c1 = Py.get p c2)
  /\ unusable w bad c1
  /\ unusable w bad c2
  /\ without_key bad r1 = without_key bad r2
  /\ (forall v, In (bad, v) r1 -> v = [])
  /\ (forall v, In (bad, v) r2 -> v = []).

(** The linear-scan worker with another limit. *)
Definition with_max_results (self : SearchWorker.t) (limit : Z)
  : SearchWorker.t :=
  {| SearchWorker.query_image_path := SearchWorker.query_image_path self;
     SearchWorker.search_folder := SearchWorker.search_folder self;
     SearchWorker.extractor_ := SearchWorker.extractor_ self;
     SearchWorker.similarity_threshold :=
       SearchWorker.similarity_threshold self;
     SearchWorker.max_results := limit |}.


(** The first [n] entries of a returned list. *)
Definition outcome_firstn (n : nat) (r : outcome (list result))
  : outcome (list result) :=
  match r with
  | Returned l => Returned (firstn n l)
  | Raised => Raised
  end.

(** The copies an export makes for [results] when none fails, the first
    result having index [i]. *)
Fixpoint planned_copies (e : FileUtils.env) (result_dir : string) (i : nat)
    (results : list result) : list FileUtils.fs_op :=
  match results with
  | [] => []
  | r :: rest =>
      FileUtils.Copy (fst r) (FileUtils.result_dest e result_dir i r)
      :: planned_copies e result_dir (S i) rest
  end.

(** All the operations of an export in which nothing fails. *)
Definition planned_export (e : FileUtils.env) (query_image_path : string)
    (results : list result) (result_dir extractor_name : string)
    (similarity_threshold : Q) : list FileUtils.fs_op :=
  (FileUtils.Copy query_image_path
     (FileUtils.query_dest e result_dir query_image_path)
   :: planned_copies e result_dir 0 results
   ++ [FileUtils.WriteInfo (FileUtils.info_dest e result_dir)
         (FileUtils.info_lines e query_image_path results extractor_name
            similarity_threshold)])%list.

(** Every copy of the plan succeeds. *)
Fixpoint copies_succeed (e : FileUtils.env) (result_dir : string) (i : nat)
    (results : list result) : bool :=
  match results with
  | [] => true
  | r :: rest =>
      FileUtils.copy_ok e (fst r) (FileUtils.result_dest e result_dir i r)
      && copies_succeed e result_dir (S i) rest
  end.

(** The manifests among file operations. *)
Definition manifests (ops : list FileUtils.fs_op) : list string :=
  flat_map
    (fun o =>
       match o with
       | FileUtils.WriteInfo p _ => [p]
       | FileUtils.Copy _ _ => []
       end) ops.

(** A decimal digit. *)
Definition is_digit (c : Ascii.ascii) : bool :=
  ((48 <=? Ascii.nat_of_ascii c) && (Ascii.nat_of_ascii c <=? 57))%nat.

(** All characters of a string are decimal digits. *)
Fixpoint all_digits (s : string) : bool :=
  match s with
  | EmptyString => true
  | String c t => is_digit c && all_digits t
  end.

(** The number a string of digits denotes. *)
Definition digits_value (s : string) : option nat :=
  option_map Nat.of_uint (NilEmpty.uint_of_string s).

(** An export environment in which every operation succeeds. *)
Definition plain_env : FileUtils.env :=
  {| FileUtils.copy_ok := fun _ _ => true;
     FileUtils.info_ok := fun _ => true;
     FileUtils.join := fun d n => (d ++ "/" ++ n)%string;
     FileUtils.basename := fun p => p;
     FileUtils.splitext_ext := fun _ => ".jpg"%string;
     FileUtils.fmt2 := fun _ => "0.90"%string;
     FileUtils.info_lines := fun _ _ _ _ => [] |}.

(** More surroundings to exercise the definitions. *)
Module Example2.

Local Open Scope string_scope.

(** Storage with two good index files, one file that is no record, and
    no file under any other key. *)
Definition mixed_store : world :=
  Example.mk_world []
    [("s1", Example.record_of [("P", Example.vec 60); ("R", Example.vec 80)]);
     ("s2", Example.record_of [("P", Example.vec 90)]);
     ("junk", OtherObject)]
    [Example.toy []].

(** A world where only some indexed files still exist. *)
Definition stale_store : world :=
  {| glob := fun _ _ => [];
     path_exists := fun p => String.eqb p "a.jpg";
     disk := Example.disk_of [("idx", Example.record_of Example.idx_entries)];
     writable := fun _ => true;
     now := 0;
     index_file_for := fun folder n => folder;
     AVAILABLE_EXTRACTORS := [Example.toy []] |}.




End Example2.

(** ** Basic facts: dictionaries *)

Lemma get_set_same {V} (k : string) (v : V) (d : Py.dict V) :
  Py.get k (Py.set k v d) = Some v.
Proof.
  induction d as [|[k' v'] t IH]; simpl.
  - now rewrite String.eqb_refl.
  - destruct (String.eqb k k') eqn:E; simpl.
    + now rewrite String.eqb_refl.
    + now rewrite E.
Qed.

Lemma get_set_other {V} (k k' : string) (v : V) (d : Py.dict V) :
  k <> k' -> Py.get k' (Py.set k v d) = Py.get k' d.
Proof.
  intros Hne. induction d as [|[k0 v0] t IH]; simpl.
  - destruct (String.eqb_spec k' k); congruence.
  - destruct (String.eqb_spec k k0); simpl.
    + subst k0. destruct (String.eqb_spec k' k); congruence.
    + destruct (String.eqb k' k0); auto.
Qed.

Lemma get_In {V} (k : string) (v : V) (d : Py.dict V) :
  Py.get k d = Some v -> In (k, v) d.
Proof.
  induction d as [|[k' v'] t IH]; simpl; [discriminate|].
  destruct (String.eqb_spec k k'); intros H.
  - inversion H; subst; now left.
  - right; auto.
Qed.

Lemma get_None_keys {V} (k : string) (d : Py.dict V) :
  Py.get k d = None <-> ~ In k (Py.keys d).
Proof.
  induction d as [|[k' v'] t IH]; simpl.
  - tauto.
  - destruct (String.eqb_spec k k'); split; intros H.
    + discriminate.
    + exfalso; apply H; left; now subst.
    + intros [E|E]; [congruence|]. now apply IH in H.
    + apply IH. tauto.
Qed.

Lemma keys_set_present {V} (k : string) (v : V) (d : Py.dict V) :
  In k (Py.keys d) -> Py.keys (Py.set k v d) = Py.keys d.
Proof.
  induction d as [|[k' v'] t IH]; simpl; [tauto|].
  destruct (String.eqb_spec k k'); simpl; intros H.
  - now subst.
  - f_equal. apply IH. destruct H; congruence.
Qed.

Lemma keys_set_absent {V} (k : string) (v : V) (d : Py.dict V) :
  ~ In k (Py.keys d) -> Py.keys (Py.set k v d) = Py.keys d ++ [k].
Proof.
  induction d as [|[k' v'] t IH]; simpl; [reflexivity|].
  destruct (String.eqb_spec k k'); simpl; intros H.
  - exfalso; apply H; now left.
  - f_equal. apply IH. tauto.
Qed.

Lemma In_get {V} (k : string) (v : V) (d : Py.dict V) :
  NoDup (Py.keys d) -> In (k, v) d -> Py.get k d = Some v.
Proof.
  induction d as [|[k' v'] t IH]; simpl; [tauto|].
  intros Hnd [H|H].
  - inversion H; subst. now rewrite String.eqb_refl.
  - inversion Hnd as [|? ? Hnotin Hnd']; subst.
    destruct (String.eqb_spec k k') as [E|E].
    + subst k'. exfalso. apply Hnotin.
      change k with (fst (k, v)). now apply in_map.
    + now apply IH.
Qed.

Lemma NoDup_keys_set {V} (k : string) (v : V) (d : Py.dict V) :
  NoDup (Py.keys d) -> NoDup (Py.keys (Py.set k v d)).
Proof.
  intros Hnd. destruct (in_dec string_dec k (Py.keys d)) as [Hin|Hout].
  - now rewrite keys_set_present.
  - rewrite keys_set_absent by assumption.
    apply NoDup_app; [assumption|repeat constructor; simpl; tauto|].
    intros x Hx [E|[]]. subst. contradiction.
Qed.

(** ** Basic facts: the descending sort and the limit *)

Lemma insert_desc_perm (x : result) (l : list result) :
  Permutation (x :: l) (insert_desc x l).
Proof.
  induction l as [|y t IH]; simpl; [reflexivity|].
  destruct (Qle_bool (snd y) (snd x)); [reflexivity|].
  rewrite perm_swap. now constructor.
Qed.

Lemma sort_desc_perm (l : list result) : Permutation l (sort_desc l).
Proof.
  induction l as [|x t IH]; simpl; [constructor|].
  rewrite <- insert_desc_perm. now constructor.
Qed.

Lemma desc_trans (a b c : result) : desc a b -> desc b c -> desc a c.
Proof. unfold desc; intros H1 H2. eapply Qle_trans; eassumption. Qed.

Lemma Qle_bool_false (a b : Q) : Qle_bool a b = false -> (b <= a)%Q.
Proof.
  intros H. destruct (Qlt_le_dec b a) as [Hlt|Hle].
  - now apply Qlt_le_weak.
  - apply Qle_bool_iff in Hle. congruence.
Qed.

Lemma insert_desc_sorted (x : result) (l : list result) :
  StronglySorted desc l -> StronglySorted desc (insert_desc x l).
Proof.
  induction 1 as [|y t Hs IH Hall]; simpl.
  - repeat constructor.
  - destruct (Qle_bool (snd y) (snd x)) eqn:E.
    + apply Qle_bool_iff in E. constructor.
      * now constructor.
      * constructor; [exact E|].
        rewrite Forall_forall in *. intros z Hz.
        eapply desc_trans; [exact E|]. now apply Hall.
    + apply Qle_bool_false in E. constructor; [assumption|].
      rewrite Forall_forall in *. intros z Hz.
      apply (Permutation_in _ (Permutation_sym (insert_desc_perm x t))) in Hz.
      destruct Hz as [<-|Hz]; [exact E|now apply Hall].
Qed.

Lemma sort_desc_sorted (l : list result) : StronglySorted desc (sort_desc l).
Proof.
  induction l as [|x t IH]; simpl; [constructor|].
  now apply insert_desc_sorted.
Qed.

Lemma In_firstn {A} (n : nat) (l : list A) (x : A) :
  In x (firstn n l) -> In x l.
Proof.
  intros H. rewrite <- (firstn_skipn n l). apply in_or_app. now left.
Qed.

Lemma In_skipn {A} (n : nat) (l : list A) (x : A) :
  In x (skipn n l) -> In x l.
Proof.
  intros H. rewrite <- (firstn_skipn n l). apply in_or_app. now right.
Qed.

Lemma sorted_firstn (l : list result) (n : nat) :
  StronglySorted desc l -> StronglySorted desc (firstn n l).
Proof.
  intros H. revert n. induction H as [|x t Hs IH Hall]; intros [|n]; simpl;
    try constructor.
  - apply IH.
  - rewrite Forall_forall in *. intros y Hy. apply Hall.
    eapply In_firstn; eassumption.
Qed.

Lemma sorted_split (l : list result) (n : nat) (x y : result) :
  StronglySorted desc l ->
  In x (firstn n l) -> In y (skipn n l) -> desc x y.
Proof.
  intros H. revert n. induction H as [|z t Hs IH Hall]; intros [|n]; simpl;
    try tauto.
  intros [<-|Hx] Hy.
  - rewrite Forall_forall in Hall. apply Hall.
    eapply In_skipn; eassumption.
  - eapply IH; eassumption.
Qed.

Lemma limit_results_spec (max_results : Z) (qualifying : list result) :
  limit_semantics max_results qualifying
    (limit_results max_results (sort_desc qualifying)).
Proof.
  unfold limit_semantics, limit_results, Py.slice_to.
  pose proof (sort_desc_sorted qualifying) as Hs.
  pose proof (sort_desc_perm qualifying) as Hp.
  destruct (Z.ltb_spec 0 max_results) as [Hpos|Hnp].
  - split; [now apply sorted_firstn|]. split; [lia|]. intros _.
    split; [apply firstn_le_length|].
    split.
    + rewrite length_firstn. now rewrite <- (Permutation_length Hp).
    + exists (skipn (Z.to_nat max_results) (sort_desc qualifying)). split.
      * rewrite firstn_skipn. now symmetry.
      * intros x y Hx Hy. eapply sorted_split; eassumption.
  - split; [assumption|]. split; [intros _; now symmetry|lia].
Qed.

(** ** Facts about the merge step *)

Lemma best_of_nil : best_of [] [].
Proof. split; [constructor|]. intros p; simpl. tauto. Qed.

Lemma keep_best_inv (all : list result) (u : Py.dict Q) (r : result) :
  best_of all u -> best_of (all ++ [r]) (MultiIndexSearch.keep_best u r).
Proof.
  intros [Hnd Hbest]. destruct r as [p s]. unfold MultiIndexSearch.keep_best.
  assert (Hother : forall p' s', p <> p' ->
            In (p', s') (all ++ [(p, s)]) <-> In (p', s') all).
  { intros p' s' Hne. rewrite in_app_iff; simpl. split; [|tauto].
    intros [H|[H|[]]]; [assumption|congruence]. }
  assert (Hset : best_of (all ++ [(p, s)]) (Py.set p s u)
                 \/ exists b, Py.get p u = Some b /\ (s <= b)%Q).
  { destruct (Py.get p u) as [b|] eqn:Hg.
    - destruct (Qle_bool s b) eqn:Hle.
      + right. exists b. split; [reflexivity|now apply Qle_bool_iff].
      + left. apply Qle_bool_false in Hle.
        split; [now apply NoDup_keys_set|]. intros p'.
        destruct (string_dec p p') as [<-|Hne].
        * rewrite get_set_same. split; [apply in_or_app; right; now left|].
          intros s' Hs'. apply in_app_or in Hs'. destruct Hs' as [Hs'|[Hs'|[]]].
          -- specialize (Hbest p). rewrite Hg in Hbest.
             eapply Qle_trans; [now apply Hbest|assumption].
          -- inversion Hs'; subst. apply Qle_refl.
        * rewrite get_set_other by assumption. specialize (Hbest p').
          destruct (Py.get p' u).
          -- destruct Hbest as [H1 H2]. split; [now apply Hother|].
             intros s' Hs'. apply H2. now apply Hother in Hs'.
          -- intros s' Hs'. apply Hother in Hs'; [|assumption].
             now apply (Hbest s').
    - left. split; [now apply NoDup_keys_set|]. intros p'.
      destruct (string_dec p p') as [<-|Hne].
      * rewrite get_set_same. split; [apply in_or_app; right; now left|].
        intros s' Hs'. apply in_app_or in Hs'. destruct Hs' as [Hs'|[Hs'|[]]].
        -- specialize (Hbest p). rewrite Hg in Hbest. now apply Hbest in Hs'.
        -- inversion Hs'; subst. apply Qle_refl.
      * rewrite get_set_other by assumption. specialize (Hbest p').
        destruct (Py.get p' u).
        -- destruct Hbest as [H1 H2]. split; [now apply Hother|].
           intros s' Hs'. apply H2. now apply Hother in Hs'.
        -- intros s' Hs'. apply Hother in Hs'; [|assumption].
           now apply (Hbest s'). }
  destruct (Py.get p u) as [b|] eqn:Hg.
  - destruct (Qle_bool s b) eqn:Hle.
    + apply Qle_bool_iff in Hle. split; [assumption|]. intros p'.
      specialize (Hbest p'). destruct (string_dec p p') as [<-|Hne].
      * rewrite Hg in *. destruct Hbest as [H1 H2].
        split; [apply in_or_app; now left|].
        intros s' Hs'. apply in_app_or in Hs'. destruct Hs' as [Hs'|[Hs'|[]]].
        -- now apply H2.
        -- inversion Hs'; subst. assumption.
      * destruct (Py.get p' u).
        -- destruct Hbest as [H1 H2]. split; [now apply Hother|].
           intros s' Hs'. apply H2. now apply Hother in Hs'.
        -- intros s' Hs'. apply Hother in Hs'; [|assumption].
           now apply (Hbest s').
    + destruct Hset as [H|[b' [Hb' Hle']]]; [assumption|].
      apply Qle_bool_iff in Hle'. congruence.
  - destruct Hset as [H|[b' [Hb' _]]]; [assumption|discriminate].
Qed.

Lemma fold_keep_best_inv (l all : list result) (u : Py.dict Q) :
  best_of all u ->
  best_of (all ++ l) (fold_left MultiIndexSearch.keep_best l u).
Proof.
  revert all u. induction l as [|r t IH]; intros all u H; simpl.
  - now rewrite app_nil_r.
  - replace (all ++ r :: t) with ((all ++ [r]) ++ t)
      by (rewrite <- app_assoc; reflexivity).
    apply IH. now apply keep_best_inv.
Qed.

(** The merge step on any collection of per-index lists: no path twice,
    each path with its maximum score, every path represented, descending
    order. *)
Lemma merge_results_spec (per_index : list (list result)) :
  let all := List.concat per_index in
  let out := MultiIndexSearch.merge_results per_index in
  NoDup (map fst out)
  /\ StronglySorted desc out
  /\ (forall p s, In (p, s) out ->
        In (p, s) all /\ forall s', In (p, s') all -> (s' <= s)%Q)
  /\ (forall p s, In (p, s) all -> exists b, In (p, b) out).
Proof.
  intros all out. unfold out, MultiIndexSearch.merge_results. fold all.
  destruct (fold_keep_best_inv all [] [] best_of_nil) as [Hnd Hbest].
  simpl in Hnd, Hbest.
  set (u := fold_left MultiIndexSearch.keep_best all []) in *.
  pose proof (sort_desc_perm u) as Hp.
  split; [|split; [apply sort_desc_sorted|split]].
  - eapply Permutation_NoDup; [apply Permutation_map; exact Hp|exact Hnd].
  - intros p s Hin.
    apply (Permutation_in _ (Permutation_sym Hp)) in Hin.
    apply In_get in Hin; [|assumption].
    specialize (Hbest p). now rewrite Hin in Hbest.
  - intros p s Hin. specialize (Hbest p).
    destruct (Py.get p u) as [b|] eqn:Hg.
    + exists b. apply (Permutation_in _ Hp). now apply get_In.
    + now apply Hbest in Hin.
Qed.

(** ** Facts about limits inside the searches *)

Lemma limit_results_nil (n : Z) : limit_results n [] = [].
Proof.
  unfold limit_results, Py.slice_to. destruct (0 <? n)%Z; [|reflexivity].
  apply firstn_nil.
Qed.

Lemma limit_results_0 (l : list result) : limit_results 0 l = l.
Proof. reflexivity. Qed.

Lemma limit_results_short (n : Z) (l : list result) :
  ((0 < n)%Z -> (List.length l <= Z.to_nat n)%nat) -> limit_results n l = l.
Proof.
  unfold limit_results, Py.slice_to. intros H.
  destruct (Z.ltb_spec 0 n); [|reflexivity]. apply firstn_all2. auto.
Qed.

Lemma limit_results_length (n : Z) (l : list result) :
  (0 < n)%Z -> (List.length (limit_results n l) <= Z.to_nat n)%nat.
Proof.
  unfold limit_results, Py.slice_to. intros H.
  destruct (Z.ltb_spec 0 n); [|lia]. apply firstn_le_length.
Qed.

(** A search with a limit returns the limited answer of the search
    without one; the cache and the actions are the same. *)
Lemma search_in_index_limit (w : world) (self : BatchSearchProcessor.t)
    (q : Py.features) (index_path : string) (thr : Q) (n : Z) :
  BatchSearchProcessor.search_in_index w self q index_path thr n =
  let '(r, self', ev) :=
    BatchSearchProcessor.search_in_index w self q index_path thr 0 in
  (match r with
   | Returned l => Returned (limit_results n l)
   | Raised => Raised
   end, self', ev).
Proof.
  unfold BatchSearchProcessor.search_in_index.
  destruct (if Py.mem index_path (BatchSearchProcessor.indexes self)
            then (true, self, [])
            else BatchSearchProcessor.load_index w self index_path)
    as [[loaded self1] ev1].
  destruct loaded; simpl; [|now rewrite limit_results_nil].
  destruct (Py.get index_path (BatchSearchProcessor.indexes self1))
    as [[d|]|]; try reflexivity.
  destruct (BatchSearchProcessor.find_extractor _ _);
    [|now rewrite limit_results_nil].
  destruct (BatchSearchProcessor.scan_entries _ _ _ _ _). reflexivity.
Qed.

Lemma set_limit_each (n : Z) (k : string) (r : list result)
    (d : Py.dict (list result)) :
  Py.set k (limit_results n r) (limit_each n d) = limit_each n (Py.set k r d).
Proof.
  induction d as [|[k' v'] t IH]; simpl; [reflexivity|].
  destruct (String.eqb k k'); simpl; [reflexivity|]. now rewrite IH.
Qed.

Lemma fold_threads_limit (w : world) (q : Py.features) (thr : Q) (n : Z)
    (index_paths : list string) (proc : BatchSearchProcessor.t)
    (rpi : Py.dict (list result)) (ev : list io_event) :
  fold_left (MultiIndexSearch.search_in_one_index w q thr n) index_paths
    (proc, limit_each n rpi, ev) =
  let '(proc', rpi', ev') :=
    fold_left (MultiIndexSearch.search_in_one_index w q thr 0) index_paths
      (proc, rpi, ev) in
  (proc', limit_each n rpi', ev').
Proof.
  revert proc rpi ev. induction index_paths as [|p t IH]; intros; simpl.
  - reflexivity.
  - rewrite search_in_index_limit.
    destruct (BatchSearchProcessor.search_in_index w proc q p thr 0)
      as [[r proc1] ev1].
    destruct r as [l|].
    + rewrite set_limit_each. apply IH.
    + apply IH.
Qed.

(** The threads of a search with limit [n] leave in [results_per_index]
    the limited outputs of the threads of a search without limit. *)
Lemma run_threads_limit (w : world) (self : MultiIndexSearch.t)
    (q : Py.features) (index_paths : list string) (thr : Q) (n : Z) :
  MultiIndexSearch.run_threads w self q index_paths thr n =
  let '(proc, rpi, ev) :=
    MultiIndexSearch.run_threads w self q index_paths thr 0 in
  (proc, limit_each n rpi, ev).
Proof.
  unfold MultiIndexSearch.run_threads.
  exact (fold_threads_limit w q thr n index_paths
           (MultiIndexSearch.processor self) [] []).
Qed.

Lemma values_limit_each (n : Z) (d : Py.dict (list result)) :
  Py.values (limit_each n d) = map (limit_results n) (Py.values d).
Proof.
  unfold Py.values, limit_each. now rewrite !map_map.
Qed.

Lemma NoDup_firstn {A} (n : nat) (l : list A) : NoDup l -> NoDup (firstn n l).
Proof.
  intros H. revert n. induction H as [|x t Hx Hnd IH]; intros [|n]; simpl;
    try constructor.
  - intros Hin. apply Hx. eapply In_firstn; eassumption.
  - apply IH.
Qed.

Lemma limit_results_keeps (n : Z) (l : list result) :
  NoDup (map fst l) -> StronglySorted desc l ->
  NoDup (map fst (limit_results n l)) /\ StronglySorted desc (limit_results n l).
Proof.
  unfold limit_results, Py.slice_to. intros Hnd Hs.
  destruct (0 <? n)%Z; [|now split]. split.
  - rewrite <- firstn_map. now apply NoDup_firstn.
  - now apply sorted_firstn.
Qed.

(** ** Multi-index search: where the limit applies, and the merge *)

Local Open Scope string_scope.

(** C1 (as amended). For every query, list of storage keys, threshold and
    limit [N > 0], the multi-index search hands the limit [N] to every
    per-index search as well: what each thread stores is the output of
    the unlimited per-index search cut to its first [N] entries. The
    result is the merged, deduplicated, descending-sorted sequence of
    those cut outputs, cut to [N] once more; it has at most [N] entries,
    no path twice, and is in descending order. *)
Theorem search_many_limit_placement
    (w : world) (self : MultiIndexSearch.t) (q : Py.features)
    (index_paths : list string) (thr : Q) (N : Z)
    (proc : BatchSearchProcessor.t) (unbounded : Py.dict (list result))
    (ev : list io_event) :
  (0 < N)%Z ->
  MultiIndexSearch.run_threads w self q index_paths thr 0
    = (proc, unbounded, ev) ->
  let r :=
    fst (fst (MultiIndexSearch.search_in_multiple_indexes w self q
                index_paths thr N)) in
  MultiIndexSearch.run_threads w self q index_paths thr N
    = (proc, limit_each N unbounded, ev)
  /\ (forall k l, In (k, l) (limit_each N unbounded) ->
        (List.length l <= Z.to_nat N)%nat)
  /\ r = limit_results N
           (MultiIndexSearch.merge_results
              (map (limit_results N) (Py.values unbounded)))
  /\ (List.length r <= Z.to_nat N)%nat
  /\ NoDup (map fst r)
  /\ StronglySorted desc r.
Proof.
  intros HN Hrun r.
  assert (HrunN : MultiIndexSearch.run_threads w self q index_paths thr N
                  = (proc, limit_each N unbounded, ev)).
  { rewrite run_threads_limit, Hrun. reflexivity. }
  assert (Hr : r = limit_results N
                     (MultiIndexSearch.merge_results
                        (map (limit_results N) (Py.values unbounded)))).
  { unfold r, MultiIndexSearch.search_in_multiple_indexes.
    rewrite HrunN. simpl. now rewrite values_limit_each. }
  split; [exact HrunN|]. split.
  { intros k l Hin. unfold limit_each in Hin. apply in_map_iff in Hin.
    destruct Hin as [[k' l'] [E _]]. inversion E; subst.
    now apply limit_results_length. }
  split; [exact Hr|]. rewrite Hr.
  split; [now apply limit_results_length|].
  destruct (merge_results_spec (map (limit_results N) (Py.values unbounded)))
    as [Hnd [Hs _]].
  now apply limit_results_keeps.
Qed.

(** C1, instance: two index files, limit 1. *)
Lemma search_many_limit_placement_witness :
  (0 < 1)%Z
  /\ fst (fst (MultiIndexSearch.search_in_multiple_indexes Example.tie_world
                 MultiIndexSearch.init (Example.vec 0) ["i1"; "i2"] 0 1))
     = limit_results 1
         (MultiIndexSearch.merge_results
            (map (limit_results 1)
               [[("A", 0.30); ("P", 0.10)]; [("Q", 0.60); ("P", 0.60)]])).
Proof.
  split; [lia|].
  refine (proj1 (proj2 (proj2
    (search_many_limit_placement Example.tie_world MultiIndexSearch.init
       (Example.vec 0) ["i1"; "i2"] 0 1 _
       [("i1", [("A", 0.30); ("P", 0.10)]); ("i2", [("Q", 0.60); ("P", 0.60)])]
       _ _ _)))).
  - lia.
  - reflexivity.
Defined.

(** C1, as stated, fails: with two index files that tie on the best
    score and limit 1, the code answers [Q] where the search with
    unlimited per-index runs answers [P]; the per-index outputs the code
    merges hold one entry each, not two. *)
Lemma search_many_limit_counterexample :
  fst (fst (MultiIndexSearch.search_in_multiple_indexes Example.tie_world
              MultiIndexSearch.init (Example.vec 0) ["i1"; "i2"] 0 1))
  <> spec_search_many Example.tie_world MultiIndexSearch.init
       (Example.vec 0) ["i1"; "i2"] 0 1
  /\ fst (fst (MultiIndexSearch.search_in_multiple_indexes Example.tie_world
                 MultiIndexSearch.init (Example.vec 0) ["i1"; "i2"] 0 1))
     = [("Q", 0.60)]
  /\ spec_search_many Example.tie_world MultiIndexSearch.init
       (Example.vec 0) ["i1"; "i2"] 0 1
     = [("P", 0.60)]
  /\ Py.values
       (snd (fst (MultiIndexSearch.run_threads Example.tie_world
                    MultiIndexSearch.init (Example.vec 0) ["i1"; "i2"] 0 1)))
     = [[("A", 0.30)]; [("Q", 0.60)]].
Proof.
  split; [|split; [|split]]; try (vm_compute; reflexivity).
  vm_compute. discriminate.
Qed.

(** C6. The merge step, on any collection of per-index result lists:
    each path appears at most once in the output, with the maximum of its
    scores, every input path is represented, and the output is in
    descending order of score. In particular [(A,0.3),(B,0.9),(A,0.7)]
    merges to [(B,0.9),(A,0.7)], and two stores that both hold [P], with
    similarities 0.6 and 0.9, give [P] once with 0.9 under threshold 0.5,
    whatever the limit. *)
Theorem merge_dedup_max_sorted :
  (forall per_index : list (list result),
     let all := List.concat per_index in
     let out := MultiIndexSearch.merge_results per_index in
     NoDup (map fst out)
     /\ StronglySorted desc out
     /\ (forall p s, In (p, s) out ->
           In (p, s) all /\ forall s', In (p, s') all -> (s' <= s)%Q)
     /\ (forall p s, In (p, s) all -> exists b, In (p, b) out))
  /\ MultiIndexSearch.merge_results [[("A", 0.3); ("B", 0.9); ("A", 0.7)]]
     = [("B", 0.9); ("A", 0.7)]
  /\ MultiIndexSearch.merge_results [[("A", 0.3)]; [("B", 0.9)]; [("A", 0.7)]]
     = [("B", 0.9); ("A", 0.7)]
  /\ (forall max_results : Z,
        fst (fst (MultiIndexSearch.search_in_multiple_indexes
                    Example.two_stores MultiIndexSearch.init (Example.vec 0)
                    ["s1"; "s2"] 0.5 max_results))
        = [("P", 0.90)]).
Proof.
  split; [exact merge_results_spec|].
  split; [vm_compute; reflexivity|]. split; [vm_compute; reflexivity|].
  intros max_results.
  unfold MultiIndexSearch.search_in_multiple_indexes.
  rewrite run_threads_limit.
  set (t := MultiIndexSearch.run_threads _ _ _ _ _ _).
  vm_compute in t. subst t. cbv iota beta.
  rewrite values_limit_each.
  unfold Py.values. cbn [map snd fst].
  rewrite !(limit_results_short max_results [_]) by (simpl; lia).
  set (m := MultiIndexSearch.merge_results _). vm_compute in m. subst m.
  rewrite limit_results_short by (simpl; lia). reflexivity.
Qed.

(** ** Facts about the two scans *)

(** What the loop of the single-index search keeps: exactly the entries
    whose file exists, whose shape is compatible, and whose comparison
    returns a score at or above the threshold. *)
Lemma scan_entries_In (w : world) (ext : extractor) (q : Py.features)
    (thr : Q) (entries : Py.dict Py.features) (p : string) (s : Q) :
  In (p, s) (fst (BatchSearchProcessor.scan_entries w ext q thr entries))
  <-> exists f,
        In (p, f) entries
        /\ path_exists w p = true
        /\ BatchSearchProcessor.shapes_differ q (Py.flatten f) = false
        /\ compare_features ext q (Py.flatten f) = Returned s
        /\ Qle_bool thr s = true.
Proof.
  induction entries as [|[p' f'] t IH]; simpl.
  - split; [tauto|]. intros [f [[] _]].
  - destruct (BatchSearchProcessor.scan_entries w ext q thr t) as [rs ev].
    simpl in IH.
    assert (Hskip : In (p, s) rs <->
              exists f, In (p, f) t /\ path_exists w p = true
                /\ BatchSearchProcessor.shapes_differ q (Py.flatten f) = false
                /\ compare_features ext q (Py.flatten f) = Returned s
                /\ Qle_bool thr s = true) by exact IH.
    clear IH.
    destruct (path_exists w p') eqn:Hex; simpl.
    2:{ rewrite Hskip. split; intros [f [Hin H]]; exists f.
        - split; [now right|exact H].
        - destruct Hin as [E|Hin]; [|now split].
          inversion E; subst. destruct H as [H _]. congruence. }
    destruct (BatchSearchProcessor.shapes_differ q (Py.flatten f')) eqn:Hsh.
    { simpl. rewrite Hskip. split; intros [f [Hin H]]; exists f.
      - split; [now right|exact H].
      - destruct Hin as [E|Hin]; [|now split].
        inversion E; subst. destruct H as [_ [H _]]. congruence. }
    destruct (compare_features ext q (Py.flatten f')) as [sim|] eqn:Hc.
    2:{ simpl. rewrite Hskip. split; intros [f [Hin H]]; exists f.
        - split; [now right|exact H].
        - destruct Hin as [E|Hin]; [|now split].
          inversion E; subst. destruct H as [_ [_ [H _]]]. congruence. }
    destruct (Qle_bool thr sim) eqn:Hle; simpl.
    + rewrite Hskip. split.
      * intros [E|[f [Hin H]]].
        -- inversion E; subst. exists f'. repeat split; auto.
        -- exists f. split; [now right|exact H].
      * intros [f [[E|Hin] H]].
        -- inversion E; subst. left.
           destruct H as [_ [_ [H _]]]. congruence.
        -- right. exists f. now split.
    + rewrite Hskip. split; intros [f [Hin H]]; exists f.
      * split; [now right|exact H].
      * destruct Hin as [E|Hin]; [|now split].
        inversion E; subst. destruct H as [_ [_ [H1 H2]]]. congruence.
Qed.

Lemma scan_file_keeps (P : result -> Prop) (self : SearchWorker.t)
    (qf : Py.features) (img_path : string) (results : list result) :
  (forall s, (SearchWorker.similarity_threshold self <= s)%Q ->
             P (img_path, s)) ->
  Forall P results ->
  Forall P (SearchWorker.scan_file self qf img_path results).
Proof.
  intros Hnew Hall. unfold SearchWorker.scan_file.
  destruct (extract_features _ img_path) as [[cf|]|]; try assumption.
  destruct (Py.len cf) as [n|]; try assumption.
  destruct (0 <? n)%nat; try assumption.
  destruct (compare_features _ qf cf) as [s|]; try assumption.
  destruct (Qle_bool _ s) eqn:E; try assumption.
  apply Forall_app. split; [assumption|]. constructor; [|constructor].
  apply Hnew. now apply Qle_bool_iff.
Qed.

Lemma scan_loop_threshold (self : SearchWorker.t) (qf : Py.features)
    (stopped : nat -> bool) (total i : nat) (files : list string)
    (results : list result) :
  Forall (fun x => (SearchWorker.similarity_threshold self <= snd x)%Q)
    results ->
  Forall (fun x => (SearchWorker.similarity_threshold self <= snd x)%Q)
    (snd (SearchWorker.scan_loop self qf stopped total i files results)).
Proof.
  revert i results. induction files as [|p t IH]; intros i results H; simpl.
  - assumption.
  - destruct (stopped i); simpl; [assumption|].
    specialize (IH (S i) (SearchWorker.scan_file self qf p results)).
    destruct (SearchWorker.scan_loop self qf stopped total (S i) t _)
      as [ev final]. simpl in *. apply IH.
    apply scan_file_keeps; [|assumption]. intros s Hs. exact Hs.
Qed.

(** The loop of the linear scan emits progress signals and at most one
    cancellation notice, never a result. *)
Lemma scan_loop_signals (self : SearchWorker.t) (qf : Py.features)
    (stopped : nat -> bool) (total i : nat) (files : list string)
    (results : list result) :
  Forall (fun s => s = SearchWorker.search_cancelled
                   \/ exists v, s = SearchWorker.progress_update v)
    (fst (SearchWorker.scan_loop self qf stopped total i files results)).
Proof.
  revert i results. induction files as [|p t IH]; intros i results; simpl.
  - constructor.
  - destruct (stopped i); simpl.
    + constructor; [now left|constructor].
    + specialize (IH (S i) (SearchWorker.scan_file self qf p results)).
      destruct (SearchWorker.scan_loop self qf stopped total (S i) t _)
        as [ev final]. simpl in *. constructor; [right; eauto|assumption].
Qed.

(** C7. Limit semantics of the two searches. For a single-index search
    whose record is available (cached, or loadable) and whose extractor
    is known, and for a linear scan whose query features were extracted,
    the answer is taken from the qualifying results (those at or above
    the threshold) as follows: with limit 0 (or any non-positive limit)
    all of them are returned; with limit [N > 0] at most [N] are
    returned, [min N (number qualifying)] exactly, and no qualifying
    result left out scores above a returned one. The answer is in
    descending order of score. *)
Theorem limit_semantics_of_searches :
  (forall (w : world) (self : BatchSearchProcessor.t) (q : Py.features)
          (index_path : string) (thr : Q) (max_results : Z)
          (d : index_data) (ext : extractor),
     available w self index_path d ->
     BatchSearchProcessor.find_extractor (AVAILABLE_EXTRACTORS w)
       (extractor_name d) = Some ext ->
     let qualifying :=
       fst (BatchSearchProcessor.scan_entries w ext (Py.flatten q) thr
              (features_dict d)) in
     Forall (fun x => (thr <= snd x)%Q) qualifying
     /\ exists r,
          fst (fst (BatchSearchProcessor.search_in_index w self q index_path
                      thr max_results)) = Returned r
          /\ limit_semantics max_results qualifying r)
  /\
  (forall (w : world) (self : SearchWorker.t) (stopped : nat -> bool)
          (qf : Py.features) (n : nat),
     extract_features (SearchWorker.extractor_ self)
       (SearchWorker.query_image_path self) = Returned (Some qf) ->
     Py.len qf = Returned (S n) ->
     let files := image_files w (SearchWorker.search_folder self) in
     let qualifying :=
       snd (SearchWorker.scan_loop self qf stopped (List.length files) 0
              files []) in
     Forall (fun x => (SearchWorker.similarity_threshold self <= snd x)%Q)
       qualifying
     /\ exists pre r,
          SearchWorker.run w self stopped
            = (pre ++ [SearchWorker.result_ready r;
                       SearchWorker.progress_update 100])%list
          /\ Forall (fun s => s = SearchWorker.search_cancelled
                              \/ exists v, s = SearchWorker.progress_update v)
               pre
          /\ limit_semantics (SearchWorker.max_results self) qualifying r).
Proof.
  split.
  - intros w self q index_path thr max_results d ext Hrec Hext qualifying.
    split.
    { apply Forall_forall. intros [p s] Hin. apply scan_entries_In in Hin.
      destruct Hin as [f [_ [_ [_ [_ Hle]]]]]. now apply Qle_bool_iff. }
    exists (limit_results max_results (sort_desc qualifying)).
    split; [|apply limit_results_spec].
    unfold BatchSearchProcessor.search_in_index, Py.mem,
      BatchSearchProcessor.load_index.
    destruct Hrec as [Hc|[Hc Hd]]; rewrite Hc.
    + simpl. rewrite Hc, Hext. fold qualifying.
      unfold qualifying.
      destruct (BatchSearchProcessor.scan_entries w ext (Py.flatten q) thr
                  (features_dict d)); reflexivity.
    + rewrite Hd. simpl. rewrite get_set_same, Hext.
      unfold qualifying.
      destruct (BatchSearchProcessor.scan_entries w ext (Py.flatten q) thr
                  (features_dict d)); reflexivity.
  - intros w self stopped qf n Hq Hlen files qualifying.
    split; [apply scan_loop_threshold; constructor|].
    unfold SearchWorker.run. rewrite Hq, Hlen. fold files.
    destruct (Nat.eqb_spec (List.length files) 0) as [E|E].
    + exists [], []. split; [reflexivity|]. split; [constructor|].
      unfold qualifying. destruct files; [|discriminate]. simpl.
      pose proof (limit_results_spec (SearchWorker.max_results self) [])
        as H.
      simpl sort_desc in H. now rewrite limit_results_nil in H.
    + pose proof (scan_loop_signals self qf stopped (List.length files) 0
                    files []) as Hsig.
      unfold qualifying.
      destruct (SearchWorker.scan_loop self qf stopped (List.length files) 0
                  files []) as [ev results]. simpl in *.
      exists ev, (limit_results (SearchWorker.max_results self)
                    (sort_desc results)).
      split; [reflexivity|]. split; [assumption|apply limit_results_spec].
Qed.

(** C7, instance: threshold 0.5 and limit 2 over scores 0.9, 0.4, 0.95,
    through an index and through a linear scan. *)
Lemma limit_semantics_of_searches_witness :
  (exists r,
     fst (fst (BatchSearchProcessor.search_in_index Example.one_store
                 BatchSearchProcessor.init (Example.vec 0) "idx" 0.50 2))
       = Returned r
     /\ limit_semantics 2 [("a.jpg", 0.90); ("c.jpg", 0.95)] r)
  /\ (exists pre r,
        SearchWorker.run Example.folder3 (Example.linear_search 2)
          (fun _ => false)
          = (pre ++ [SearchWorker.result_ready r;
                     SearchWorker.progress_update 100])%list
        /\ limit_semantics 2 [("a.jpg", 0.90); ("c.jpg", 0.95)] r).
Proof.
  split.
  - refine (proj2 (proj1 limit_semantics_of_searches Example.one_store
                     BatchSearchProcessor.init (Example.vec 0) "idx" 0.50 2%Z
                     (Example.record_data Example.idx_entries)
                     (Example.toy []) _ _)).
    + right. split; reflexivity.
    + reflexivity.
  - destruct (proj2 limit_semantics_of_searches Example.folder3
                (Example.linear_search 2) (fun _ => false)
                (Example.vec 100) 0%nat eq_refl eq_refl)
      as [_ [pre [r [H1 [_ H2]]]]].
    exists pre, r. split; [exact H1|exact H2].
Defined.

(** ** Facts about the indexing loop *)

Lemma index_loop_complete (ext : extractor) (stopped : nat -> bool)
    (total : nat) (files : list string) :
  forall (i : nat) (fd : Py.dict Py.features),
    (forall j, (i <= j < i + List.length files)%nat -> stopped j = false) ->
    FeatureIndexer.index_loop ext stopped total i files fd
    = (processed_events total i files, Some (collect_features ext files fd)).
Proof.
  induction files as [|p t IH]; intros i fd H; simpl; [reflexivity|].
  rewrite H by (simpl; lia).
  rewrite IH by (intros j Hj; apply H; simpl; lia).
  unfold collect_features; simpl.
  destruct (extract_features ext p) as [[f|]|]; reflexivity.
Qed.

Lemma index_loop_stopped (ext : extractor) (stopped : nat -> bool)
    (total : nat) (k : nat) :
  forall (files : list string) (i : nat) (fd : Py.dict Py.features),
    (k < List.length files)%nat ->
    stopped (i + k)%nat = true ->
    (forall j, (j < k)%nat -> stopped (i + j)%nat = false) ->
    FeatureIndexer.index_loop ext stopped total i files fd
    = ((processed_events total i (firstn k files)
        ++ [FeatureIndexer.Emit
              (FeatureIndexer.index_failed FeatureIndexer.IndexingCancelled)])%list,
       None).
Proof.
  induction k as [|k IH]; intros files i fd Hlen Hstop Hrun;
    destruct files as [|p t]; simpl in Hlen; try lia; simpl.
  - rewrite Nat.add_0_r in Hstop. now rewrite Hstop.
  - rewrite <- (Nat.add_0_r i) at 1. rewrite Hrun by lia.
    rewrite (IH t (S i)); [reflexivity|lia| |].
    + now replace (S i + k)%nat with (i + S k)%nat by lia.
    + intros j Hj. replace (S i + j)%nat with (i + S j)%nat by lia.
      apply Hrun. lia.
Qed.

Lemma progress_of_processed (req : IndexWorker.stop_request)
    (total : nat) (files : list string) (i : nat) :
  progress_values (map (IndexWorker.relay req) (processed_events total i files))
  = map (fun j => percent j total) (seq (S i) (List.length files)).
Proof.
  revert i. induction files as [|p t IH]; intros i; simpl; [reflexivity|].
  rewrite IH. now replace (i + 1)%nat with (S i) by lia.
Qed.

Lemma extracted_of_processed (req : IndexWorker.stop_request)
    (total : nat) (files : list string) (i : nat) :
  extracted_files (map (IndexWorker.relay req) (processed_events total i files))
  = files.
Proof.
  revert i. induction files as [|p t IH]; intros i; simpl; [reflexivity|].
  now rewrite IH.
Qed.

Lemma dumped_of_processed (req : IndexWorker.stop_request)
    (total : nat) (files : list string) (i : nat) :
  dumped_files (map (IndexWorker.relay req) (processed_events total i files))
  = [].
Proof.
  revert i. induction files as [|p t IH]; intros i; simpl; [reflexivity|].
  now rewrite IH.
Qed.

Lemma terminal_of_processed (req : IndexWorker.stop_request)
    (total : nat) (files : list string) (i : nat) :
  terminal_signals
    (map (IndexWorker.relay req) (processed_events total i files)) = [].
Proof.
  revert i. induction files as [|p t IH]; intros i; simpl; [reflexivity|].
  now rewrite IH.
Qed.

Lemma percent_mono (a b n : nat) : (a <= b)%nat -> (percent a n <= percent b n)%Z.
Proof.
  intros H. unfold percent. destruct n as [|n].
  - simpl. now rewrite !Z.div_0_r.
  - apply Z.div_le_mono; lia.
Qed.

Lemma percent_seq_sorted (n start len : nat) :
  StronglySorted Z.le (map (fun j => percent j n) (seq start len)).
Proof.
  revert start. induction len as [|len IH]; intros start; simpl;
    constructor; [apply IH|].
  apply Forall_forall. intros v Hv. apply in_map_iff in Hv.
  destruct Hv as [j [<- Hj]]. apply in_seq in Hj. apply percent_mono. lia.
Qed.

(** ** Facts about the runs of the index worker *)

(** The record an indexing run writes when it completes. *)
Lemma index_run_empty (w : world) (self : IndexWorker.t)
    (req : IndexWorker.stop_request) :
  image_files w (IndexWorker.folder_path self) = [] ->
  IndexWorker.run w self req
  = ([IndexWorker.Emit
        (IndexWorker.handle_index_failed req FeatureIndexer.NoImagesFound)],
     disk w).
Proof.
  intros H. unfold IndexWorker.run, FeatureIndexer.run, FeatureIndexer.init.
  simpl. rewrite H. reflexivity.
Qed.

Lemma index_run_stopped (w : world) (self : IndexWorker.t) (k : nat) :
  let files := image_files w (IndexWorker.folder_path self) in
  (k < List.length files)%nat ->
  IndexWorker.run w self (IndexWorker.StopAfter k)
  = ((map (IndexWorker.relay (IndexWorker.StopAfter k))
        (processed_events (List.length files) 0 (firstn k files))
      ++ [IndexWorker.Emit IndexWorker.index_cancelled])%list,
     disk w).
Proof.
  intros files Hk. unfold IndexWorker.run, FeatureIndexer.run.
  simpl FeatureIndexer.folder_path. fold files.
  destruct (Nat.eqb_spec (List.length files) 0) as [E|E]; [lia|].
  rewrite (index_loop_stopped _ _ _ k); simpl; try assumption.
  - rewrite map_app. reflexivity.
  - apply Nat.leb_refl.
  - intros j Hj. apply Nat.leb_gt. exact Hj.
Qed.

Lemma index_run_complete (w : world) (self : IndexWorker.t)
    (req : IndexWorker.stop_request) :
  let files := image_files w (IndexWorker.folder_path self) in
  let indexer :=
    FeatureIndexer.init w (IndexWorker.folder_path self)
      (IndexWorker.extractor_ self) (IndexWorker.output_path self) in
  let out := FeatureIndexer.output_path indexer in
  let record :=
    {| extractor_name := name (IndexWorker.extractor_ self);
       features_dict :=
         collect_features (IndexWorker.extractor_ self) files [];
       timestamp := now w |} in
  files <> [] ->
  files_processed req (List.length files) = List.length files ->
  IndexWorker.run w self req
  = if writable w out then
      ((map (IndexWorker.relay req)
          (processed_events (List.length files) 0 files)
        ++ [IndexWorker.Dump out record;
            IndexWorker.Emit (IndexWorker.handle_index_completed req out)])%list,
       write_file (disk w) out (IndexRecord record))
    else
      ((map (IndexWorker.relay req)
          (processed_events (List.length files) 0 files)
        ++ [IndexWorker.Emit
              (IndexWorker.handle_index_failed req
                 FeatureIndexer.IndexCreationError)])%list,
       disk w).
Proof.
  intros files indexer out record Hne Hall.
  unfold IndexWorker.run, FeatureIndexer.run. fold indexer.
  replace (FeatureIndexer.folder_path indexer)
    with (IndexWorker.folder_path self) by reflexivity.
  fold files.
  destruct (Nat.eqb_spec (List.length files) 0) as [E|E].
  { destruct files; [congruence|discriminate]. }
  rewrite index_loop_complete.
  - fold out. replace (FeatureIndexer.extractor_ indexer)
      with (IndexWorker.extractor_ self) by reflexivity.
    fold record. destruct (writable w out); rewrite map_app; reflexivity.
  - intros j Hj. destruct req as [| |k]; simpl; try reflexivity.
    simpl in Hall. apply Nat.leb_gt. lia.
Qed.

Lemma percent_range (i n : nat) :
  (i <= n)%nat -> (0 <= percent i n <= 100)%Z.
Proof.
  intros H. unfold percent. destruct n as [|n].
  - rewrite Z.div_0_r. lia.
  - split.
    + apply Z.div_pos; lia.
    + apply Z.div_le_upper_bound; lia.
Qed.

(** C3. An indexing run over [n] image files that is stopped once [k < n]
    files have been processed ends with the cancellation signal and with
    no other terminal signal (in particular no failure signal); nothing
    is written: the storage is as before; and the progress signals are
    those of the [k] processed files, none above the value emitted for
    file [k]. *)
Theorem cancelled_indexing_run (w : world) (self : IndexWorker.t) (k : nat) :
  let files := image_files w (IndexWorker.folder_path self) in
  let n := List.length files in
  (k < n)%nat ->
  let ev := fst (IndexWorker.run w self (IndexWorker.StopAfter k)) in
  let d := snd (IndexWorker.run w self (IndexWorker.StopAfter k)) in
  terminal_signals ev = [IndexWorker.index_cancelled]
  /\ last ev (IndexWorker.Emit IndexWorker.index_cancelled)
     = IndexWorker.Emit IndexWorker.index_cancelled
  /\ dumped_files ev = []
  /\ d = disk w
  /\ extracted_files ev = firstn k files
  /\ progress_values ev = map (fun j => percent j n) (seq 1 k)
  /\ Forall (fun v => (v <= percent k n)%Z) (progress_values ev).
Proof.
  intros files n Hk ev d. unfold ev, d.
  rewrite (index_run_stopped w self k Hk). simpl fst; simpl snd. fold files.
  unfold terminal_signals, dumped_files, extracted_files, progress_values.
  rewrite !flat_map_app. simpl.
  fold (terminal_signals
          (map (IndexWorker.relay (IndexWorker.StopAfter k))
             (processed_events (List.length files) 0 (firstn k files)))).
  fold (dumped_files
          (map (IndexWorker.relay (IndexWorker.StopAfter k))
             (processed_events (List.length files) 0 (firstn k files)))).
  fold (extracted_files
          (map (IndexWorker.relay (IndexWorker.StopAfter k))
             (processed_events (List.length files) 0 (firstn k files)))).
  fold (progress_values
          (map (IndexWorker.relay (IndexWorker.StopAfter k))
             (processed_events (List.length files) 0 (firstn k files)))).
  rewrite terminal_of_processed, dumped_of_processed, extracted_of_processed,
    progress_of_processed.
  rewrite length_firstn, Nat.min_l by (fold n; lia).
  rewrite !app_nil_r. fold n.
  repeat split; try reflexivity.
  - apply last_last.
  - apply Forall_forall. intros v Hv. apply in_map_iff in Hv.
    destruct Hv as [j [<- Hj]]. apply in_seq in Hj. apply percent_mono. lia.
Qed.

(** C3, instance: ten files, stopped after three. *)
Lemma cancelled_indexing_run_witness :
  (3 < 10)%nat
  /\ terminal_signals
       (fst (IndexWorker.run Example.folder10 Example.index_worker10
               (IndexWorker.StopAfter 3)))
     = [IndexWorker.index_cancelled]
  /\ progress_values
       (fst (IndexWorker.run Example.folder10 Example.index_worker10
               (IndexWorker.StopAfter 3)))
     = [10; 20; 30]%Z.
Proof.
  split; [lia|].
  pose proof (cancelled_indexing_run Example.folder10 Example.index_worker10 3)
    as H.
  simpl in H. specialize (H ltac:(lia)).
  destruct H as [H1 [_ [_ [_ [_ [H2 _]]]]]].
  split; [exact H1|exact H2].
Defined.

(** A stop request that arrives before the indexer object exists sets
    only the worker's flag: the run processes every file, writes the
    index, and still reports a cancellation. *)
Remark stop_before_indexer_still_writes :
  let ev :=
    fst (IndexWorker.run Example.folder3 Example.index_worker3
           IndexWorker.StopBeforeIndexer) in
  extracted_files ev = ["a.jpg"; "b.jpg"; "c.jpg"]
  /\ dumped_files ev = ["pics.pkl"]
  /\ terminal_signals ev = [IndexWorker.index_cancelled].
Proof. repeat split. Qed.

(** The events of any indexing run: those of the files it processed,
    then a tail without progress signals or extractions. *)
Lemma index_run_shape (w : world) (self : IndexWorker.t)
    (req : IndexWorker.stop_request) :
  let files := image_files w (IndexWorker.folder_path self) in
  let n := List.length files in
  let k := files_processed req n in
  exists tail,
    fst (IndexWorker.run w self req)
    = (map (IndexWorker.relay req)
         (processed_events n 0 (firstn k files)) ++ tail)%list
    /\ progress_values tail = []
    /\ extracted_files tail = [].
Proof.
  intros files n k.
  assert (Hk : (k <= n)%nat).
  { unfold k, files_processed. destruct req; lia. }
  destruct (Nat.eq_dec n 0) as [E0|E0].
  - assert (Hf : files = []) by (apply length_zero_iff_nil; exact E0).
    rewrite index_run_empty by exact Hf.
    replace k with 0%nat by lia. simpl.
    eexists. split; [reflexivity|].
    unfold IndexWorker.handle_index_failed.
    destruct (IndexWorker.cancelled req); split; reflexivity.
  - assert (Hf : files <> []).
    { intros Hf. apply E0. unfold n. now rewrite Hf. }
    destruct (Nat.eq_dec k n) as [E|E].
    + rewrite (index_run_complete w self req Hf E).
      rewrite E. unfold n. rewrite firstn_all.
      destruct (writable w _); simpl; eexists; (split; [reflexivity|]);
        unfold IndexWorker.handle_index_completed,
          IndexWorker.handle_index_failed;
        destruct (IndexWorker.cancelled req); split; reflexivity.
    + destruct req as [| |k']; try (simpl in k; unfold k in E; congruence).
      assert (Hlt : (k' < n)%nat) by (unfold k in *; simpl in *; lia).
      rewrite (index_run_stopped w self k' Hlt). simpl.
      replace k with k' by (unfold k; simpl; lia).
      eexists. split; [reflexivity|]. split; reflexivity.
Qed.

Lemma extracted_of_run (w : world) (self : IndexWorker.t)
    (req : IndexWorker.stop_request) :
  let files := image_files w (IndexWorker.folder_path self) in
  extracted_files (fst (IndexWorker.run w self req))
  = firstn (files_processed req (List.length files)) files.
Proof.
  intros files. destruct (index_run_shape w self req) as [tail [-> [_ Ht]]].
  unfold extracted_files in *. rewrite flat_map_app, Ht, app_nil_r.
  apply extracted_of_processed.
Qed.

(** C5 (as amended). In an indexing run over [n] image files, the
    processing of the [i]-th file ([1 <= i <= n]) is followed by exactly
    one progress signal, whose value is [100 * i / n] truncated to an
    integer (not rounded to the nearest). The progress signals of a run
    are those of the files it processed, in order; they never decrease
    and lie between 0 and 100. *)
Theorem indexer_progress_values (w : world) (self : IndexWorker.t)
    (req : IndexWorker.stop_request) :
  let files := image_files w (IndexWorker.folder_path self) in
  let n := List.length files in
  let k := files_processed req n in
  let ev := fst (IndexWorker.run w self req) in
  (exists tail,
     ev = (map (IndexWorker.relay req)
             (processed_events n 0 (firstn k files)) ++ tail)%list
     /\ progress_values tail = []
     /\ extracted_files tail = [])
  /\ progress_values ev = map (fun i => percent i n) (seq 1 k)
  /\ StronglySorted Z.le (progress_values ev)
  /\ Forall (fun v => (0 <= v <= 100)%Z) (progress_values ev).
Proof.
  intros files n k ev.
  assert (Hk : (k <= n)%nat).
  { unfold k, files_processed. destruct req; lia. }
  pose proof (index_run_shape w self req) as Hshape.
  cbv zeta in Hshape. fold files in Hshape. fold n in Hshape.
  fold k in Hshape. fold ev in Hshape.
  assert (Hvals : progress_values ev = map (fun i => percent i n) (seq 1 k)).
  { destruct Hshape as [tail [-> [Ht _]]]. unfold progress_values in *.
    rewrite flat_map_app, Ht, app_nil_r.
    fold (progress_values
            (map (IndexWorker.relay req)
               (processed_events n 0 (firstn k files)))).
    rewrite progress_of_processed, length_firstn. fold n.
    now rewrite Nat.min_l by exact Hk. }
  split; [exact Hshape|]. split; [exact Hvals|]. rewrite Hvals. split.
  - apply percent_seq_sorted.
  - apply Forall_forall. intros v Hv. apply in_map_iff in Hv.
    destruct Hv as [j [<- Hj]]. apply in_seq in Hj. apply percent_range. lia.
Qed.

(** C5, as stated, fails: over three files the signal after the second
    file carries 66, while [round(100 * 2 / 3)] is 67. *)
Lemma indexer_progress_round_counterexample :
  progress_values
    (fst (IndexWorker.run Example.folder3 Example.index_worker3
            IndexWorker.NoStop))
  = [33; 66; 100]%Z
  /\ map (fun i => spec_progress i 3) [1; 2; 3]%nat = [33; 67; 100]%Z
  /\ nth 1 (progress_values
              (fst (IndexWorker.run Example.folder3 Example.index_worker3
                      IndexWorker.NoStop))) 0%Z
     <> spec_progress 2 3.
Proof.
  split; [reflexivity|]. split; [reflexivity|]. vm_compute. discriminate.
Qed.

(** C9. A linear scan (its query features extracted) over a folder with
    no image files delivers the empty result list, then the progress
    value 100, and nothing else: no error. The indexer on the same
    folder fails with the no-images reason. *)
Theorem linear_scan_empty_folder (w : world) (self : SearchWorker.t)
    (stopped : nat -> bool) (qf : Py.features) (n : nat) :
  extract_features (SearchWorker.extractor_ self)
    (SearchWorker.query_image_path self) = Returned (Some qf) ->
  Py.len qf = Returned (S n) ->
  image_files w (SearchWorker.search_folder self) = [] ->
  SearchWorker.run w self stopped
  = [SearchWorker.result_ready []; SearchWorker.progress_update 100]
  /\ forall indexer : IndexWorker.t,
       IndexWorker.folder_path indexer = SearchWorker.search_folder self ->
       fst (IndexWorker.run w indexer IndexWorker.NoStop)
       = [IndexWorker.Emit
            (IndexWorker.index_failed FeatureIndexer.NoImagesFound)].
Proof.
  intros Hq Hlen Hfiles. split.
  - unfold SearchWorker.run. now rewrite Hq, Hlen, Hfiles.
  - intros indexer Hfolder. rewrite index_run_empty; [reflexivity|].
    now rewrite Hfolder.
Qed.

(** C9, instance: a folder without images. *)
Lemma linear_scan_empty_folder_witness :
  SearchWorker.run Example.empty_folder (Example.linear_search 0)
    (fun _ => false)
  = [SearchWorker.result_ready []; SearchWorker.progress_update 100].
Proof.
  refine (proj1 (linear_scan_empty_folder Example.empty_folder
                   (Example.linear_search 0) (fun _ => false)
                   (Example.vec 100) 0 _ _ _)); reflexivity.
Defined.

(** ** Cancellation of the linear scan *)

Lemma scan_loop_stopped (self : SearchWorker.t) (qf : Py.features)
    (stopped : nat -> bool) (total k : nat) :
  forall (files : list string) (i : nat) (results : list result),
    (k < List.length files)%nat ->
    stopped (i + k)%nat = true ->
    (forall j, (j < k)%nat -> stopped (i + j)%nat = false) ->
    fst (SearchWorker.scan_loop self qf stopped total i files results)
    = (map (fun j => SearchWorker.progress_update (percent j total)) (seq i k)
       ++ [SearchWorker.search_cancelled])%list.
Proof.
  induction k as [|k IH]; intros files i results Hlen Hstop Hrun;
    destruct files as [|p t]; simpl in Hlen; try lia; simpl.
  - rewrite Nat.add_0_r in Hstop. now rewrite Hstop.
  - assert (Hi : stopped i = false).
    { rewrite <- (Nat.add_0_r i). apply Hrun. lia. }
    rewrite Hi.
    specialize (IH t (S i) (SearchWorker.scan_file self qf p results)).
    destruct (SearchWorker.scan_loop self qf stopped total (S i) t _)
      as [ev final]. simpl in *. f_equal. apply IH.
    + lia.
    + now replace (S (i + k))%nat with (i + S k)%nat by lia.
    + intros j Hj. replace (S (i + j))%nat with (i + S j)%nat by lia.
      apply Hrun. lia.
Qed.

(** Whenever the stop request is seen before the last file, the run goes
    on, after the cancellation notice, to deliver a result list and the
    progress value 100. *)
Lemma cancelled_scan_goes_on (w : world) (self : SearchWorker.t)
    (stopped : nat -> bool) (qf : Py.features) (n k : nat) :
  extract_features (SearchWorker.extractor_ self)
    (SearchWorker.query_image_path self) = Returned (Some qf) ->
  Py.len qf = Returned (S n) ->
  let files := image_files w (SearchWorker.search_folder self) in
  (k < List.length files)%nat ->
  stopped k = true ->
  (forall j, (j < k)%nat -> stopped j = false) ->
  exists r,
    SearchWorker.run w self stopped
    = (map (fun j => SearchWorker.progress_update
                       (percent j (List.length files))) (seq 0 k)
       ++ [SearchWorker.search_cancelled; SearchWorker.result_ready r;
           SearchWorker.progress_update 100])%list.
Proof.
  intros Hq Hlen files Hk Hstop Hrun.
  unfold SearchWorker.run. rewrite Hq, Hlen. fold files.
  destruct (Nat.eqb_spec (List.length files) 0) as [E|E]; [lia|].
  pose proof (scan_loop_stopped self qf stopped (List.length files) k
                files 0 [] Hk Hstop Hrun) as Hev.
  destruct (SearchWorker.scan_loop self qf stopped (List.length files) 0
              files []) as [ev results]. simpl in Hev. subst ev.
  eexists. rewrite <- app_assoc. reflexivity.
Qed.

(** C2, at the failing input: three files, the stop request seen when
    the second file is reached. After the cancellation notice the run
    still delivers a (partial) result list and the progress value 100. *)
Lemma cancelled_scan_delivers_partial_results :
  SearchWorker.run Example.folder3 (Example.linear_search 0)
    (fun i => (1 <=? i)%nat)
  = [SearchWorker.progress_update 0;
     SearchWorker.search_cancelled;
     SearchWorker.result_ready [("a.jpg", 0.90)];
     SearchWorker.progress_update 100].
Proof. reflexivity. Qed.

(** ** Facts about the single-index search *)

Lemma search_in_index_available (w : world) (self : BatchSearchProcessor.t)
    (q : Py.features) (index_path : string) (thr : Q) (max_results : Z)
    (d : index_data) :
  available w self index_path d ->
  BatchSearchProcessor.search_in_index w self q index_path thr max_results
  = match BatchSearchProcessor.find_extractor (AVAILABLE_EXTRACTORS w)
            (extractor_name d) with
    | None =>
        (Returned [], fst (after_lookup self index_path d),
         snd (after_lookup self index_path d))
    | Some ext =>
        let scan :=
          BatchSearchProcessor.scan_entries w ext (Py.flatten q) thr
            (features_dict d) in
        (Returned (limit_results max_results (sort_desc (fst scan))),
         fst (after_lookup self index_path d),
         (snd (after_lookup self index_path d) ++ snd scan)%list)
    end.
Proof.
  intros Hav.
  unfold BatchSearchProcessor.search_in_index, after_lookup, Py.mem,
    BatchSearchProcessor.load_index.
  destruct Hav as [Hc|[Hc Hd]]; rewrite Hc.
  - simpl. rewrite Hc.
    destruct (BatchSearchProcessor.find_extractor _ _); [|reflexivity].
    destruct (BatchSearchProcessor.scan_entries _ _ _ _ _); reflexivity.
  - rewrite Hd. simpl. rewrite get_set_same.
    destruct (BatchSearchProcessor.find_extractor _ _); [|reflexivity].
    destruct (BatchSearchProcessor.scan_entries _ _ _ _ _); reflexivity.
Qed.

(** Every logged comparison is for an entry whose flattened shape agrees
    with the query's. *)
Lemma scan_entries_calls (w : world) (ext : extractor) (q : Py.features)
    (thr : Q) (entries : Py.dict Py.features) (e : io_event) :
  In e (snd (BatchSearchProcessor.scan_entries w ext q thr entries)) ->
  exists p f,
    e = CompareCall p q (Py.flatten f)
    /\ In (p, f) entries
    /\ path_exists w p = true
    /\ BatchSearchProcessor.shapes_differ q (Py.flatten f) = false.
Proof.
  induction entries as [|[p' f'] t IH]; simpl; [tauto|].
  destruct (BatchSearchProcessor.scan_entries w ext q thr t) as [rs ev].
  simpl in IH.
  assert (Hrest : In e ev ->
            exists p f, e = CompareCall p q (Py.flatten f)
              /\ (( p', f') = (p, f) \/ In (p, f) t)
              /\ path_exists w p = true
              /\ BatchSearchProcessor.shapes_differ q (Py.flatten f) = false).
  { intros H. destruct (IH H) as [p [f [H1 [H2 H3]]]].
    exists p, f. split; [exact H1|]. split; [now right|exact H3]. }
  destruct (path_exists w p') eqn:Hex; simpl; [|exact Hrest].
  destruct (BatchSearchProcessor.shapes_differ q (Py.flatten f')) eqn:Hsh;
    simpl; [exact Hrest|].
  assert (Hhere : In e (CompareCall p' q (Py.flatten f') :: ev) ->
            exists p f, e = CompareCall p q (Py.flatten f)
              /\ (( p', f') = (p, f) \/ In (p, f) t)
              /\ path_exists w p = true
              /\ BatchSearchProcessor.shapes_differ q (Py.flatten f) = false).
  { intros [<-|H]; [|now apply Hrest].
    exists p', f'. repeat split; auto. }
  destruct (compare_features ext q (Py.flatten f')) as [sim|];
    [destruct (Qle_bool thr sim)|]; exact Hhere.
Qed.

Lemma shapes_differ_true (q f : Py.features) (s1 s2 : list nat) :
  Py.shape_of q = Some s1 -> Py.shape_of f = Some s2 -> s1 <> s2 ->
  BatchSearchProcessor.shapes_differ q f = true.
Proof.
  intros H1 H2 Hne. unfold BatchSearchProcessor.shapes_differ.
  rewrite H1, H2. destruct (list_eq_dec Nat.eq_dec s1 s2); congruence.
Qed.

Lemma compare_calls_for_nil (img_path : string) (ev : list io_event) :
  (forall q f, ~ In (CompareCall img_path q f) ev) ->
  compare_calls_for img_path ev = [].
Proof.
  intros H. unfold compare_calls_for.
  destruct (filter _ ev) as [|e t] eqn:E; [reflexivity|].
  assert (Hin : In e (filter
            (fun e => match e with
                      | CompareCall p _ _ => String.eqb p img_path
                      | StorageRead _ => false
                      end) ev)) by (rewrite E; now left).
  apply filter_In in Hin. destruct Hin as [Hin Hb].
  destruct e as [|p q f]; [discriminate|].
  apply String.eqb_eq in Hb. subst p. now apply H in Hin.
Qed.

Lemma In_limit_results (n : Z) (l : list result) (x : result) :
  In x (limit_results n (sort_desc l)) -> In x l.
Proof.
  unfold limit_results, Py.slice_to. intros H.
  apply (Permutation_in _ (Permutation_sym (sort_desc_perm l))).
  destruct (0 <? n)%Z; [eapply In_firstn; eassumption|assumption].
Qed.

(** C10. A single-index search returns the empty list, without raising,
    when the index file cannot be loaded and when the record names an
    extractor that is not available. An entry whose flattened shape
    differs from the flattened shape of the query is skipped: no call to
    [compare_features] is made for it and it is not in the answer. *)
Theorem search_in_index_degrades :
  (forall (w : world) (self : BatchSearchProcessor.t) (q : Py.features)
          (index_path : string) (thr : Q) (max_results : Z),
     Py.get index_path (BatchSearchProcessor.indexes self) = None ->
     disk w index_path = Raised ->
     BatchSearchProcessor.search_in_index w self q index_path thr max_results
     = (Returned [], self, [StorageRead index_path]))
  /\
  (forall (w : world) (self : BatchSearchProcessor.t) (q : Py.features)
          (index_path : string) (thr : Q) (max_results : Z) (d : index_data),
     available w self index_path d ->
     BatchSearchProcessor.find_extractor (AVAILABLE_EXTRACTORS w)
       (extractor_name d) = None ->
     fst (fst (BatchSearchProcessor.search_in_index w self q index_path thr
                 max_results)) = Returned []
     /\ forall p,
          compare_calls_for p
            (snd (BatchSearchProcessor.search_in_index w self q index_path
                    thr max_results)) = [])
  /\
  (forall (w : world) (self : BatchSearchProcessor.t) (q : Py.features)
          (index_path : string) (thr : Q) (max_results : Z) (d : index_data)
          (img_path : string) (f : Py.features) (s1 s2 : list nat),
     available w self index_path d ->
     NoDup (Py.keys (features_dict d)) ->
     In (img_path, f) (features_dict d) ->
     Py.shape_of (Py.flatten q) = Some s1 ->
     Py.shape_of (Py.flatten f) = Some s2 ->
     s1 <> s2 ->
     compare_calls_for img_path
       (snd (BatchSearchProcessor.search_in_index w self q index_path thr
               max_results)) = []
     /\ exists r,
          fst (fst (BatchSearchProcessor.search_in_index w self q index_path
                      thr max_results)) = Returned r
          /\ forall s, ~ In (img_path, s) r).
Proof.
  split; [|split].
  - intros w self q index_path thr max_results Hc Hd.
    unfold BatchSearchProcessor.search_in_index, Py.mem,
      BatchSearchProcessor.load_index.
    now rewrite Hc, Hd.
  - intros w self q index_path thr max_results d Hav Hext.
    rewrite (search_in_index_available w self q index_path thr max_results
               d Hav), Hext. simpl.
    split; [reflexivity|]. intros p. unfold after_lookup.
    destruct (Py.mem _ _); reflexivity.
  - intros w self q index_path thr max_results d img_path f s1 s2
      Hav Hnd Hin Hs1 Hs2 Hne.
    pose proof (shapes_differ_true _ _ _ _ Hs1 Hs2 Hne) as Hdiff.
    rewrite (search_in_index_available w self q index_path thr max_results
               d Hav).
    destruct (BatchSearchProcessor.find_extractor _ _) as [ext|].
    + cbv zeta. simpl fst; simpl snd. split.
      * apply compare_calls_for_nil. intros q' f' Hcall.
        apply in_app_or in Hcall. destruct Hcall as [Hcall|Hcall].
        -- unfold after_lookup in Hcall.
           destruct (Py.mem _ _); simpl in Hcall; [tauto|].
           destruct Hcall as [H|[]]; discriminate.
        -- apply scan_entries_calls in Hcall.
           destruct Hcall as [p [f0 [E [Hin0 [_ Hsame]]]]].
           inversion E; subst.
           apply (In_get _ _ _ Hnd) in Hin. apply (In_get _ _ _ Hnd) in Hin0.
           assert (f0 = f) by congruence. subst f0. congruence.
      * eexists. split; [reflexivity|]. intros s Hr.
        apply In_limit_results in Hr. apply scan_entries_In in Hr.
        destruct Hr as [f0 [Hin0 [_ [Hsame _]]]].
        apply (In_get _ _ _ Hnd) in Hin. apply (In_get _ _ _ Hnd) in Hin0.
        assert (f0 = f) by congruence. subst f0. congruence.
    + simpl. split.
      * unfold after_lookup. destruct (Py.mem _ _); reflexivity.
      * exists []. split; [reflexivity|]. intros s [].
Qed.

(** C10, instances: a key with no file behind it, a record of an unknown
    extractor, and a stored vector of two components against a query of
    one. *)
Lemma search_in_index_degrades_witness :
  BatchSearchProcessor.search_in_index Example.one_store
    BatchSearchProcessor.init (Example.vec 0) "nowhere" 0.50 0
  = (Returned [], BatchSearchProcessor.init, [StorageRead "nowhere"])
  /\ fst (fst (BatchSearchProcessor.search_in_index Example.one_store
                 BatchSearchProcessor.init (Example.vec 0) "foreign" 0.50 0))
     = Returned []
  /\ compare_calls_for "d.jpg"
       (snd (BatchSearchProcessor.search_in_index Example.one_store
               BatchSearchProcessor.init (Example.vec 0) "idx" 0.50 0))
     = [].
Proof.
  split; [|split].
  - apply (proj1 search_in_index_degrades); reflexivity.
  - refine (proj1 (proj1 (proj2 search_in_index_degrades) Example.one_store
                     BatchSearchProcessor.init (Example.vec 0) "foreign"
                     0.50 0%Z
                     {| extractor_name := "gone";
                        features_dict := [("a.jpg", Example.vec 90)];
                        timestamp := 0 |} _ _)).
    + right. split; reflexivity.
    + reflexivity.
  - refine (proj1 (proj2 (proj2 search_in_index_degrades) Example.one_store
                     BatchSearchProcessor.init (Example.vec 0) "idx"
                     0.50 0%Z (Example.record_data Example.idx_entries)
                     "d.jpg" (Py.NdArray [2%nat] [99%Z; 99%Z])
                     [1%nat] [2%nat] _ _ _ _ _ _)).
    + right. split; reflexivity.
    + repeat constructor; simpl; intuition discriminate.
    + simpl. tauto.
    + reflexivity.
    + reflexivity.
    + discriminate.
Defined.

(** ** Facts about indexing from the dialog *)

(** What an indexing run emits does not depend on what storage holds. *)
Lemma index_run_ignores_disk (w : world) (d0 : storage) (self : IndexWorker.t)
    (req : IndexWorker.stop_request) :
  fst (IndexWorker.run (with_disk w d0) self req)
  = fst (IndexWorker.run w self req).
Proof.
  unfold IndexWorker.run, FeatureIndexer.run, FeatureIndexer.init.
  simpl.
  change (image_files (with_disk w d0) (IndexWorker.folder_path self))
    with (image_files w (IndexWorker.folder_path self)).
  destruct (List.length (image_files w (IndexWorker.folder_path self)) =? 0)%nat;
    [reflexivity|].
  destruct (FeatureIndexer.index_loop _ _ _ _ _ _) as [ev [fd|]];
    [|reflexivity].
  destruct (writable w _); reflexivity.
Qed.

(** C4 (as amended). With an existing index selected in the dialog, the
    "update" mode starts the very indexing run that a confirmed
    "recreate" starts: features are extracted for every image file of
    the folder, in order, whether or not the file is a key of the
    existing record; what the run emits and writes does not depend on
    the content of storage, so the existing record is never consulted;
    and when the run completes, the file of the selected index is
    overwritten with a record built from the empty dictionary. *)
Theorem update_mode_reindexes_everything
    (w : world) (dlg : IndexDialog.t) (sel : IndexDialog.existing_index) :
  IndexDialog.tab_index dlg <> 0%nat ->
  nth_error (IndexDialog.existing_indexes dlg) (IndexDialog.index_list dlg)
    = Some sel ->
  IndexDialog.recreate_radio dlg = false ->
  let files := image_files w (IndexDialog.folder_path dlg) in
  let ext := IndexDialog.index_extractor sel in
  let fresh :=
    {| extractor_name := name ext;
       features_dict := collect_features ext files [];
       timestamp := now w |} in
  exists ev d',
    IndexDialog.index_now w dlg IndexWorker.NoStop = Some (ev, d')
    /\ IndexDialog.index_now w (choose_recreate dlg) IndexWorker.NoStop
       = Some (ev, d')
    /\ extracted_files ev = files
    /\ (forall d0 : storage,
          option_map fst
            (IndexDialog.index_now (with_disk w d0) dlg IndexWorker.NoStop)
          = Some ev)
    /\ (files <> [] ->
        writable w (IndexDialog.index_path sel) = true ->
        In (IndexWorker.Dump (IndexDialog.index_path sel) fresh) ev
        /\ d' = write_file (disk w) (IndexDialog.index_path sel)
                  (IndexRecord fresh)).
Proof.
  intros Htab Hsel Hupd files ext fresh.
  set (worker :=
         {| IndexWorker.folder_path := IndexDialog.folder_path dlg;
            IndexWorker.extractor_ := ext;
            IndexWorker.output_path := Some (IndexDialog.index_path sel) |}).
  assert (Hstart : forall w', IndexDialog.start_indexing w' dlg = Some worker).
  { intros w'. unfold IndexDialog.start_indexing.
    destruct (Nat.eqb_spec (IndexDialog.tab_index dlg) 0); [contradiction|].
    destruct (IndexDialog.existing_indexes dlg) as [|e0 rest] eqn:He.
    - destruct (IndexDialog.index_list dlg); discriminate.
    - simpl. rewrite Hsel, Hupd. reflexivity. }
  assert (Hstart' : IndexDialog.start_indexing w (choose_recreate dlg)
                    = Some worker).
  { unfold IndexDialog.start_indexing. simpl.
    destruct (Nat.eqb_spec (IndexDialog.tab_index dlg) 0); [contradiction|].
    destruct (IndexDialog.existing_indexes dlg) as [|e0 rest] eqn:He.
    - destruct (IndexDialog.index_list dlg); discriminate.
    - simpl. rewrite Hsel. reflexivity. }
  exists (fst (IndexWorker.run w worker IndexWorker.NoStop)),
         (snd (IndexWorker.run w worker IndexWorker.NoStop)).
  unfold IndexDialog.index_now. rewrite Hstart, Hstart'.
  rewrite <- surjective_pairing.
  split; [reflexivity|]. split; [reflexivity|]. split.
  { rewrite extracted_of_run. simpl. apply firstn_all. }
  split.
  { intros d0. rewrite Hstart. simpl. f_equal. apply index_run_ignores_disk. }
  intros Hne Hw.
  rewrite (index_run_complete w worker IndexWorker.NoStop Hne eq_refl).
  simpl. rewrite Hw. simpl. split; [|reflexivity].
  apply in_or_app. right. now left.
Qed.

(** C4, instance: an index that holds [a.jpg], a folder that holds
    [a.jpg] and [b.jpg]. *)
Lemma update_mode_reindexes_everything_witness :
  exists ev d',
    IndexDialog.index_now Example.indexed_folder Example.update_dialog
      IndexWorker.NoStop = Some (ev, d')
    /\ extracted_files ev = ["a.jpg"; "b.jpg"].
Proof.
  destruct (update_mode_reindexes_everything Example.indexed_folder
              Example.update_dialog
              {| IndexDialog.index_name := "toy";
                 IndexDialog.index_path := "old.pkl";
                 IndexDialog.index_extractor := Example.toy Example.photos |})
    as [ev [d' [H1 [_ [H2 _]]]]].
  - simpl. discriminate.
  - reflexivity.
  - reflexivity.
  - exists ev, d'. split; [exact H1|exact H2].
Defined.

(** C4, as stated, fails: the existing record holds [a.jpg]; in update
    mode [a.jpg] is extracted again and its stored value is replaced
    (0.10 becomes 0.90 in the toy scoring), whereas the incremental merge
    of the specification extracts [b.jpg] only and keeps the old value. *)
Lemma update_mode_counterexample :
  let existing := Example.record_data Example.old_entries in
  let ext := Example.toy Example.photos in
  Example.disk_of [("old.pkl", IndexRecord existing)] "old.pkl"
    = Returned (IndexRecord existing)
  /\ option_map (fun r => extracted_files (fst r))
       (IndexDialog.index_now Example.indexed_folder Example.update_dialog
          IndexWorker.NoStop)
     = Some ["a.jpg"; "b.jpg"]
  /\ option_map (fun r => snd r "old.pkl")
       (IndexDialog.index_now Example.indexed_folder Example.update_dialog
          IndexWorker.NoStop)
     = Some (Returned
               (Example.record_of
                  [("a.jpg", Example.vec 90); ("b.jpg", Example.vec 40)]))
  /\ features_dict
       (spec_merge_incremental existing ["a.jpg"; "b.jpg"] ext)
     = [("a.jpg", Example.vec 10); ("b.jpg", Example.vec 40)]
  /\ option_map (fun r => snd r "old.pkl")
       (IndexDialog.index_now Example.indexed_folder Example.update_dialog
          IndexWorker.NoStop)
     <> Some (Returned
                (IndexRecord
                   (spec_merge_incremental existing ["a.jpg"; "b.jpg"] ext))).
Proof.
  repeat split; try reflexivity. vm_compute. discriminate.
Qed.

(** ** Facts about the cache *)

Lemma scan_entries_ignores_disk (w : world) (d0 : storage) (ext : extractor)
    (q : Py.features) (thr : Q) (entries : Py.dict Py.features) :
  BatchSearchProcessor.scan_entries (with_disk w d0) ext q thr entries
  = BatchSearchProcessor.scan_entries w ext q thr entries.
Proof.
  induction entries as [|[p f] t IH]; simpl; [reflexivity|].
  now rewrite IH.
Qed.

Lemma scan_entries_reads_nothing (w : world) (ext : extractor)
    (q : Py.features) (thr : Q) (entries : Py.dict Py.features) :
  storage_reads (snd (BatchSearchProcessor.scan_entries w ext q thr entries))
  = [].
Proof.
  induction entries as [|[p f] t IH]; simpl; [reflexivity|].
  destruct (BatchSearchProcessor.scan_entries w ext q thr t) as [rs ev].
  simpl in IH.
  destruct (path_exists w p); simpl; [|exact IH].
  destruct (BatchSearchProcessor.shapes_differ q (Py.flatten f)); simpl;
    [exact IH|].
  destruct (compare_features ext q (Py.flatten f)) as [s|];
    [destruct (Qle_bool thr s)|]; exact IH.
Qed.

(** A search never reads storage for a key that is in the cache, leaves
    the cache as it is, and answers from the cached object alone. *)
Lemma search_cached (w : world) (self : BatchSearchProcessor.t)
    (q : Py.features) (index_path : string) (thr : Q) (max_results : Z)
    (o : pyobj) :
  Py.get index_path (BatchSearchProcessor.indexes self) = Some o ->
  storage_reads
    (snd (BatchSearchProcessor.search_in_index w self q index_path thr
            max_results)) = []
  /\ snd (fst (BatchSearchProcessor.search_in_index w self q index_path thr
                 max_results)) = self
  /\ forall d0 : storage,
       BatchSearchProcessor.search_in_index (with_disk w d0) self q
         index_path thr max_results
       = BatchSearchProcessor.search_in_index w self q index_path thr
           max_results.
Proof.
  intros Hc. split; [|split].
  - unfold BatchSearchProcessor.search_in_index, Py.mem.
    rewrite Hc. simpl. rewrite Hc. destruct o as [d|]; [|reflexivity].
    destruct (BatchSearchProcessor.find_extractor _ _) as [ext|];
      [|reflexivity].
    pose proof (scan_entries_reads_nothing w ext (Py.flatten q) thr
                  (features_dict d)) as Hr.
    destruct (BatchSearchProcessor.scan_entries w ext _ _ _). exact Hr.
  - unfold BatchSearchProcessor.search_in_index, Py.mem.
    rewrite Hc. simpl. rewrite Hc. destruct o as [d|]; [|reflexivity].
    destruct (BatchSearchProcessor.find_extractor _ _) as [ext|];
      [|reflexivity].
    destruct (BatchSearchProcessor.scan_entries w ext _ _ _). reflexivity.
  - intros d0. unfold BatchSearchProcessor.search_in_index, Py.mem.
    rewrite Hc. simpl. rewrite Hc. destruct o as [d|]; [|reflexivity].
    change (AVAILABLE_EXTRACTORS (with_disk w d0))
      with (AVAILABLE_EXTRACTORS w).
    destruct (BatchSearchProcessor.find_extractor _ _) as [ext|];
      [|reflexivity].
    now rewrite scan_entries_ignores_disk.
Qed.

(** No search removes or replaces an entry of the cache. *)
Lemma search_keeps_cache (w : world) (self : BatchSearchProcessor.t)
    (q : Py.features) (index_path : string) (thr : Q) (max_results : Z)
    (key : string) (o : pyobj) :
  Py.get key (BatchSearchProcessor.indexes self) = Some o ->
  Py.get key
    (BatchSearchProcessor.indexes
       (snd (fst (BatchSearchProcessor.search_in_index w self q index_path
                    thr max_results)))) = Some o.
Proof.
  intros Hk. unfold BatchSearchProcessor.search_in_index, Py.mem,
    BatchSearchProcessor.load_index.
  assert (Hset : forall o',
            Py.get index_path (BatchSearchProcessor.indexes self) = None ->
            Py.get key (Py.set index_path o'
                          (BatchSearchProcessor.indexes self)) = Some o).
  { intros o' Hnone. rewrite get_set_other; [exact Hk|].
    intros ->. congruence. }
  destruct (Py.get index_path (BatchSearchProcessor.indexes self))
    as [o0|] eqn:Hc; simpl.
  - rewrite Hc. destruct o0 as [d|]; [|exact Hk].
    destruct (BatchSearchProcessor.find_extractor _ _); [|exact Hk].
    destruct (BatchSearchProcessor.scan_entries _ _ _ _ _). exact Hk.
  - destruct (disk w index_path) as [o'|]; simpl; [|exact Hk].
    rewrite get_set_same. destruct o' as [d|]; simpl; try now apply Hset.
    destruct (BatchSearchProcessor.find_extractor _ _); simpl;
      [|now apply Hset].
    destruct (BatchSearchProcessor.scan_entries _ _ _ _ _). simpl.
    now apply Hset.
Qed.

(** C8 (as amended). The cache of loaded indexes belongs to one
    [BatchSearchProcessor] object, not to the process. On one such
    object, once a key is cached every later [search_in_index] against it
    answers from the cached object without reading storage (the answer is
    the same whatever storage holds by then), and no search ever drops or
    replaces a cached entry. [load_index] itself reads storage on every
    call, cached or not, and caches what it read; a search against a key
    that is not cached reads storage once. Every [IndexedSearchWorker]
    is created with a processor of its own and an empty cache, so its
    search reads storage. *)
Theorem cache_is_per_processor :
  (forall (w : world) (self : BatchSearchProcessor.t) (q : Py.features)
          (index_path : string) (thr : Q) (max_results : Z) (o : pyobj),
     Py.get index_path (BatchSearchProcessor.indexes self) = Some o ->
     storage_reads
       (snd (BatchSearchProcessor.search_in_index w self q index_path thr
               max_results)) = []
     /\ snd (fst (BatchSearchProcessor.search_in_index w self q index_path
                    thr max_results)) = self
     /\ forall d0 : storage,
          BatchSearchProcessor.search_in_index (with_disk w d0) self q
            index_path thr max_results
          = BatchSearchProcessor.search_in_index w self q index_path thr
              max_results)
  /\
  (forall (w : world) (self : BatchSearchProcessor.t) (q : Py.features)
          (index_path : string) (thr : Q) (max_results : Z)
          (key : string) (o : pyobj),
     Py.get key (BatchSearchProcessor.indexes self) = Some o ->
     Py.get key
       (BatchSearchProcessor.indexes
          (snd (fst (BatchSearchProcessor.search_in_index w self q
                       index_path thr max_results)))) = Some o)
  /\
  (forall (w : world) (self : BatchSearchProcessor.t) (index_path : string)
          (o : pyobj),
     disk w index_path = Returned o ->
     BatchSearchProcessor.load_index w self index_path
     = (true,
        {| BatchSearchProcessor.indexes :=
             Py.set index_path o (BatchSearchProcessor.indexes self) |},
        [StorageRead index_path])
     /\ Py.get index_path
          (BatchSearchProcessor.indexes
             (snd (fst (BatchSearchProcessor.load_index w self index_path))))
        = Some o)
  /\
  (forall (w : world) (self : BatchSearchProcessor.t) (q : Py.features)
          (index_path : string) (thr : Q) (max_results : Z) (o : pyobj),
     Py.get index_path (BatchSearchProcessor.indexes self) = None ->
     disk w index_path = Returned o ->
     storage_reads
       (snd (BatchSearchProcessor.search_in_index w self q index_path thr
               max_results)) = [index_path]
     /\ Py.get index_path
          (BatchSearchProcessor.indexes
             (snd (fst (BatchSearchProcessor.search_in_index w self q
                          index_path thr max_results)))) = Some o)
  /\
  (forall (w : world) (query index : string) (ext : extractor) (thr : Q)
          (limit : Z) (qf : Py.features) (o : pyobj),
     extract_features ext query = Returned (Some qf) ->
     disk w index = Returned o ->
     IndexedSearchWorker.batch_processor
       (IndexedSearchWorker.init query index ext thr limit)
     = BatchSearchProcessor.init
     /\ storage_reads
          (snd (IndexedSearchWorker.run w
                  (IndexedSearchWorker.init query index ext thr limit)))
        = [index]).
Proof.
  assert (Hmiss : forall (w : world) (self : BatchSearchProcessor.t)
            (q : Py.features) (index_path : string) (thr : Q)
            (max_results : Z) (o : pyobj),
            Py.get index_path (BatchSearchProcessor.indexes self) = None ->
            disk w index_path = Returned o ->
            storage_reads
              (snd (BatchSearchProcessor.search_in_index w self q index_path
                      thr max_results)) = [index_path]
            /\ Py.get index_path
                 (BatchSearchProcessor.indexes
                    (snd (fst (BatchSearchProcessor.search_in_index w self q
                                 index_path thr max_results)))) = Some o).
  { intros w self q index_path thr max_results o Hc Hd.
    unfold BatchSearchProcessor.search_in_index, Py.mem,
      BatchSearchProcessor.load_index.
    rewrite Hc, Hd. simpl. rewrite get_set_same.
    destruct o as [d|]; simpl; [|split; [reflexivity|apply get_set_same]].
    destruct (BatchSearchProcessor.find_extractor _ _) as [ext|]; simpl;
      [|split; [reflexivity|apply get_set_same]].
    pose proof (scan_entries_reads_nothing w ext (Py.flatten q) thr
                  (features_dict d)) as Hr.
    destruct (BatchSearchProcessor.scan_entries w ext _ _ _) as [rs ev].
    simpl in *. split; [now rewrite Hr|apply get_set_same]. }
  split; [exact search_cached|]. split; [exact search_keeps_cache|].
  split; [|split; [exact Hmiss|]].
  - intros w self index_path o Hd.
    unfold BatchSearchProcessor.load_index. rewrite Hd. simpl.
    split; [reflexivity|apply get_set_same].
  - intros w query index ext thr limit qf o Hq Hd.
    split; [reflexivity|].
    unfold IndexedSearchWorker.run. simpl. rewrite Hq.
    destruct (Hmiss w BatchSearchProcessor.init qf index thr limit o
                eq_refl Hd) as [Hreads _].
    destruct (BatchSearchProcessor.search_in_index w
                BatchSearchProcessor.init qf index thr limit)
      as [[r proc] ev].
    simpl in Hreads. destruct r; exact Hreads.
Qed.

(** C8, instance: a processor that has loaded [idx] answers from its
    cache after the file was rewritten. *)
Lemma cache_is_per_processor_witness :
  storage_reads
    (snd (BatchSearchProcessor.search_in_index Example.one_store_rewritten
            (snd (fst (BatchSearchProcessor.load_index Example.one_store
                         BatchSearchProcessor.init "idx")))
            (Example.vec 0) "idx" 0.50 0))
  = []
  /\ fst (fst (BatchSearchProcessor.search_in_index
                 Example.one_store_rewritten
                 (snd (fst (BatchSearchProcessor.load_index Example.one_store
                              BatchSearchProcessor.init "idx")))
                 (Example.vec 0) "idx" 0.50 0))
     = Returned [("c.jpg", 0.95); ("a.jpg", 0.90)].
Proof.
  split; [|reflexivity].
  refine (proj1 (proj1 cache_is_per_processor Example.one_store_rewritten _
                   (Example.vec 0) "idx" 0.50 0%Z
                   (Example.record_of Example.idx_entries) _)).
  reflexivity.
Defined.

(** C8, as stated, fails. A first indexed search loads [idx] and caches
    it in its own processor; after the file is rewritten, a second
    indexed search in the same process reads storage again and answers
    from the new content. Likewise a second [load_index] on the processor
    that holds the key reads storage and replaces the cached record. *)
Lemma process_wide_cache_counterexample :
  let worker :=
    IndexedSearchWorker.init "query.png" "idx" (Example.toy Example.photos)
      0.50 0 in
  let first := IndexedSearchWorker.run Example.one_store worker in
  let second := IndexedSearchWorker.run Example.one_store_rewritten worker in
  let loaded :=
    snd (fst (BatchSearchProcessor.load_index Example.one_store
                BatchSearchProcessor.init "idx")) in
  Py.get "idx"
    (BatchSearchProcessor.indexes
       (IndexedSearchWorker.batch_processor (snd (fst first))))
  = Some (Example.record_of Example.idx_entries)
  /\ storage_reads (snd second) = ["idx"]
  /\ fst (fst second)
     = [IndexedSearchWorker.progress_update 10;
        IndexedSearchWorker.progress_update 30;
        IndexedSearchWorker.progress_update 90;
        IndexedSearchWorker.result_ready [("z.jpg", 0.70)];
        IndexedSearchWorker.progress_update 100]
  /\ BatchSearchProcessor.load_index Example.one_store_rewritten loaded "idx"
     = (true,
        {| BatchSearchProcessor.indexes :=
             [("idx", Example.record_of [("z.jpg", Example.vec 70)])] |},
        [StorageRead "idx"]).
Proof. repeat split. Qed.

(** ** Beyond the claims: the single-index search *)

(** The answer of a search is decided by the object it works on. *)
Lemma search_result_by_lookup (w : world) (self : BatchSearchProcessor.t)
    (q : Py.features) (index_path : string) (thr : Q) (max_results : Z) :
  fst (fst (BatchSearchProcessor.search_in_index w self q index_path thr
              max_results))
  = match looked_up w self index_path with
    | None => Returned []
    | Some OtherObject => Raised
    | Some (IndexRecord d) =>
        match BatchSearchProcessor.find_extractor (AVAILABLE_EXTRACTORS w)
                (extractor_name d) with
        | None => Returned []
        | Some ext =>
            Returned
              (limit_results max_results
                 (sort_desc
                    (fst (BatchSearchProcessor.scan_entries w ext
                            (Py.flatten q) thr (features_dict d)))))
        end
    end.
Proof.
  unfold BatchSearchProcessor.search_in_index, looked_up, Py.mem,
    BatchSearchProcessor.load_index.
  destruct (Py.get index_path (BatchSearchProcessor.indexes self))
    as [o|] eqn:Hc; simpl.
  - rewrite Hc. destruct o as [d|]; [|reflexivity].
    destruct (BatchSearchProcessor.find_extractor _ _); [|reflexivity].
    destruct (BatchSearchProcessor.scan_entries _ _ _ _ _); reflexivity.
  - destruct (disk w index_path) as [o|]; simpl; [|reflexivity].
    rewrite get_set_same. destruct o as [d|]; [|reflexivity].
    destruct (BatchSearchProcessor.find_extractor _ _); [|reflexivity].
    destruct (BatchSearchProcessor.scan_entries _ _ _ _ _); reflexivity.
Qed.

(** The cache after a search: as before, or with the object just loaded
    under the key searched. *)
Lemma search_cache_after (w : world) (self : BatchSearchProcessor.t)
    (q : Py.features) (index_path : string) (thr : Q) (max_results : Z) :
  BatchSearchProcessor.indexes
    (snd (fst (BatchSearchProcessor.search_in_index w self q index_path thr
                 max_results)))
  = match Py.get index_path (BatchSearchProcessor.indexes self),
          disk w index_path with
    | None, Returned o =>
        Py.set index_path o (BatchSearchProcessor.indexes self)
    | _, _ => BatchSearchProcessor.indexes self
    end.
Proof.
  unfold BatchSearchProcessor.search_in_index, Py.mem,
    BatchSearchProcessor.load_index.
  destruct (Py.get index_path (BatchSearchProcessor.indexes self))
    as [o|] eqn:Hc; simpl.
  - rewrite Hc. destruct o as [d|]; [|reflexivity].
    destruct (BatchSearchProcessor.find_extractor _ _); [|reflexivity].
    destruct (BatchSearchProcessor.scan_entries _ _ _ _ _); reflexivity.
  - destruct (disk w index_path) as [o|]; simpl; [|reflexivity].
    rewrite get_set_same. destruct o as [d|]; [|reflexivity].
    destruct (BatchSearchProcessor.find_extractor _ _); [|reflexivity].
    destruct (BatchSearchProcessor.scan_entries _ _ _ _ _); reflexivity.
Qed.

Lemma looked_up_available (w : world) (self : BatchSearchProcessor.t)
    (index_path : string) (d : index_data) :
  available w self index_path d ->
  looked_up w self index_path = Some (IndexRecord d).
Proof.
  unfold looked_up. intros [Hc|[Hc Hd]]; rewrite Hc; [reflexivity|].
  now rewrite Hd.
Qed.

Lemma scan_entries_qualify (w : world) (ext : extractor) (q : Py.features)
    (thr : Q) (entries : Py.dict Py.features) (p : string) (s : Q) :
  In (p, s)
    (fst (BatchSearchProcessor.scan_entries w ext (Py.flatten q) thr entries))
  <-> entry_qualifies w ext q thr entries p s.
Proof.
  rewrite scan_entries_In. unfold entry_qualifies.
  split; intros [f [H1 [H2 [H3 [H4 H5]]]]]; exists f; repeat split; auto;
    now apply Qle_bool_iff.
Qed.

(** X1. Soundness and completeness of the single-index search. When the
    record is available and its extractor is known, every returned pair
    [(p, s)] stems from an entry of the record whose file exists, whose
    shape is compatible and whose comparison returned [s], with [s] at
    or above the threshold (the bound is inclusive); so an entry whose
    file is gone, or whose comparison raised, is never returned. Without
    a positive limit every such entry is returned. *)
Theorem single_index_returns_the_qualifying_entries
    (w : world) (self : BatchSearchProcessor.t) (q : Py.features)
    (index_path : string) (thr : Q) (max_results : Z)
    (d : index_data) (ext : extractor) :
  available w self index_path d ->
  BatchSearchProcessor.find_extractor (AVAILABLE_EXTRACTORS w)
    (extractor_name d) = Some ext ->
  exists r,
    fst (fst (BatchSearchProcessor.search_in_index w self q index_path thr
                max_results)) = Returned r
    /\ (forall p s, In (p, s) r ->
          entry_qualifies w ext q thr (features_dict d) p s)
    /\ ((max_results <= 0)%Z ->
        forall p s, entry_qualifies w ext q thr (features_dict d) p s ->
                    In (p, s) r).
Proof.
  intros Hav Hext. rewrite search_result_by_lookup.
  rewrite (looked_up_available _ _ _ _ Hav), Hext.
  eexists. split; [reflexivity|]. split.
  - intros p s Hin. apply In_limit_results in Hin.
    now apply scan_entries_qualify.
  - intros Hmax p s Hq. apply scan_entries_qualify in Hq.
    unfold limit_results. destruct (Z.ltb_spec 0 max_results); [lia|].
    now apply (Permutation_in _ (sort_desc_perm _)).
Qed.

(** X1, instance: of four indexed files only [a.jpg] still exists. *)
Lemma single_index_returns_the_qualifying_entries_witness :
  exists r,
    fst (fst (BatchSearchProcessor.search_in_index Example2.stale_store
                BatchSearchProcessor.init (Example.vec 0) "idx" 0.90 0))
      = Returned r
    /\ (forall p s, In (p, s) r ->
          entry_qualifies Example2.stale_store (Example.toy [])
            (Example.vec 0) 0.90 Example.idx_entries p s).
Proof.
  destruct (single_index_returns_the_qualifying_entries
              Example2.stale_store BatchSearchProcessor.init (Example.vec 0)
              "idx" 0.90 0%Z (Example.record_data Example.idx_entries)
              (Example.toy []))
    as [r [H1 [H2 _]]].
  - right. split; reflexivity.
  - reflexivity.
  - exists r. split; [exact H1|exact H2].
Defined.



(** ** Beyond the claims: the multi-index search *)

Lemma In_set_weak {V} (k : string) (v : V) (d : Py.dict V) (x : string * V) :
  In x (Py.set k v d) -> x = (k, v) \/ In x d.
Proof.
  induction d as [|[k' v'] t IH]; simpl.
  - intros [H|[]]; now left.
  - destruct (String.eqb k k'); simpl; intros [H|H]; auto.
    apply IH in H. tauto.
Qed.

(** A thread's step, by components. *)
Lemma search_in_one_index_parts (w : world) (q : Py.features) (thr : Q)
    (n : Z) (c : BatchSearchProcessor.t) (r : Py.dict (list result))
    (e : list io_event) (p : string) :
  MultiIndexSearch.search_in_one_index w q thr n (c, r, e) p
  = (snd (fst (BatchSearchProcessor.search_in_index w c q p thr n)),
     match fst (fst (BatchSearchProcessor.search_in_index w c q p thr n)) with
     | Returned l => Py.set p l r
     | Raised => r
     end,
     (e ++ snd (BatchSearchProcessor.search_in_index w c q p thr n))%list).
Proof.
  unfold MultiIndexSearch.search_in_one_index.
  destruct (BatchSearchProcessor.search_in_index w c q p thr n)
    as [[[l|] c'] e']; reflexivity.
Qed.

(** What a search returns satisfies the threshold and names existing
    files. *)
Lemma search_in_index_sound (w : world) (self : BatchSearchProcessor.t)
    (q : Py.features) (index_path : string) (thr : Q) (n : Z)
    (l : list result) :
  fst (fst (BatchSearchProcessor.search_in_index w self q index_path thr n))
    = Returned l ->
  Forall (fun x => (thr <= snd x)%Q /\ path_exists w (fst x) = true) l.
Proof.
  rewrite search_result_by_lookup.
  destruct (looked_up w self index_path) as [[d|]|].
  - destruct (BatchSearchProcessor.find_extractor _ _) as [ext|].
    + intros H. inversion H; subst. apply Forall_forall. intros [p s] Hin.
      apply In_limit_results in Hin. apply scan_entries_In in Hin.
      destruct Hin as [f [_ [Hex [_ [_ Hle]]]]]. simpl.
      split; [now apply Qle_bool_iff|exact Hex].
    + intros H. inversion H. constructor.
  - discriminate.
  - intros H. inversion H. constructor.
Qed.

Lemma fold_threads_sound (w : world) (q : Py.features) (thr : Q) (n : Z)
    (P : result -> Prop) (index_paths : list string) :
  (forall c p l,
     fst (fst (BatchSearchProcessor.search_in_index w c q p thr n))
       = Returned l -> Forall P l) ->
  forall s : MultiIndexSearch.shared,
    Forall (fun kv => Forall P (snd kv)) (snd (fst s)) ->
    Forall (fun kv => Forall P (snd kv))
      (snd (fst (fold_left (MultiIndexSearch.search_in_one_index w q thr n)
                   index_paths s))).
Proof.
  intros Hsound. induction index_paths as [|p t IH]; intros [[c r] e] Hinv;
    cbn [fold_left]; [exact Hinv|].
  apply IH. rewrite search_in_one_index_parts. cbn [fst snd] in *.
  destruct (fst (fst (BatchSearchProcessor.search_in_index w c q p thr n)))
    as [l|] eqn:E; [|exact Hinv].
  apply Forall_forall. intros kv Hin. apply In_set_weak in Hin.
  destruct Hin as [->|Hin]; simpl.
  - eapply Hsound; eassumption.
  - rewrite Forall_forall in Hinv. now apply Hinv.
Qed.

(** X3. Every pair returned by the multi-index search scores at or
    above the threshold and names a file that exists, whatever the
    indexes, the order of the threads and the limit. *)
Theorem multi_index_results_qualify
    (w : world) (self : MultiIndexSearch.t) (q : Py.features)
    (index_paths : list string) (thr : Q) (max_results : Z) :
  Forall (fun x => (thr <= snd x)%Q /\ path_exists w (fst x) = true)
    (fst (fst (MultiIndexSearch.search_in_multiple_indexes w self q
                 index_paths thr max_results))).
Proof.
  set (P := fun x : result =>
              (thr <= snd x)%Q /\ path_exists w (fst x) = true).
  unfold MultiIndexSearch.search_in_multiple_indexes,
    MultiIndexSearch.run_threads.
  pose proof (fold_threads_sound w q thr max_results P index_paths
                (fun c p l => search_in_index_sound w c q p thr max_results l)
                (MultiIndexSearch.processor self, [], [])
                (Forall_nil _)) as Hinv.
  destruct (fold_left _ index_paths _) as [[c r] e]. simpl in *.
  apply Forall_forall. intros [p s] Hin.
  assert (Hm : In (p, s) (MultiIndexSearch.merge_results (Py.values r))).
  { unfold limit_results, Py.slice_to in Hin.
    destruct (0 <? max_results)%Z; [eapply In_firstn; eassumption|exact Hin]. }
  destruct (merge_results_spec (Py.values r)) as [_ [_ [Hfrom _]]].
  apply Hfrom in Hm. destruct Hm as [Hm _].
  apply in_concat in Hm. destruct Hm as [l [Hl Hx]].
  unfold Py.values in Hl. apply in_map_iff in Hl.
  destruct Hl as [kv [<- Hkv]].
  rewrite Forall_forall in Hinv. specialize (Hinv kv Hkv).
  rewrite Forall_forall in Hinv. now apply Hinv.
Qed.

Lemma without_set_other {V} (bad k : string) (v : V) (d : Py.dict V) :
  k <> bad -> without_key bad (Py.set k v d) = Py.set k v (without_key bad d).
Proof.
  intros Hne. induction d as [|[k' v'] t IH]; simpl.
  - destruct (String.eqb_spec k bad); [contradiction|reflexivity].
  - destruct (String.eqb_spec k k') as [<-|Hkk']; simpl.
    + destruct (String.eqb_spec k bad); [contradiction|]. simpl.
      now rewrite String.eqb_refl.
    + destruct (String.eqb_spec k' bad); simpl; [exact IH|].
      destruct (String.eqb_spec k k'); [contradiction|]. now rewrite IH.
Qed.

Lemma without_set_same {V} (bad : string) (v : V) (d : Py.dict V) :
  without_key bad (Py.set bad v d) = without_key bad d.
Proof.
  induction d as [|[k' v'] t IH]; simpl.
  - now rewrite String.eqb_refl.
  - destruct (String.eqb_spec bad k') as [<-|Hne]; simpl.
    + now rewrite String.eqb_refl.
    + destruct (String.eqb_spec k' bad); [congruence|]. simpl. now rewrite IH.
Qed.

Lemma concat_values_without (bad : string) (d : Py.dict (list result)) :
  (forall v, In (bad, v) d -> v = []) ->
  List.concat (Py.values d) = List.concat (Py.values (without_key bad d)).
Proof.
  induction d as [|[k v] t IH]; intros H; simpl; [reflexivity|].
  destruct (String.eqb_spec k bad) as [->|Hne]; simpl.
  - rewrite (H v) by now left. simpl. apply IH.
    intros v' Hv'. apply H. now right.
  - f_equal. apply IH. intros v' Hv'. apply H. now right.
Qed.

Lemma unusable_lookup (w : world) (bad : string)
    (c : BatchSearchProcessor.t) :
  unusable w bad (BatchSearchProcessor.indexes c) ->
  looked_up w c bad = None \/ looked_up w c bad = Some OtherObject.
Proof.
  unfold unusable, looked_up. intros [[Hc [Hd|Hd]]|Hc]; rewrite Hc;
    try rewrite Hd; auto.
Qed.

(** A thread for the unusable key changes nothing that matters. *)
Lemma unusable_step (w : world) (bad : string) (q : Py.features) (thr : Q)
    (n : Z) (s1 s2 : MultiIndexSearch.shared) :
  same_but w bad s1 s2 ->
  same_but w bad (MultiIndexSearch.search_in_one_index w q thr n s1 bad) s2.
Proof.
  destruct s1 as [[c1 r1] e1]. destruct s2 as [[c2 r2] e2].
  unfold same_but. cbn [fst snd].
  intros [Hc [Hu1 [Hu2 [Hr [Hb1 Hb2]]]]].
  rewrite search_in_one_index_parts. cbn [fst snd].
  rewrite search_cache_after, search_result_by_lookup.
  assert (Hcache :
    forall p, Py.get p
      match Py.get bad (BatchSearchProcessor.indexes c1), disk w bad with
      | None, Returned o => Py.set bad o (BatchSearchProcessor.indexes c1)
      | _, _ => BatchSearchProcessor.indexes c1
      end
    = if String.eqb p bad
      then match looked_up w c1 bad with
           | Some o => Some o
           | None => None
           end
      else Py.get p (BatchSearchProcessor.indexes c1)).
  { intros p. unfold looked_up.
    destruct (String.eqb_spec p bad) as [->|Hne].
    - destruct (Py.get bad (BatchSearchProcessor.indexes c1)) eqn:E;
        [now rewrite E|].
      destruct (disk w bad); [apply get_set_same|exact E].
    - destruct (Py.get bad (BatchSearchProcessor.indexes c1));
        [reflexivity|].
      destruct (disk w bad); [|reflexivity].
      apply get_set_other. congruence. }
  destruct (unusable_lookup w bad c1 Hu1) as [Hl|Hl].
  - repeat split.
    + intros p Hp. rewrite Hcache.
      destruct (String.eqb_spec p bad); [contradiction|]. now apply Hc.
    + unfold unusable. rewrite Hcache, String.eqb_refl, Hl.
      left. split; [reflexivity|].
      unfold looked_up in Hl.
      destruct (Py.get bad (BatchSearchProcessor.indexes c1));
        [discriminate|].
      destruct (disk w bad); [discriminate|now left].
    + exact Hu2.
    + rewrite Hl. now rewrite without_set_same.
    + rewrite Hl. intros v Hv. apply In_set_weak in Hv.
      destruct Hv as [E|Hv]; [now inversion E|now apply Hb1].
    + exact Hb2.
  - repeat split.
    + intros p Hp. rewrite Hcache.
      destruct (String.eqb_spec p bad); [contradiction|]. now apply Hc.
    + unfold unusable. rewrite Hcache, String.eqb_refl, Hl. now right.
    + exact Hu2.
    + rewrite Hl. exact Hr.
    + rewrite Hl. exact Hb1.
    + exact Hb2.
Qed.

Lemma same_but_sym (w : world) (bad : string)
    (s1 s2 : MultiIndexSearch.shared) :
  same_but w bad s1 s2 -> same_but w bad s2 s1.
Proof.
  unfold same_but. intros [Hc [Hu1 [Hu2 [Hr [Hb1 Hb2]]]]].
  repeat split; auto. intros p Hp. symmetry. now apply Hc.
Qed.

(** A thread for any other key keeps two such states alike. *)
Lemma usable_step (w : world) (bad : string) (q : Py.features) (thr : Q)
    (n : Z) (s1 s2 : MultiIndexSearch.shared) (p : string) :
  p <> bad ->
  same_but w bad s1 s2 ->
  same_but w bad (MultiIndexSearch.search_in_one_index w q thr n s1 p)
    (MultiIndexSearch.search_in_one_index w q thr n s2 p).
Proof.
  intros Hp. destruct s1 as [[c1 r1] e1]. destruct s2 as [[c2 r2] e2].
  unfold same_but. cbn [fst snd].
  intros [Hc [Hu1 [Hu2 [Hr [Hb1 Hb2]]]]].
  rewrite !search_in_one_index_parts. cbn [fst snd].
  rewrite !search_cache_after, !search_result_by_lookup.
  assert (Hlook : looked_up w c1 p = looked_up w c2 p).
  { unfold looked_up. now rewrite (Hc p Hp). }
  assert (Hget :
    forall c p',
      Py.get p'
        match Py.get p (BatchSearchProcessor.indexes c), disk w p with
        | None, Returned o => Py.set p o (BatchSearchProcessor.indexes c)
        | _, _ => BatchSearchProcessor.indexes c
        end
      = if String.eqb p' p
        then looked_up w c p
        else Py.get p' (BatchSearchProcessor.indexes c)).
  { intros c p'. unfold looked_up.
    destruct (String.eqb_spec p' p) as [->|Hne].
    - destruct (Py.get p (BatchSearchProcessor.indexes c)) eqn:E;
        [exact E|].
      destruct (disk w p); [apply get_set_same|exact E].
    - destruct (Py.get p (BatchSearchProcessor.indexes c)); [reflexivity|].
      destruct (disk w p); [|reflexivity].
      apply get_set_other. congruence. }
  assert (Hkeep : forall c, unusable w bad (BatchSearchProcessor.indexes c) ->
            unusable w bad
              match Py.get p (BatchSearchProcessor.indexes c), disk w p with
              | None, Returned o =>
                  Py.set p o (BatchSearchProcessor.indexes c)
              | _, _ => BatchSearchProcessor.indexes c
              end).
  { intros c Hu. unfold unusable. rewrite Hget.
    destruct (String.eqb_spec bad p); [congruence|exact Hu]. }
  rewrite Hlook.
  set (out := match looked_up w c2 p with
              | Some (IndexRecord d) => _
              | Some OtherObject => _
              | None => _
              end).
  repeat split.
  - intros p' Hp'. rewrite !Hget. rewrite Hlook.
    destruct (String.eqb p' p); [reflexivity|now apply Hc].
  - now apply Hkeep.
  - now apply Hkeep.
  - destruct out as [l|]; [|exact Hr].
    rewrite !without_set_other by exact Hp. now rewrite Hr.
  - destruct out as [l|]; [|exact Hb1].
    intros v Hv. apply In_set_weak in Hv.
    destruct Hv as [E|Hv]; [inversion E; congruence|now apply Hb1].
  - destruct out as [l|]; [|exact Hb2].
    intros v Hv. apply In_set_weak in Hv.
    destruct Hv as [E|Hv]; [inversion E; congruence|now apply Hb2].
Qed.

Lemma fold_same_but (w : world) (bad : string) (q : Py.features) (thr : Q)
    (n : Z) (index_paths : list string) :
  forall s1 s2 : MultiIndexSearch.shared,
    same_but w bad s1 s2 ->
    same_but w bad
      (fold_left (MultiIndexSearch.search_in_one_index w q thr n)
         index_paths s1)
      (fold_left (MultiIndexSearch.search_in_one_index w q thr n)
         (filter (fun p => negb (String.eqb p bad)) index_paths) s2).
Proof.
  induction index_paths as [|p t IH]; intros s1 s2 H; cbn [fold_left filter];
    [exact H|].
  destruct (String.eqb_spec p bad) as [->|Hne]; cbn [negb fold_left].
  - apply IH. now apply unusable_step.
  - apply IH. now apply usable_step.
Qed.

(** X4. An index that cannot be used does not disturb a multi-index
    search. If a storage key is not cached and its file cannot be loaded
    or unpickles to something that is no record, then searching a list
    of keys gives the same results as searching the list with every
    occurrence of that key removed, whatever the order of the threads. *)
Theorem unusable_index_changes_nothing
    (w : world) (self : MultiIndexSearch.t) (q : Py.features)
    (index_paths : list string) (thr : Q) (max_results : Z) (bad : string) :
  Py.get bad (BatchSearchProcessor.indexes (MultiIndexSearch.processor self))
    = None ->
  disk w bad = Raised \/ disk w bad = Returned OtherObject ->
  fst (fst (MultiIndexSearch.search_in_multiple_indexes w self q index_paths
              thr max_results))
  = fst (fst (MultiIndexSearch.search_in_multiple_indexes w self q
                (filter (fun p => negb (String.eqb p bad)) index_paths)
                thr max_results)).
Proof.
  intros Hc Hd.
  unfold MultiIndexSearch.search_in_multiple_indexes,
    MultiIndexSearch.run_threads.
  assert (H0 : same_but w bad (MultiIndexSearch.processor self, [], [])
                 (MultiIndexSearch.processor self, [], [])).
  { unfold same_but, unusable. cbn [fst snd]. repeat split; auto.
    - intros v [].
    - intros v []. }
  pose proof (fold_same_but w bad q thr max_results index_paths _ _ H0) as H.
  destruct (fold_left _ index_paths _) as [[c1 r1] e1].
  destruct (fold_left _ (filter _ index_paths) _) as [[c2 r2] e2].
  unfold same_but in H. cbn [fst snd] in *.
  destruct H as [_ [_ [_ [Hr [Hb1 Hb2]]]]].
  unfold MultiIndexSearch.merge_results.
  rewrite (concat_values_without bad r1 Hb1),
    (concat_values_without bad r2 Hb2), Hr.
  reflexivity.
Qed.

(** X4, instance: a missing file and a file that is no record among two
    good indexes. *)
Lemma unusable_index_changes_nothing_witness :
  fst (fst (MultiIndexSearch.search_in_multiple_indexes Example2.mixed_store
              MultiIndexSearch.init (Example.vec 0)
              ["junk"; "s1"; "junk"; "s2"] 0.50 0))
  = fst (fst (MultiIndexSearch.search_in_multiple_indexes
                Example2.mixed_store MultiIndexSearch.init (Example.vec 0)
                ["s1"; "s2"] 0.50 0))
  /\ fst (fst (MultiIndexSearch.search_in_multiple_indexes
                 Example2.mixed_store MultiIndexSearch.init (Example.vec 0)
                 ["s1"; "absent"; "s2"] 0.50 0))
     = [("P", 0.90); ("R", 0.80)].
Proof.
  split.
  - apply (unusable_index_changes_nothing Example2.mixed_store
             MultiIndexSearch.init (Example.vec 0)
             ["junk"; "s1"; "junk"; "s2"] 0.50 0 "junk").
    + reflexivity.
    + right. reflexivity.
  - rewrite (unusable_index_changes_nothing Example2.mixed_store
               MultiIndexSearch.init (Example.vec 0)
               ["s1"; "absent"; "s2"] 0.50 0 "absent");
      [reflexivity|reflexivity|left; reflexivity].
Defined.

Lemma set_absent {V} (k : string) (v : V) (d : Py.dict V) :
  Py.get k d = None -> Py.set k v d = (d ++ [(k, v)])%list.
Proof.
  induction d as [|[k' v'] t IH]; simpl; [reflexivity|].
  destruct (String.eqb k k'); [discriminate|]. intros H. now rewrite IH.
Qed.

Lemma get_app_None {V} (k : string) (d1 d2 : Py.dict V) :
  Py.get k d1 = None -> Py.get k (d1 ++ d2)%list = Py.get k d2.
Proof.
  induction d1 as [|[k' v'] t IH]; simpl; [reflexivity|].
  destruct (String.eqb k k'); [discriminate|exact IH].
Qed.

(** Deduplicating a list that names no path twice leaves it as it is. *)
Lemma fold_keep_best_fresh (l : list result) :
  forall u : Py.dict Q,
    NoDup (map fst l) ->
    (forall p, In p (map fst l) -> Py.get p u = None) ->
    fold_left MultiIndexSearch.keep_best l u = (u ++ l)%list.
Proof.
  induction l as [|[p s] t IH]; intros u Hnd Hfresh; simpl.
  - now rewrite app_nil_r.
  - inversion Hnd as [|? ? Hnotin Hnd']; subst.
    rewrite (Hfresh p) by now left.
    rewrite set_absent by (apply Hfresh; now left).
    rewrite IH; [now rewrite <- app_assoc|exact Hnd'|].
    intros p' Hp'. rewrite get_app_None by (apply Hfresh; now right).
    simpl. destruct (String.eqb_spec p' p); [subst; contradiction|reflexivity].
Qed.

(** Sorting a list that is in descending order leaves it as it is. *)
Lemma sort_desc_sorted_id (l : list result) :
  StronglySorted desc l -> sort_desc l = l.
Proof.
  induction 1 as [|x t Hs IH Hall]; simpl; [reflexivity|].
  rewrite IH. destruct t as [|y t']; simpl; [reflexivity|].
  inversion Hall as [|? ? Hxy _]; subst. unfold desc in Hxy.
  apply Qle_bool_iff in Hxy. now rewrite Hxy.
Qed.

Lemma limit_results_idem (n : Z) (l : list result) :
  limit_results n (limit_results n l) = limit_results n l.
Proof.
  unfold limit_results, Py.slice_to. destruct (0 <? n)%Z; [|reflexivity].
  rewrite firstn_firstn. now rewrite Nat.min_id.
Qed.

Lemma scan_entries_paths (w : world) (ext : extractor) (q : Py.features)
    (thr : Q) (entries : Py.dict Py.features) :
  NoDup (Py.keys entries) ->
  NoDup (map fst (fst (BatchSearchProcessor.scan_entries w ext q thr entries))).
Proof.
  induction entries as [|[p f] t IH]; simpl; [constructor|].
  intros Hnd. inversion Hnd as [|? ? Hnotin Hnd']; subst.
  specialize (IH Hnd').
  assert (Hsub : forall p', In p' (map fst
                   (fst (BatchSearchProcessor.scan_entries w ext q thr t))) ->
                 In p' (Py.keys t)).
  { intros p' Hp'. apply in_map_iff in Hp'.
    destruct Hp' as [[p0 s0] [E Hin]]. simpl in E. subst p'.
    apply scan_entries_In in Hin. destruct Hin as [f0 [Hin _]].
    unfold Py.keys. apply in_map_iff. now exists (p0, f0). }
  destruct (BatchSearchProcessor.scan_entries w ext q thr t) as [rs ev].
  simpl in *.
  destruct (path_exists w p); simpl; [|exact IH].
  destruct (BatchSearchProcessor.shapes_differ q (Py.flatten f)); simpl;
    [exact IH|].
  destruct (compare_features ext q (Py.flatten f)) as [s|]; simpl;
    [|exact IH].
  destruct (Qle_bool thr s); simpl; [|exact IH].
  constructor; [|exact IH]. intros Hin. apply Hnotin. now apply Hsub.
Qed.

(** X5. A multi-index search over a single storage key returns what the
    single-index search returns for that key: merging, deduplicating and
    sorting again change neither the entries nor their order. (The
    record's entries form a dictionary: no path is a key twice.) *)
Theorem multi_index_over_one_index
    (w : world) (self : MultiIndexSearch.t) (q : Py.features)
    (index_path : string) (thr : Q) (max_results : Z) (d : index_data) :
  available w (MultiIndexSearch.processor self) index_path d ->
  NoDup (Py.keys (features_dict d)) ->
  Returned
    (fst (fst (MultiIndexSearch.search_in_multiple_indexes w self q
                 [index_path] thr max_results)))
  = fst (fst (BatchSearchProcessor.search_in_index w
                (MultiIndexSearch.processor self) q index_path thr
                max_results)).
Proof.
  intros Hav Hnd.
  unfold MultiIndexSearch.search_in_multiple_indexes,
    MultiIndexSearch.run_threads. cbn [fold_left].
  rewrite search_in_one_index_parts.
  rewrite search_result_by_lookup, (looked_up_available _ _ _ _ Hav).
  destruct (BatchSearchProcessor.find_extractor _ _) as [ext|].
  2:{ cbn [fst snd Py.set Py.values map].
      unfold MultiIndexSearch.merge_results. simpl.
      now rewrite limit_results_nil. }
  set (qual := fst (BatchSearchProcessor.scan_entries w ext (Py.flatten q)
                      thr (features_dict d))).
  assert (Hq : NoDup (map fst (sort_desc qual))).
  { eapply Permutation_NoDup;
      [apply Permutation_map; apply sort_desc_perm|].
    now apply scan_entries_paths. }
  destruct (limit_results_keeps max_results (sort_desc qual) Hq
              (sort_desc_sorted qual)) as [Hnd' Hs'].
  cbn [fst snd Py.set Py.values map].
  unfold MultiIndexSearch.merge_results. cbn [List.concat].
  rewrite app_nil_r.
  rewrite fold_keep_best_fresh; [|exact Hnd'|reflexivity].
  cbn [app]. rewrite sort_desc_sorted_id by exact Hs'.
  now rewrite limit_results_idem.
Qed.

(** X5, instance: the index of four entries, limit 2. *)
Lemma multi_index_over_one_index_witness :
  Returned
    (fst (fst (MultiIndexSearch.search_in_multiple_indexes Example.one_store
                 MultiIndexSearch.init (Example.vec 0) ["idx"] 0.50 2)))
  = fst (fst (BatchSearchProcessor.search_in_index Example.one_store
                BatchSearchProcessor.init (Example.vec 0) "idx" 0.50 2)).
Proof.
  apply (multi_index_over_one_index Example.one_store MultiIndexSearch.init
           (Example.vec 0) "idx" 0.50 2
           (Example.record_data Example.idx_entries)).
  - right. split; reflexivity.
  - repeat constructor; simpl; intuition discriminate.
Defined.

(** ** Beyond the claims: the linear scan *)

(** A file adds to [results] at most one pair, whatever [results] is. *)
Lemma scan_file_app (self : SearchWorker.t) (qf : Py.features)
    (p : string) (results : list result) :
  SearchWorker.scan_file self qf p results
  = (results ++ SearchWorker.scan_file self qf p [])%list.
Proof.
  unfold SearchWorker.scan_file.
  destruct (extract_features _ p) as [[cf|]|]; try now rewrite app_nil_r.
  destruct (Py.len cf) as [n|]; try now rewrite app_nil_r.
  destruct (0 <? n)%nat; try now rewrite app_nil_r.
  destruct (compare_features _ qf cf) as [s|]; try now rewrite app_nil_r.
  destruct (Qle_bool _ s); [reflexivity|now rewrite app_nil_r].
Qed.

Lemma scan_file_In (self : SearchWorker.t) (qf : Py.features)
    (p : string) (x : result) :
  In x (SearchWorker.scan_file self qf p [])
  <-> fst x = p /\ file_qualifies self qf p (snd x).
Proof.
  unfold SearchWorker.scan_file, file_qualifies. destruct x as [p' s]. simpl.
  destruct (extract_features _ p) as [[cf|]|] eqn:He;
    try (split; [intros []|intros [_ [cf' [n [H _]]]]; discriminate]).
  destruct (Py.len cf) as [n|] eqn:Hl.
  2:{ split; [intros []|intros [_ [cf' [n [H [H' _]]]]]].
      inversion H; subst. congruence. }
  destruct n as [|n]; simpl.
  { split; [intros []|intros [_ [cf' [n [H [H' _]]]]]].
    inversion H; subst. congruence. }
  destruct (compare_features _ qf cf) as [s0|] eqn:Hc.
  2:{ split; [intros []|intros [_ [cf' [n' [H [_ [H' _]]]]]]].
      inversion H; subst. congruence. }
  destruct (Qle_bool _ s0) eqn:Hle; simpl.
  - split.
    + intros [E|[]]. inversion E; subst. split; [reflexivity|].
      exists cf, n. repeat split; auto. now apply Qle_bool_iff.
    + intros [-> [cf' [n' [H [_ [H' _]]]]]]. left.
      inversion H; subst. congruence.
  - split; [intros []|intros [_ [cf' [n' [H [_ [H' H'']]]]]]].
    inversion H; subst. apply Qle_bool_iff in H''. congruence.
Qed.

(** Without a stop request the loop gathers, file after file, what each
    file adds. *)
Lemma scan_loop_unstopped (self : SearchWorker.t) (qf : Py.features)
    (stopped : nat -> bool) (total : nat) (files : list string) :
  forall (i : nat) (results : list result),
    (forall j, stopped j = false) ->
    snd (SearchWorker.scan_loop self qf stopped total i files results)
    = (results
       ++ flat_map (fun p => SearchWorker.scan_file self qf p []) files)%list.
Proof.
  induction files as [|p t IH]; intros i results Hns; simpl.
  - now rewrite app_nil_r.
  - rewrite Hns. specialize (IH (S i)
      (SearchWorker.scan_file self qf p results) Hns).
    destruct (SearchWorker.scan_loop self qf stopped total (S i) t _)
      as [ev final]. simpl in *. rewrite IH.
    rewrite (scan_file_app self qf p results). now rewrite <- app_assoc.
Qed.

(** With or without stop requests, the loop gathers nothing else. *)
Lemma scan_loop_sound (self : SearchWorker.t) (qf : Py.features)
    (stopped : nat -> bool) (total : nat) (files : list string) :
  forall (i : nat) (results : list result) (x : result),
    In x (snd (SearchWorker.scan_loop self qf stopped total i files results))
    -> In x results
       \/ (In (fst x) files /\ file_qualifies self qf (fst x) (snd x)).
Proof.
  induction files as [|p t IH]; intros i results x; simpl; [now left|].
  destruct (stopped i); simpl; [now left|].
  specialize (IH (S i) (SearchWorker.scan_file self qf p results) x).
  destruct (SearchWorker.scan_loop self qf stopped total (S i) t _)
    as [ev final]. simpl in *. intros Hin. apply IH in Hin.
  destruct Hin as [Hin|[Hin Hq]]; [|right; split; [now right|exact Hq]].
  rewrite scan_file_app in Hin. apply in_app_or in Hin.
  destruct Hin as [Hin|Hin]; [now left|].
  apply scan_file_In in Hin. destruct Hin as [E Hq].
  right. rewrite E. split; [now left|exact Hq].
Qed.

(** X6. Soundness and completeness of the linear scan. When the query
    features were extracted, the run delivers one result list; every
    pair [(p, s)] in it names a file [p] of the folder whose features
    were extracted, are not of length zero, and compare to the query
    with score [s] at or above the threshold (inclusive), so a file
    whose extraction or comparison fails is skipped and never aborts
    the scan. If no stop request arrives and there is no positive
    limit, every such file is in the list. *)
Theorem linear_scan_returns_the_qualifying_files
    (w : world) (self : SearchWorker.t) (stopped : nat -> bool)
    (qf : Py.features) (n : nat) :
  extract_features (SearchWorker.extractor_ self)
    (SearchWorker.query_image_path self) = Returned (Some qf) ->
  Py.len qf = Returned (S n) ->
  let files := image_files w (SearchWorker.search_folder self) in
  exists r,
    scan_results (SearchWorker.run w self stopped) = [r]
    /\ (forall p s, In (p, s) r ->
          In p files /\ file_qualifies self qf p s)
    /\ ((forall j, stopped j = false) ->
        (SearchWorker.max_results self <= 0)%Z ->
        forall p s, In p files -> file_qualifies self qf p s -> In (p, s) r).
Proof.
  intros Hq Hlen files. unfold SearchWorker.run. rewrite Hq, Hlen.
  fold files. destruct (Nat.eqb_spec (List.length files) 0) as [E|E].
  - exists []. split; [reflexivity|]. split; [intros p s []|].
    intros _ _ p s Hin. destruct files; [destruct Hin|discriminate].
  - pose proof (scan_loop_signals self qf stopped (List.length files) 0
                  files []) as Hsig.
    pose proof (scan_loop_sound self qf stopped (List.length files) files
                  0 []) as Hsound.
    pose proof (scan_loop_unstopped self qf stopped (List.length files)
                  files 0 []) as Hall.
    destruct (SearchWorker.scan_loop self qf stopped (List.length files) 0
                files []) as [ev results]. simpl in *.
    exists (limit_results (SearchWorker.max_results self)
              (sort_desc results)).
    split; [|split].
    + unfold scan_results. rewrite flat_map_app. simpl.
      replace (flat_map _ ev) with (@nil (list result)); [reflexivity|].
      symmetry. clear -Hsig. induction Hsig as [|s t Hs _ IH]; simpl;
        [reflexivity|].
      rewrite IH. destruct Hs as [->|[v ->]]; reflexivity.
    + intros p s Hin. apply In_limit_results in Hin.
      apply Hsound in Hin. destruct Hin as [[]|Hin]. exact Hin.
    + intros Hns Hmax p s Hin Hqual.
      unfold limit_results. destruct (Z.ltb_spec 0 (SearchWorker.max_results self));
        [lia|].
      apply (Permutation_in _ (sort_desc_perm _)).
      rewrite (Hall Hns). simpl. apply in_flat_map. exists p.
      split; [exact Hin|]. apply scan_file_In. now split.
Qed.

(** X6, instance: three files, one below the threshold. *)
Lemma linear_scan_returns_the_qualifying_files_witness :
  exists r,
    scan_results (SearchWorker.run Example.folder3 (Example.linear_search 0)
                    (fun _ => false)) = [r]
    /\ (forall p s, In (p, s) r ->
          In p ["a.jpg"; "b.jpg"; "c.jpg"]
          /\ file_qualifies (Example.linear_search 0) (Example.vec 100) p s).
Proof.
  destruct (linear_scan_returns_the_qualifying_files Example.folder3
              (Example.linear_search 0) (fun _ => false) (Example.vec 100)
              0 eq_refl eq_refl) as [r [H1 [H2 _]]].
  exists r. split; [exact H1|exact H2].
Defined.

(** The signals of the loop, for any pattern of stop requests: progress
    for the first [k] files, then the cancellation notice if and only
    if the loop was left before the last file. *)
Lemma scan_loop_shape (self : SearchWorker.t) (qf : Py.features)
    (stopped : nat -> bool) (total : nat) (files : list string) :
  forall (i : nat) (results : list result),
  exists k,
    (k <= List.length files)%nat
    /\ fst (SearchWorker.scan_loop self qf stopped total i files results)
       = (map (fun j => SearchWorker.progress_update (percent j total))
            (seq i k)
          ++ if (k <? List.length files)%nat
             then [SearchWorker.search_cancelled] else [])%list.
Proof.
  induction files as [|p t IH]; intros i results; simpl.
  - exists 0%nat. split; [lia|reflexivity].
  - destruct (stopped i); simpl.
    + exists 0%nat. split; [lia|reflexivity].
    + destruct (IH (S i) (SearchWorker.scan_file self qf p results))
        as [k [Hk Hev]].
      destruct (SearchWorker.scan_loop self qf stopped total (S i) t _)
        as [ev final]. simpl in *. exists (S k). split; [lia|].
      rewrite Hev. simpl.
      replace (S k <? S (List.length t))%nat with (k <? List.length t)%nat
        by reflexivity.
      reflexivity.
Qed.

Lemma percent_below_100 (j n : nat) : (j < n)%nat -> (percent j n < 100)%Z.
Proof.
  intros H. unfold percent. apply Z.div_lt_upper_bound; lia.
Qed.

(** X7. The signals of a linear scan. A run either emits a single
    error (the query features could not be extracted) and nothing
    else, or it emits the progress values [100 * j / n] (truncated) for
    the files [j = 0 .. k-1] it started, then the cancellation notice
    exactly if it was stopped before the last file, then one result
    list, then the progress value 100. Progress values never decrease,
    stay within 0..100, and exactly one of an error and a result list
    is delivered. *)
Theorem linear_scan_signal_protocol
    (w : world) (self : SearchWorker.t) (stopped : nat -> bool) :
  let n := List.length (image_files w (SearchWorker.search_folder self)) in
  let signals := SearchWorker.run w self stopped in
  ((exists e, signals = [SearchWorker.error_occurred e])
   \/ (exists k r,
         (k <= n)%nat
         /\ signals
            = (map (fun j => SearchWorker.progress_update (percent j n))
                 (seq 0 k)
               ++ (if (k <? n)%nat then [SearchWorker.search_cancelled]
                   else [])
               ++ [SearchWorker.result_ready r;
                   SearchWorker.progress_update 100])%list))
  /\ StronglySorted Z.le (scan_progress_values signals)
  /\ Forall (fun v => (0 <= v <= 100)%Z) (scan_progress_values signals).
Proof.
  intros n signals.
  assert (Hshape :
    (exists e, signals = [SearchWorker.error_occurred e])
    \/ (exists k r,
          (k <= n)%nat
          /\ signals
             = (map (fun j => SearchWorker.progress_update (percent j n))
                  (seq 0 k)
                ++ (if (k <? n)%nat then [SearchWorker.search_cancelled]
                    else [])
                ++ [SearchWorker.result_ready r;
                    SearchWorker.progress_update 100])%list)).
  { unfold signals, SearchWorker.run.
    destruct (extract_features _ _) as [[qf|]|]; [|left; eauto|left; eauto].
    destruct (Py.len qf) as [[|m]|]; [left; eauto| |left; eauto].
    fold n. destruct (Nat.eqb_spec n 0) as [E|E].
    - right. exists 0%nat, []. split; [lia|]. rewrite E. reflexivity.
    - destruct (scan_loop_shape self qf stopped n
                  (image_files w (SearchWorker.search_folder self)) 0 [])
        as [k [Hk Hev]].
      destruct (SearchWorker.scan_loop self qf stopped n 0 _ [])
        as [ev results]. simpl in Hev. subst ev.
      right. exists k, (limit_results (SearchWorker.max_results self)
                          (sort_desc results)).
      split; [exact Hk|]. now rewrite <- app_assoc. }
  split; [exact Hshape|].
  assert (Hvals :
    scan_progress_values signals = []
    \/ exists k, (k <= n)%nat
         /\ scan_progress_values signals
            = (map (fun j => percent j n) (seq 0 k) ++ [100%Z])%list).
  { destruct Hshape as [[e ->]|[k [r [Hk ->]]]]; [now left|].
    right. exists k. split; [exact Hk|].
    unfold scan_progress_values. rewrite !flat_map_app.
    replace (flat_map _ (if (k <? n)%nat then _ else _)) with (@nil Z)
      by (destruct (k <? n)%nat; reflexivity).
    simpl. f_equal. clear. generalize 0%nat as i.
    induction k as [|k IH]; intros i; simpl; [reflexivity|].
    now rewrite IH. }
  destruct Hvals as [->|[k [Hk ->]]]; [split; constructor|]. split.
  - clear Hshape.
    assert (Hgen : forall len start, (start + len <= n)%nat ->
              StronglySorted Z.le
                (map (fun j => percent j n) (seq start len) ++ [100%Z])%list).
    { induction len as [|len IH]; intros start Hb; simpl.
      - repeat constructor.
      - constructor; [apply IH; lia|].
        apply Forall_app. split.
        + apply Forall_forall. intros v Hv. apply in_map_iff in Hv.
          destruct Hv as [j [<- Hj]]. apply in_seq in Hj.
          apply percent_mono. lia.
        + constructor; [|constructor].
          apply Z.lt_le_incl. apply percent_below_100. lia. }
    apply (Hgen k 0%nat). lia.
  - apply Forall_app. split.
    + apply Forall_forall. intros v Hv. apply in_map_iff in Hv.
      destruct Hv as [j [<- Hj]]. apply in_seq in Hj.
      apply percent_range. lia.
    + constructor; [lia|constructor].
Qed.

Lemma scan_loop_paths (self : SearchWorker.t) (qf : Py.features)
    (stopped : nat -> bool) (total : nat) (files : list string) :
  forall (i : nat) (results : list result),
    NoDup (map fst results ++ files) ->
    NoDup (map fst
             (snd (SearchWorker.scan_loop self qf stopped total i files
                     results))).
Proof.
  induction files as [|p t IH]; intros i results Hnd; simpl.
  - now rewrite app_nil_r in Hnd.
  - destruct (stopped i); simpl.
    + apply NoDup_app_remove_r in Hnd. exact Hnd.
    + specialize (IH (S i) (SearchWorker.scan_file self qf p results)).
      destruct (SearchWorker.scan_loop self qf stopped total (S i) t _)
        as [ev final]. simpl in *. apply IH.
      rewrite scan_file_app, map_app.
      assert (Hadd : map fst (SearchWorker.scan_file self qf p []) = [p]
                     \/ map fst (SearchWorker.scan_file self qf p []) = []).
      { unfold SearchWorker.scan_file.
        destruct (extract_features _ p) as [[cf|]|]; auto.
        destruct (Py.len cf) as [m|]; auto.
        destruct (0 <? m)%nat; auto.
        destruct (compare_features _ qf cf) as [s|]; auto.
        destruct (Qle_bool _ s); auto. }
      unfold result in *. destruct Hadd as [->| ->].
      * rewrite <- app_assoc. exact Hnd.
      * rewrite app_nil_r. apply NoDup_remove_1 in Hnd. exact Hnd.
Qed.

(** X8. When the enumeration of the folder lists no file twice, no path
    appears twice in the result list of a linear scan. *)
Theorem linear_scan_paths_are_distinct
    (w : world) (self : SearchWorker.t) (stopped : nat -> bool) :
  NoDup (image_files w (SearchWorker.search_folder self)) ->
  Forall (fun r => NoDup (map fst r))
    (scan_results (SearchWorker.run w self stopped)).
Proof.
  intros Hnd. unfold SearchWorker.run.
  destruct (extract_features _ _) as [[qf|]|]; try constructor.
  destruct (Py.len qf) as [[|m]|]; try (repeat constructor).
  destruct (_ =? 0)%nat; [repeat constructor|].
  pose proof (scan_loop_signals self qf stopped
                (List.length (image_files w (SearchWorker.search_folder self)))
                0 (image_files w (SearchWorker.search_folder self)) [])
    as Hsig.
  pose proof (scan_loop_paths self qf stopped
                (List.length (image_files w (SearchWorker.search_folder self)))
                (image_files w (SearchWorker.search_folder self)) 0 [] Hnd)
    as Hp.
  destruct (SearchWorker.scan_loop self qf stopped _ 0 _ []) as [ev results].
  simpl in *. unfold scan_results. rewrite flat_map_app. simpl.
  replace (flat_map _ ev) with (@nil (list result)).
  - constructor; [|constructor].
    apply limit_results_keeps; [|apply sort_desc_sorted].
    eapply Permutation_NoDup;
      [apply Permutation_map; apply sort_desc_perm|exact Hp].
  - symmetry. clear -Hsig. induction Hsig as [|s t Hs _ IH]; simpl;
      [reflexivity|].
    rewrite IH. destruct Hs as [->|[v ->]]; reflexivity.
Qed.

(** X8, instance: a folder of three files. *)
Lemma linear_scan_paths_are_distinct_witness :
  Forall (fun r => NoDup (map fst r))
    (scan_results (SearchWorker.run Example.folder3 (Example.linear_search 0)
                     (fun _ => false))).
Proof.
  apply linear_scan_paths_are_distinct.
  repeat constructor; simpl; intuition discriminate.
Defined.

(** ** Beyond the claims: the enumeration of image files *)




(** ** Beyond the claims: the indexer *)













(** X13. Used on its own, the indexer has no cancellation signal: a run
    stopped once [k < n] files were processed emits the progress of
    those [k] files and then [index_failed] with the "cancelled"
    reason, writes nothing, and extracts no further file. *)
Theorem feature_indexer_reports_a_stop_as_failure
    (w : world) (self : FeatureIndexer.t) (stopped : nat -> bool) (k : nat) :
  let files := image_files w (FeatureIndexer.folder_path self) in
  (k < List.length files)%nat ->
  stopped k = true ->
  (forall j, (j < k)%nat -> stopped j = false) ->
  FeatureIndexer.run w self stopped
  = ((processed_events (List.length files) 0 (firstn k files)
      ++ [FeatureIndexer.Emit
            (FeatureIndexer.index_failed FeatureIndexer.IndexingCancelled)])%list,
     disk w).
Proof.
  intros files Hk Hstop Hrun. unfold FeatureIndexer.run. fold files.
  destruct (Nat.eqb_spec (List.length files) 0) as [E|E]; [lia|].
  now rewrite (index_loop_stopped _ _ _ k files 0%nat [] Hk Hstop Hrun).
Qed.

(** X13, instance: ten files, the stop seen at the fourth. *)
Lemma feature_indexer_reports_a_stop_as_failure_witness :
  FeatureIndexer.run Example.folder10
    (FeatureIndexer.init Example.folder10 "pics"
       (Example.toy (map (fun p => (p, Example.vec 50)) Example.ten))
       (Some "pics.pkl"))
    (fun i => (3 <=? i)%nat)
  = ((processed_events 10 0 ["f0.jpg"; "f1.jpg"; "f2.jpg"]
      ++ [FeatureIndexer.Emit
            (FeatureIndexer.index_failed FeatureIndexer.IndexingCancelled)])%list,
     disk Example.folder10).
Proof.
  apply (feature_indexer_reports_a_stop_as_failure Example.folder10
           (FeatureIndexer.init Example.folder10 "pics"
              (Example.toy (map (fun p => (p, Example.vec 50)) Example.ten))
              (Some "pics.pkl"))
           (fun i => (3 <=? i)%nat) 3).
  - simpl. lia.
  - reflexivity.
  - intros j Hj. apply Nat.leb_gt. exact Hj.
Defined.

(** ** Beyond the claims: indexing, then searching *)

Lemma extracted_keys (ext : extractor) (files : list string) (p : string) :
  ~ In p files -> Py.get p (extracted ext files) = None.
Proof.
  induction files as [|x t IH]; intros Hout; simpl; [reflexivity|].
  assert (Hx : x <> p) by (intros ->; apply Hout; now left).
  assert (Ht : ~ In p t) by (intros H; apply Hout; now right).
  destruct (extract_features ext x) as [[f|]|]; simpl; auto.
  destruct (String.eqb_spec p x); [congruence|auto].
Qed.





(** ** Beyond the claims: the indexed search worker *)

(** A search against a key that is not cached reads storage once. *)
Lemma search_uncached_reads_once (w : world) (self : BatchSearchProcessor.t)
    (q : Py.features) (index_path : string) (thr : Q) (max_results : Z) :
  Py.get index_path (BatchSearchProcessor.indexes self) = None ->
  storage_reads
    (snd (BatchSearchProcessor.search_in_index w self q index_path thr
            max_results)) = [index_path].
Proof.
  intros Hc. unfold BatchSearchProcessor.search_in_index, Py.mem,
    BatchSearchProcessor.load_index. rewrite Hc.
  destruct (disk w index_path) as [o|]; simpl; [|reflexivity].
  rewrite get_set_same. destruct o as [d|]; [|reflexivity].
  destruct (BatchSearchProcessor.find_extractor _ _) as [e|]; [|reflexivity].
  pose proof (scan_entries_reads_nothing w e (Py.flatten q) thr
                (features_dict d)) as Hr.
  destruct (BatchSearchProcessor.scan_entries w e _ _ _) as [rs ev].
  simpl in *. now rewrite Hr.
Qed.



(** ** Beyond the claims: limits and ties *)

Lemma limit_results_firstn (n m : Z) (l : list result) :
  (0 < n <= m)%Z ->
  limit_results n l = firstn (Z.to_nat n) (limit_results m l).
Proof.
  intros H. unfold limit_results, Py.slice_to.
  destruct (Z.ltb_spec 0 n); [|lia]. destruct (Z.ltb_spec 0 m); [|lia].
  rewrite firstn_firstn. f_equal. lia.
Qed.

Lemma scan_loop_ignores_limit (self : SearchWorker.t) (limit : Z)
    (qf : Py.features) (stopped : nat -> bool) (total : nat)
    (files : list string) :
  forall (i : nat) (results : list result),
    SearchWorker.scan_loop (with_max_results self limit) qf stopped total i
      files results
    = SearchWorker.scan_loop self qf stopped total i files results.
Proof.
  induction files as [|p t IH]; intros i results; simpl; [reflexivity|].
  destruct (stopped i); [reflexivity|].
  change (SearchWorker.scan_file (with_max_results self limit) qf p results)
    with (SearchWorker.scan_file self qf p results).
  now rewrite IH.
Qed.

(** X16. A limit only truncates. For limits [0 < N <= M], a single-index
    search with limit [N] returns the first [N] entries of what it
    returns with limit [M] (and of what it returns without limit),
    leaves the same cache and makes the same storage reads and
    comparisons; likewise the result list of a linear scan with limit
    [N] is the first [N] entries of the list with limit [M], under the
    same stop requests. *)
Theorem raising_the_limit_extends_the_answer
    (w : world) (N M : Z) :
  (0 < N <= M)%Z ->
  (forall (self : BatchSearchProcessor.t) (q : Py.features)
          (index_path : string) (thr : Q),
     let at_N :=
       BatchSearchProcessor.search_in_index w self q index_path thr N in
     let at_M :=
       BatchSearchProcessor.search_in_index w self q index_path thr M in
     let unlimited :=
       BatchSearchProcessor.search_in_index w self q index_path thr 0 in
     fst (fst at_N) = outcome_firstn (Z.to_nat N) (fst (fst at_M))
     /\ fst (fst at_N) = outcome_firstn (Z.to_nat N) (fst (fst unlimited))
     /\ snd (fst at_N) = snd (fst at_M)
     /\ snd at_N = snd at_M)
  /\ (forall (self : SearchWorker.t) (stopped : nat -> bool),
        scan_results (SearchWorker.run w (with_max_results self N) stopped)
        = map (firstn (Z.to_nat N))
            (scan_results
               (SearchWorker.run w (with_max_results self M) stopped))).
Proof.
  intros H. split.
  - intros self q index_path thr at_N at_M unlimited.
    unfold at_N, at_M, unlimited.
    rewrite (search_in_index_limit w self q index_path thr N),
      (search_in_index_limit w self q index_path thr M).
    destruct (BatchSearchProcessor.search_in_index w self q index_path thr 0)
      as [[[l|] c] e]; cbn [fst snd outcome_firstn]; repeat split.
    + f_equal. now apply limit_results_firstn.
    + f_equal. unfold limit_results, Py.slice_to.
      destruct (Z.ltb_spec 0 N); [reflexivity|lia].
  - intros self stopped. unfold SearchWorker.run.
    cbn [with_max_results SearchWorker.extractor_
      SearchWorker.query_image_path SearchWorker.search_folder
      SearchWorker.max_results].
    destruct (extract_features _ _) as [[qf|]|]; try reflexivity.
    destruct (Py.len qf) as [[|m]|]; try reflexivity.
    destruct (_ =? 0)%nat; [simpl; now rewrite firstn_nil|].
    rewrite !scan_loop_ignores_limit.
    pose proof (scan_loop_signals self qf stopped
                  (List.length (image_files w (SearchWorker.search_folder self)))
                  0 (image_files w (SearchWorker.search_folder self)) [])
      as Hsig.
    destruct (SearchWorker.scan_loop self qf stopped _ 0 _ [])
      as [ev results]. simpl in Hsig.
    unfold scan_results. rewrite !flat_map_app. simpl.
    replace (flat_map _ ev) with (@nil (list result)).
    + simpl. f_equal. now apply limit_results_firstn.
    + symmetry. clear -Hsig. induction Hsig as [|s t Hs _ IH]; simpl;
        [reflexivity|].
      rewrite IH. destruct Hs as [->|[v ->]]; reflexivity.
Qed.

(** X16, instance: limits 1 and 2 over the index of four entries. *)
Lemma raising_the_limit_extends_the_answer_witness :
  fst (fst (BatchSearchProcessor.search_in_index Example.one_store
              BatchSearchProcessor.init (Example.vec 0) "idx" 0.50 1))
  = outcome_firstn 1
      (fst (fst (BatchSearchProcessor.search_in_index Example.one_store
                   BatchSearchProcessor.init (Example.vec 0) "idx" 0.50 2))).
Proof.
  apply (proj1 (raising_the_limit_extends_the_answer Example.one_store 1 2
                  ltac:(lia))).
Defined.

Lemma with_score_insert (s : Q) (x : result) (l : list result) :
  with_score s (insert_desc x l)
  = if Qeq_bool (snd x) s then x :: with_score s l else with_score s l.
Proof.
  unfold with_score. induction l as [|y t IH]; simpl; [reflexivity|].
  destruct (Qle_bool (snd y) (snd x)) eqn:Hle; simpl.
  - destruct (Qeq_bool (snd x) s); reflexivity.
  - rewrite IH. destruct (Qeq_bool (snd x) s) eqn:Hx; [|reflexivity].
    destruct (Qeq_bool (snd y) s) eqn:Hy; [|reflexivity].
    apply Qeq_bool_iff in Hx. apply Qeq_bool_iff in Hy.
    assert (Hyx : (snd y <= snd x)%Q).
    { rewrite Hx, Hy. apply Qle_refl. }
    apply Qle_bool_iff in Hyx. congruence.
Qed.

(** The sort keeps entries of equal score in their order. *)
Lemma with_score_sort (s : Q) (l : list result) :
  with_score s (sort_desc l) = with_score s l.
Proof.
  induction l as [|x t IH]; simpl; [reflexivity|].
  rewrite with_score_insert, IH. unfold with_score. simpl.
  destruct (Qeq_bool (snd x) s); reflexivity.
Qed.

(** X17. Ties keep the order in which the loops met them. Without a
    positive limit, the entries of a single-index answer that carry one
    and the same score stand in the order of the record's entries, and
    those of an unstopped linear scan in the order of the folder's
    enumeration; the merge step of the multi-index search lists equal
    scores in the order of its deduplication dictionary. *)
Theorem ties_keep_first_seen_order (w : world) (s : Q) :
  (forall (self : BatchSearchProcessor.t) (q : Py.features)
          (index_path : string) (thr : Q) (max_results : Z)
          (d : index_data) (ext : extractor),
     available w self index_path d ->
     BatchSearchProcessor.find_extractor (AVAILABLE_EXTRACTORS w)
       (extractor_name d) = Some ext ->
     (max_results <= 0)%Z ->
     exists r,
       fst (fst (BatchSearchProcessor.search_in_index w self q index_path
                   thr max_results)) = Returned r
       /\ with_score s r
          = with_score s
              (fst (BatchSearchProcessor.scan_entries w ext (Py.flatten q)
                      thr (features_dict d))))
  /\ (forall (self : SearchWorker.t) (qf : Py.features) (n : nat),
        extract_features (SearchWorker.extractor_ self)
          (SearchWorker.query_image_path self) = Returned (Some qf) ->
        Py.len qf = Returned (S n) ->
        (SearchWorker.max_results self <= 0)%Z ->
        exists r,
          scan_results (SearchWorker.run w self (fun _ => false)) = [r]
          /\ with_score s r
             = with_score s
                 (flat_map (fun p => SearchWorker.scan_file self qf p [])
                    (image_files w (SearchWorker.search_folder self))))
  /\ (forall per_index : list (list result),
        with_score s (MultiIndexSearch.merge_results per_index)
        = with_score s
            (fold_left MultiIndexSearch.keep_best (List.concat per_index)
               [])).
Proof.
  split; [|split].
  - intros self q index_path thr max_results d ext Hav Hext Hmax.
    rewrite search_result_by_lookup, (looked_up_available _ _ _ _ Hav), Hext.
    eexists. split; [reflexivity|].
    unfold limit_results. destruct (Z.ltb_spec 0 max_results); [lia|].
    apply with_score_sort.
  - intros self qf n Hq Hlen Hmax. unfold SearchWorker.run.
    rewrite Hq, Hlen.
    set (files := image_files w (SearchWorker.search_folder self)).
    destruct (Nat.eqb_spec (List.length files) 0) as [E|E].
    + exists []. split; [reflexivity|].
      destruct files; [reflexivity|discriminate].
    + pose proof (scan_loop_signals self qf (fun _ => false)
                    (List.length files) 0 files []) as Hsig.
      pose proof (scan_loop_unstopped self qf (fun _ => false)
                    (List.length files) files 0 [] (fun _ => eq_refl))
        as Hall.
      destruct (SearchWorker.scan_loop self qf (fun _ => false)
                  (List.length files) 0 files []) as [ev results].
      cbn [fst snd] in *. rewrite Hall. cbn [app].
      eexists. split.
      * unfold scan_results. rewrite flat_map_app. simpl.
        replace (flat_map _ ev) with (@nil (list result)); [reflexivity|].
        symmetry. clear -Hsig. induction Hsig as [|x t Hs _ IH]; simpl;
          [reflexivity|].
        rewrite IH. destruct Hs as [->|[v ->]]; reflexivity.
      * unfold limit_results.
        destruct (Z.ltb_spec 0 (SearchWorker.max_results self)); [lia|].
        apply with_score_sort.
  - intros per_index. unfold MultiIndexSearch.merge_results.
    apply with_score_sort.
Qed.

(** X17, instance: two entries that tie at 0.60. *)
Lemma ties_keep_first_seen_order_witness :
  exists r,
    fst (fst (BatchSearchProcessor.search_in_index Example.tie_world
                BatchSearchProcessor.init (Example.vec 0) "i2" 0.50 0))
      = Returned r
    /\ with_score 0.60 r = [("Q", 0.60); ("P", 0.60)].
Proof.
  apply (proj1 (ties_keep_first_seen_order Example.tie_world 0.60)
           BatchSearchProcessor.init (Example.vec 0) "i2" 0.50 0%Z
           (Example.record_data [("Q", Example.vec 60); ("P", Example.vec 60)])
           (Example.toy [])).
  - right. split; reflexivity.
  - reflexivity.
  - lia.
Defined.

(** ** Beyond the claims: the threads of the multi-index search *)

(** The object a key resolves to does not change when some search runs:
    what gets cached is what storage holds. *)
Lemma looked_up_stable (w : world) (self : BatchSearchProcessor.t)
    (q : Py.features) (index_path : string) (thr : Q) (n : Z) (k : string) :
  looked_up w
    (snd (fst (BatchSearchProcessor.search_in_index w self q index_path thr n)))
    k
  = looked_up w self k.
Proof.
  unfold looked_up. rewrite search_cache_after.
  destruct (Py.get index_path (BatchSearchProcessor.indexes self)) eqn:Hc;
    [reflexivity|].
  destruct (disk w index_path) as [o|] eqn:Hd; [|reflexivity].
  destruct (string_dec index_path k) as [->|Hne].
  - now rewrite get_set_same, Hc, Hd.
  - now rewrite get_set_other.
Qed.

Lemma In_set_other {V} (k k' : string) (v v' : V) (d : Py.dict V) :
  k' <> k -> In (k', v') d -> In (k', v') (Py.set k v d).
Proof.
  intros Hne. induction d as [|[k0 v0] t IH]; simpl; [tauto|].
  destruct (String.eqb_spec k k0) as [->|Hk]; simpl.
  - intros [E|H]; [inversion E; congruence|now right].
  - intros [E|H]; [now left|right; now apply IH].
Qed.

Lemma In_set_same {V} (k : string) (v : V) (d : Py.dict V) :
  In (k, v) (Py.set k v d).
Proof.
  induction d as [|[k0 v0] t IH]; simpl; [now left|].
  destruct (String.eqb k k0); simpl; [now left|now right].
Qed.

(** After the threads for [index_paths] have run from an empty
    [results_per_index], it holds for each of those keys the answer
    that the key's object determines, and nothing else. *)
Lemma run_threads_entries (w : world) (q : Py.features) (thr : Q) (n : Z)
    (c0 : BatchSearchProcessor.t) (index_paths : list string) :
  forall (s : MultiIndexSearch.shared) (done : list string),
    (forall k, looked_up w (fst (fst s)) k = looked_up w c0 k) ->
    (forall k l, In (k, l) (snd (fst s)) <->
       In k done
       /\ fst (fst (BatchSearchProcessor.search_in_index w c0 q k thr n))
          = Returned l) ->
    let s' :=
      fold_left (MultiIndexSearch.search_in_one_index w q thr n)
        index_paths s in
    forall k l, In (k, l) (snd (fst s')) <->
      In k (done ++ index_paths)
      /\ fst (fst (BatchSearchProcessor.search_in_index w c0 q k thr n))
         = Returned l.
Proof.
  induction index_paths as [|p t IH]; intros [[c r] e] done Hlook Hinv;
    cbn [fold_left fst snd] in *.
  - intros k l. rewrite app_nil_r. apply Hinv.
  - replace (done ++ p :: t)%list with ((done ++ [p]) ++ t)%list
      by (rewrite <- app_assoc; reflexivity).
    rewrite search_in_one_index_parts.
    apply IH; cbn [fst snd].
    + intros k. rewrite looked_up_stable. apply Hlook.
    + assert (Hres : fst (fst (BatchSearchProcessor.search_in_index w c q p
                                 thr n))
                     = fst (fst (BatchSearchProcessor.search_in_index w c0 q
                                   p thr n))).
      { rewrite !search_result_by_lookup. now rewrite Hlook. }
      rewrite Hres. intros k l. rewrite in_app_iff. simpl.
      destruct (fst (fst (BatchSearchProcessor.search_in_index w c0 q p thr
                            n))) as [lp|] eqn:Ep.
      * split.
        -- intros Hin. apply In_set_weak in Hin.
           destruct Hin as [E|Hin].
           ++ inversion E; subst. split; [right; now left|exact Ep].
           ++ apply Hinv in Hin. destruct Hin as [Hd Hk].
              split; [now left|exact Hk].
        -- intros [[Hd|[->|[]]] Hk].
           ++ destruct (string_dec k p) as [->|Hne].
              ** assert (l = lp) by congruence. subst. apply In_set_same.
              ** apply In_set_other; [exact Hne|]. apply Hinv. now split.
           ++ assert (l = lp) by congruence. subst. apply In_set_same.
      * split.
        -- intros Hin. apply Hinv in Hin. destruct Hin as [Hd Hk].
           split; [now left|exact Hk].
        -- intros [[Hd|[->|[]]] Hk]; [apply Hinv; now split|congruence].
Qed.

(** X18. The unlimited result of a multi-index search does not depend
    on the order in which the threads run, nor on a key being listed
    more than once, except for the order among equal scores: two lists
    of storage keys with the same members give results that hold the
    same paths, each with the same best score. *)
Theorem thread_order_does_not_change_the_matches
    (w : world) (self : MultiIndexSearch.t) (q : Py.features)
    (paths1 paths2 : list string) (thr : Q) (max_results : Z) :
  (max_results <= 0)%Z ->
  (forall k, In k paths1 <-> In k paths2) ->
  forall p s,
    In (p, s)
      (fst (fst (MultiIndexSearch.search_in_multiple_indexes w self q paths1
                   thr max_results))) ->
    exists s',
      In (p, s')
        (fst (fst (MultiIndexSearch.search_in_multiple_indexes w self q
                     paths2 thr max_results)))
      /\ (s == s')%Q.
Proof.
  intros Hmax Hsame p s.
  unfold MultiIndexSearch.search_in_multiple_indexes,
    MultiIndexSearch.run_threads.
  set (c0 := MultiIndexSearch.processor self).
  assert (Hstart : forall k l,
            In (k, l) (snd (fst (c0, @nil (string * list result),
                                 @nil io_event)))
            <-> In k [] /\
                fst (fst (BatchSearchProcessor.search_in_index w c0 q k thr
                            max_results)) = Returned l).
  { intros k l. simpl. tauto. }
  pose proof (run_threads_entries w q thr max_results c0 paths1
                (c0, [], []) [] (fun k => eq_refl) Hstart) as H1.
  pose proof (run_threads_entries w q thr max_results c0 paths2
                (c0, [], []) [] (fun k => eq_refl) Hstart) as H2.
  cbv zeta in H1, H2. simpl app in H1, H2.
  destruct (fold_left _ paths1 _) as [[c1 r1] e1].
  destruct (fold_left _ paths2 _) as [[c2 r2] e2].
  cbn [fst snd] in *.
  unfold limit_results. destruct (Z.ltb_spec 0 max_results); [lia|].
  assert (Hall : forall r r' : Py.dict (list result),
            (forall k l, In (k, l) r -> In (k, l) r') ->
            forall x, In x (List.concat (Py.values r)) ->
                      In x (List.concat (Py.values r'))).
  { intros r r' Hsub x Hx. apply in_concat in Hx.
    destruct Hx as [l [Hl Hx]]. unfold Py.values in Hl.
    apply in_map_iff in Hl. destruct Hl as [[k l'] [E Hkl]].
    simpl in E. subst l'. apply in_concat. exists l. split; [|exact Hx].
    unfold Py.values. apply in_map_iff. exists (k, l).
    split; [reflexivity|now apply Hsub]. }
  assert (H12 : forall k l, In (k, l) r1 -> In (k, l) r2).
  { intros k l Hin. apply H2. apply H1 in Hin. destruct Hin as [Hk Hl].
    split; [now apply Hsame|exact Hl]. }
  assert (H21 : forall k l, In (k, l) r2 -> In (k, l) r1).
  { intros k l Hin. apply H1. apply H2 in Hin. destruct Hin as [Hk Hl].
    split; [now apply Hsame|exact Hl]. }
  destruct (merge_results_spec (Py.values r1)) as [_ [_ [Hfrom1 _]]].
  destruct (merge_results_spec (Py.values r2)) as [_ [_ [Hfrom2 Hto2]]].
  intros Hin. apply Hfrom1 in Hin. destruct Hin as [Hin Hbest1].
  pose proof (Hall r1 r2 H12 _ Hin) as Hin2.
  destruct (Hto2 p s Hin2) as [b Hb]. exists b. split; [exact Hb|].
  apply Hfrom2 in Hb. destruct Hb as [Hb Hbest2].
  apply Qle_antisym.
  - now apply Hbest2.
  - apply Hbest1. now apply (Hall r2 r1 H21).
Qed.

(** X18, instance: two orders of two index files. *)
Lemma thread_order_does_not_change_the_matches_witness :
  exists s',
    In ("P", s')
      (fst (fst (MultiIndexSearch.search_in_multiple_indexes
                   Example2.mixed_store MultiIndexSearch.init (Example.vec 0)
                   ["s2"; "s1"; "s2"] 0.50 0)))
    /\ (0.90 == s')%Q.
Proof.
  apply (thread_order_does_not_change_the_matches Example2.mixed_store
           MultiIndexSearch.init (Example.vec 0) ["s1"; "s2"]
           ["s2"; "s1"; "s2"] 0.50 0).
  - lia.
  - intros k. simpl. tauto.
  - vm_compute. now left.
Defined.

Lemma storage_reads_app (a b : list io_event) :
  storage_reads (a ++ b) = (storage_reads a ++ storage_reads b)%list.
Proof. unfold storage_reads. apply flat_map_app. Qed.

(** A search leaves every cached key cached. *)
Lemma search_keeps_keys_cached (w : world) (self : BatchSearchProcessor.t)
    (q : Py.features) (index_path : string) (thr : Q) (n : Z) (k : string) :
  Py.get k (BatchSearchProcessor.indexes self) <> None ->
  Py.get k
    (BatchSearchProcessor.indexes
       (snd (fst (BatchSearchProcessor.search_in_index w self q index_path
                    thr n)))) <> None.
Proof.
  intros Hk. destruct (Py.get k (BatchSearchProcessor.indexes self)) as [o|]
    eqn:E; [|congruence].
  rewrite (search_keeps_cache w self q index_path thr n k o E). discriminate.
Qed.

(** After its thread has run, a key is cached unless its load failed. *)
Lemma search_caches_or_fails (w : world) (self : BatchSearchProcessor.t)
    (q : Py.features) (index_path : string) (thr : Q) (n : Z) :
  Py.get index_path
    (BatchSearchProcessor.indexes
       (snd (fst (BatchSearchProcessor.search_in_index w self q index_path
                    thr n)))) <> None
  \/ disk w index_path = Raised.
Proof.
  rewrite search_cache_after.
  destruct (Py.get index_path (BatchSearchProcessor.indexes self)) eqn:Hc.
  - left. rewrite Hc. discriminate.
  - destruct (disk w index_path); [left|now right].
    rewrite get_set_same. discriminate.
Qed.

Lemma fold_threads_cache (w : world) (q : Py.features) (thr : Q) (n : Z)
    (index_paths : list string) :
  forall (s : MultiIndexSearch.shared) (k : string),
    (In k index_paths
     \/ Py.get k (BatchSearchProcessor.indexes (fst (fst s))) <> None
     \/ disk w k = Raised) ->
    Py.get k
      (BatchSearchProcessor.indexes
         (fst (fst (fold_left (MultiIndexSearch.search_in_one_index w q thr n)
                      index_paths s)))) <> None
    \/ disk w k = Raised.
Proof.
  induction index_paths as [|p t IH]; intros [[c r] e] k H;
    cbn [fold_left fst snd] in *.
  - destruct H as [[]|H]. exact H.
  - rewrite search_in_one_index_parts. apply IH. cbn [fst snd].
    destruct H as [[->|Hin]|[Hc|Hd]].
    + right. apply search_caches_or_fails.
    + now left.
    + right. left. now apply search_keeps_keys_cached.
    + right. now right.
Qed.

Lemma fold_threads_reads (w : world) (q : Py.features) (thr : Q) (n : Z)
    (index_paths : list string) :
  forall s : MultiIndexSearch.shared,
    (forall k, In k index_paths ->
       Py.get k (BatchSearchProcessor.indexes (fst (fst s))) <> None
       \/ disk w k = Raised) ->
    Forall (fun k => disk w k = Raised) (storage_reads (snd s)) ->
    Forall (fun k => disk w k = Raised)
      (storage_reads
         (snd (fold_left (MultiIndexSearch.search_in_one_index w q thr n)
                 index_paths s))).
Proof.
  induction index_paths as [|p t IH]; intros [[c r] e] Hinv He;
    cbn [fold_left fst snd] in *; [exact He|].
  rewrite search_in_one_index_parts. apply IH; cbn [fst snd].
  - intros k Hk. destruct (Hinv k (or_intror Hk)) as [Hc|Hd];
      [left; now apply search_keeps_keys_cached|now right].
  - rewrite storage_reads_app. apply Forall_app. split; [exact He|].
    destruct (Py.get p (BatchSearchProcessor.indexes c)) as [o|] eqn:Hc.
    + destruct (search_cached w c q p thr n o Hc) as [Hr _].
      rewrite Hr. constructor.
    + rewrite (search_uncached_reads_once w c q p thr n Hc).
      destruct (Hinv p (or_introl eq_refl)) as [H|H]; [congruence|].
      constructor; [exact H|constructor].
Qed.

(** X19. The cache of a [MultiIndexSearch] object carries over from one
    search to the next: a second search over storage keys that an
    earlier search on the same object has covered reads storage only
    for keys whose file cannot be loaded; every index that loaded is
    answered from memory, whatever the query, threshold and limit. *)
Theorem second_multi_search_rereads_only_failed_loads
    (w : world) (self : MultiIndexSearch.t) (q1 q2 : Py.features)
    (paths1 paths2 : list string) (thr1 thr2 : Q) (n1 n2 : Z) :
  (forall k, In k paths2 -> In k paths1) ->
  let first :=
    MultiIndexSearch.search_in_multiple_indexes w self q1 paths1 thr1 n1 in
  let second :=
    MultiIndexSearch.search_in_multiple_indexes w (snd (fst first)) q2
      paths2 thr2 n2 in
  Forall (fun k => disk w k = Raised) (storage_reads (snd second)).
Proof.
  intros Hsub first second. unfold second, first,
    MultiIndexSearch.search_in_multiple_indexes, MultiIndexSearch.run_threads.
  pose proof (fold_threads_cache w q1 thr1 n1 paths1
                (MultiIndexSearch.processor self, [], [])) as Hcache.
  destruct (fold_left _ paths1 _) as [[c1 r1] e1]. cbn [fst snd] in *.
  pose proof (fold_threads_reads w q2 thr2 n2 paths2 (c1, [], [])) as Hreads.
  destruct (fold_left _ paths2 _) as [[c2 r2] e2]. cbn [fst snd] in *.
  apply Hreads; [|constructor].
  intros k Hk. apply Hcache. left. now apply Hsub.
Qed.

(** X19, instance: two good index files and a missing one. *)
Lemma second_multi_search_rereads_only_failed_loads_witness :
  storage_reads
    (snd (MultiIndexSearch.search_in_multiple_indexes Example2.mixed_store
            (snd (fst (MultiIndexSearch.search_in_multiple_indexes
                         Example2.mixed_store MultiIndexSearch.init
                         (Example.vec 0) ["s1"; "absent"; "s2"] 0.50 0)))
            (Example.vec 1) ["s2"; "absent"; "s1"] 0.70 1))
  = ["absent"]
  /\ Forall (fun k => disk Example2.mixed_store k = Raised)
       (storage_reads
          (snd (MultiIndexSearch.search_in_multiple_indexes
                  Example2.mixed_store
                  (snd (fst (MultiIndexSearch.search_in_multiple_indexes
                               Example2.mixed_store MultiIndexSearch.init
                               (Example.vec 0) ["s1"; "absent"; "s2"] 0.50
                               0)))
                  (Example.vec 1) ["s2"; "absent"; "s1"] 0.70 1))).
Proof.
  split; [reflexivity|].
  apply (second_multi_search_rereads_only_failed_loads Example2.mixed_store
           MultiIndexSearch.init (Example.vec 0) (Example.vec 1)
           ["s1"; "absent"; "s2"] ["s2"; "absent"; "s1"] 0.50 0.70 0 1).
  intros k. simpl. tauto.
Defined.

(** ** Beyond the claims: the grid of results *)

Lemma place_spec (loads : string -> bool) (m : nat) (results : list result) :
  (0 < m)%nat ->
  forall row col b : nat,
    (col < m)%nat ->
    b = (row * m + col)%nat ->
    let shown := filter (fun r : result => loads (fst r)) results in
    map fst (ResultsGrid.place loads m row col results) = shown
    /\ map snd (ResultsGrid.place loads m row col results)
       = map (fun j => ((b + j) / m, (b + j) mod m)%nat)
           (seq 0 (List.length shown)).
Proof.
  intros Hm. induction results as [|[p s] t IH]; intros row col b Hcol Hb;
    cbn [ResultsGrid.place filter fst].
  - split; reflexivity.
  - destruct (loads p) eqn:Hl; [|now apply IH].
    cbn [map fst snd List.length seq].
    assert (Hhead : ((b + 0) / m, (b + 0) mod m)%nat = (row, col)).
    { rewrite Nat.add_0_r, Hb. f_equal.
      - rewrite Nat.div_add_l by lia. rewrite Nat.div_small by lia. lia.
      - rewrite Nat.add_comm, Nat.Div0.mod_add. now apply Nat.mod_small. }
    rewrite Hhead. rewrite <- seq_shift, map_map.
    assert (Hshift : forall f : nat -> nat * nat,
              (forall j, f j = ((S b + j) / m, (S b + j) mod m)%nat) ->
              map (fun j => ((b + S j) / m, (b + S j) mod m)%nat)
                (seq 0 (List.length
                          (filter (fun r : result => loads (fst r)) t)))
              = map f (seq 0 (List.length
                                (filter (fun r : result => loads (fst r)) t)))).
    { intros f Hf. apply map_ext. intros j. rewrite Hf.
      now replace (b + S j)%nat with (S b + j)%nat by lia. }
    destruct (Nat.leb_spec m (col + 1)) as [Hwrap|Hstay].
    + destruct (IH (row + 1)%nat 0%nat (S b)) as [H1 H2]; [lia|nia|].
      split; [now rewrite H1|]. rewrite H2. f_equal. symmetry.
      now apply Hshift.
    + destruct (IH row (col + 1)%nat (S b)) as [H1 H2]; [lia|lia|].
      split; [now rewrite H1|]. rewrite H2. f_equal. symmetry.
      now apply Hshift.
Qed.

Lemma cells_distinct (m len : nat) :
  (0 < m)%nat ->
  NoDup (map (fun j => (j / m, j mod m)%nat) (seq 0 len)).
Proof.
  intros Hm. apply Finite.Injective_map_NoDup; [|apply seq_NoDup].
  intros a b E. inversion E as [[Hd Hr]].
  rewrite (Nat.div_mod_eq a m), (Nat.div_mod_eq b m). now rewrite Hd, Hr.
Qed.

(** X20. The grid of results. Both result views place exactly the
    results whose image loads, in the order of the result list, and the
    [j]-th of them (from 0) in row [j / c] and column [j mod c], with
    [c = 3] columns in the results dialog and [c = 4] in the results
    panel: a result whose image fails to load leaves no empty cell,
    and no two results share a cell. *)
Theorem results_fill_the_grid_row_by_row
    (loads : string -> bool) (results : list result) :
  let shown := filter (fun r : result => loads (fst r)) results in
  (map fst (ResultsGrid.display_results loads results) = shown
   /\ map snd (ResultsGrid.display_results loads results)
      = map (fun j => (j / 3, j mod 3)%nat) (seq 0 (List.length shown))
   /\ NoDup (map snd (ResultsGrid.display_results loads results)))
  /\ match ResultsGrid.set_search_results loads results with
     | None => results = []
     | Some cells =>
         results <> []
         /\ map fst cells = shown
         /\ map snd cells
            = map (fun j => (j / 4, j mod 4)%nat) (seq 0 (List.length shown))
         /\ NoDup (map snd cells)
     end.
Proof.
  intros shown. split.
  - destruct (place_spec loads 3 results ltac:(lia) 0 0 0 ltac:(lia) eq_refl)
      as [H1 H2].
    unfold ResultsGrid.display_results. fold shown in H1, H2.
    split; [exact H1|]. cbn [Nat.add] in H2. split; [exact H2|].
    rewrite H2. apply cells_distinct. lia.
  - unfold ResultsGrid.set_search_results.
    destruct results as [|r t]; [reflexivity|].
    destruct (place_spec loads 4 (r :: t) ltac:(lia) 0 0 0 ltac:(lia) eq_refl)
      as [H1 H2].
    cbn [Nat.add] in H2.
    split; [discriminate|]. split; [exact H1|].
    split; [exact H2|]. rewrite H2. apply cells_distinct. lia.
Qed.

(** ** Beyond the claims: the export of results *)

Lemma copy_results_spec (e : FileUtils.env) (result_dir : string)
    (results : list result) :
  forall i : nat,
    fst (FileUtils.copy_results e result_dir i results)
      = copies_succeed e result_dir i results
    /\ (exists rest,
          planned_copies e result_dir i results
          = (snd (FileUtils.copy_results e result_dir i results) ++ rest)%list)
    /\ (copies_succeed e result_dir i results = true ->
        snd (FileUtils.copy_results e result_dir i results)
        = planned_copies e result_dir i results)
    /\ manifests (snd (FileUtils.copy_results e result_dir i results)) = [].
Proof.
  induction results as [|r t IH]; intros i; simpl.
  - repeat split. now exists [].
  - destruct (FileUtils.copy_ok e (fst r) _) eqn:Hc; simpl.
    + destruct (IH (S i)) as [H1 [[rest H2] [H3 H4]]].
      destruct (FileUtils.copy_results e result_dir (S i) t) as [ok ops].
      simpl in *. repeat split; auto.
      * exists rest. now rewrite H2.
      * intros H. now rewrite H3.
    + repeat split; [eexists; reflexivity|discriminate].
Qed.

Lemma save_search_results_spec
    (e : FileUtils.env) (query_image_path : string) (results : list result)
    (result_dir extractor_name : string) (similarity_threshold : Q) :
  let run :=
    FileUtils.save_search_results e query_image_path results result_dir
      extractor_name similarity_threshold in
  let plan :=
    planned_export e query_image_path results result_dir extractor_name
      similarity_threshold in
  (fst run = true
   <-> FileUtils.copy_ok e query_image_path
         (FileUtils.query_dest e result_dir query_image_path) = true
       /\ copies_succeed e result_dir 0 results = true
       /\ FileUtils.info_ok e (FileUtils.info_dest e result_dir) = true)
  /\ (exists rest, plan = (snd run ++ rest)%list)
  /\ (fst run = true -> snd run = plan)
  /\ (fst run = false -> manifests (snd run) = []).
Proof.
  intros run plan. unfold run, plan, FileUtils.save_search_results,
    planned_export.
  destruct (FileUtils.copy_ok e query_image_path _) eqn:Hq.
  2:{ simpl. split; [split; [discriminate|intros [H _]; discriminate]|].
      split; [eexists; reflexivity|]. split; [discriminate|reflexivity]. }
  destruct (copy_results_spec e result_dir results 0)
    as [H1 [[rest H2] [H3 H4]]].
  destruct (FileUtils.copy_results e result_dir 0 results) as [ok ops].
  simpl in H1, H2, H3, H4. subst ok.
  destruct (copies_succeed e result_dir 0 results) eqn:Hc.
  - rewrite (H3 eq_refl) in *.
    destruct (FileUtils.info_ok e _) eqn:Hi; simpl.
    + split; [tauto|]. split; [exists []; now rewrite app_nil_r|].
      split; [reflexivity|discriminate].
    + split; [split; [discriminate|intros [_ [_ H]]; discriminate]|].
      split; [eexists; reflexivity|]. split; [discriminate|].
      intros _. exact H4.
  - simpl. split; [split; [discriminate|intros [_ [H _]]; discriminate]|].
    split.
    + rewrite H2. eexists. rewrite <- app_assoc. reflexivity.
    + split; [discriminate|]. intros _. exact H4.
Qed.

(** X21. The export of results. [save_search_results] returns [True]
    exactly when the copy of the query image, the copy of every result
    and the writing of [info.txt] all succeed, and then it has carried
    out the whole plan. Whatever happens, the operations carried out
    are an initial part of that plan, in order: the first failing copy
    ends the export. When it returns [False], the writing of [info.txt]
    has not completed (after a failed copy it is not even tried). *)
Theorem export_is_all_or_no_manifest
    (e : FileUtils.env) (query_image_path : string) (results : list result)
    (result_dir extractor_name : string) (similarity_threshold : Q) :
  let run :=
    FileUtils.save_search_results e query_image_path results result_dir
      extractor_name similarity_threshold in
  let plan :=
    planned_export e query_image_path results result_dir extractor_name
      similarity_threshold in
  (fst run = true
   <-> FileUtils.copy_ok e query_image_path
         (FileUtils.query_dest e result_dir query_image_path) = true
       /\ copies_succeed e result_dir 0 results = true
       /\ FileUtils.info_ok e (FileUtils.info_dest e result_dir) = true)
  /\ (exists rest, plan = (snd run ++ rest)%list)
  /\ (fst run = true -> snd run = plan)
  /\ (fst run = false -> manifests (snd run) = []).
Proof.
  exact (save_search_results_spec e query_image_path results result_dir
           extractor_name similarity_threshold).
Qed.

(** *** The names of the exported files *)

Lemma append_inj_l (a x y : string) :
  (a ++ x)%string = (a ++ y)%string -> x = y.
Proof.
  induction a as [|c a IH]; simpl; intros H; [exact H|].
  injection H as H. auto.
Qed.

Lemma digits_prefix (a b x y : string) :
  all_digits a = true -> all_digits b = true ->
  (a ++ "_" ++ x)%string = (b ++ "_" ++ y)%string -> a = b.
Proof.
  revert b. induction a as [|c a IH]; intros [|d b]; simpl; intros Ha Hb H.
  - reflexivity.
  - injection H as Hc _. subst d. discriminate.
  - injection H as Hc _. subst c. discriminate.
  - apply andb_prop in Ha as [_ Ha]. apply andb_prop in Hb as [_ Hb].
    injection H as -> H. f_equal. eauto.
Qed.

Lemma all_digits_string_of_uint (d : Decimal.uint) :
  all_digits (NilEmpty.string_of_uint d) = true.
Proof. induction d; simpl; auto. Qed.

Lemma all_digits_pad3 (n : nat) : all_digits (FileUtils.pad3 n) = true.
Proof.
  unfold FileUtils.pad3.
  pose proof (all_digits_string_of_uint (Nat.to_uint n)) as H.
  destruct (String.length _) as [|[|[|k]]]; simpl; auto.
Qed.

Lemma digits_value_pad3 (n : nat) : digits_value (FileUtils.pad3 n) = Some n.
Proof.
  unfold FileUtils.pad3, digits_value.
  pose proof (NilEmpty.usu (Nat.to_uint n)) as H.
  pose proof (DecimalNat.Unsigned.of_to n) as Hn.
  destruct (String.length _) as [|[|[|k]]]; simpl; rewrite H; simpl;
    f_equal; exact Hn.
Qed.

Lemma pad3_inj (i j : nat) : FileUtils.pad3 i = FileUtils.pad3 j -> i = j.
Proof.
  intros H. pose proof (digits_value_pad3 i) as Hi.
  rewrite H, digits_value_pad3 in Hi. now injection Hi.
Qed.

Lemma result_name_inj (e : FileUtils.env) (i j : nat) (a b : string) :
  ("result_" ++ FileUtils.pad3 i ++ "_sim_" ++ a)%string
  = ("result_" ++ FileUtils.pad3 j ++ "_sim_" ++ b)%string -> i = j.
Proof.
  intros H. apply append_inj_l in H. apply pad3_inj.
  apply (digits_prefix _ _ ("sim_" ++ a)%string ("sim_" ++ b)%string);
    auto using all_digits_pad3.
Qed.

Lemma written_planned_copies (e : FileUtils.env) (result_dir : string)
    (results : list result) :
  forall (i : nat) (p : string),
    In p (FileUtils.written (planned_copies e result_dir i results)) ->
    exists j r, (i <= j)%nat /\ p = FileUtils.result_dest e result_dir j r.
Proof.
  induction results as [|r t IH]; intros i p; simpl; [tauto|].
  intros [<-|H].
  - exists i, r. split; [lia|reflexivity].
  - destruct (IH (S i) p H) as [j [r' [Hj ->]]]. exists j, r'. split; [lia|auto].
Qed.

Lemma written_app (a b : list FileUtils.fs_op) :
  FileUtils.written (a ++ b)%list
  = (FileUtils.written a ++ FileUtils.written b)%list.
Proof. apply map_app. Qed.

Lemma planned_copies_distinct (e : FileUtils.env) (result_dir : string)
    (Hjoin : forall a b : string,
        FileUtils.join e result_dir a = FileUtils.join e result_dir b -> a = b)
    (results : list result) :
  forall i : nat,
    NoDup (FileUtils.written (planned_copies e result_dir i results)).
Proof.
  induction results as [|r t IH]; intros i; simpl; constructor; auto.
  intros Hin. apply written_planned_copies in Hin as [j [r' [Hj Heq]]].
  unfold FileUtils.result_dest in Heq. apply Hjoin in Heq.
  apply (result_name_inj e) in Heq. lia.
Qed.

(** X22. The files of one export do not overwrite each other: when
    [os.path.join] maps different names to different paths of the
    results folder, the paths written by [save_search_results] are
    pairwise distinct, for any number of results (the zero-padded index
    tells the result copies apart, also beyond 999), and none of the
    result copies is the copy of the query or [info.txt]. *)
Theorem export_destinations_are_distinct
    (e : FileUtils.env) (query_image_path : string) (results : list result)
    (result_dir extractor_name : string) (similarity_threshold : Q)
    (Hjoin : forall a b : string,
        FileUtils.join e result_dir a = FileUtils.join e result_dir b -> a = b) :
  NoDup
    (FileUtils.written
       (snd (FileUtils.save_search_results e query_image_path results
               result_dir extractor_name similarity_threshold))).
Proof.
  destruct (save_search_results_spec e query_image_path results result_dir
              extractor_name similarity_threshold) as [_ [[rest Hpre] _]].
  cut (NoDup (FileUtils.written
                (planned_export e query_image_path results result_dir
                   extractor_name similarity_threshold))).
  { rewrite Hpre, written_app. apply NoDup_app_remove_r. }
  clear Hpre rest. unfold planned_export.
  change (FileUtils.written (?a :: ?l)) with
    (FileUtils.written [a] ++ FileUtils.written l)%list.
  simpl. rewrite written_app. simpl.
  constructor.
  - intros Hin. apply in_app_or in Hin as [Hin|[Hin|[]]].
    + apply written_planned_copies in Hin as [j [r [_ Heq]]].
      unfold FileUtils.query_dest, FileUtils.result_dest in Heq.
      apply Hjoin in Heq. discriminate.
    + unfold FileUtils.query_dest, FileUtils.info_dest in Hin.
      apply Hjoin in Hin. discriminate.
  - apply NoDup_app; [apply planned_copies_distinct; assumption| |].
    + constructor; [tauto|constructor].
    + intros p Hin [Hq|[]]. subst p.
      apply written_planned_copies in Hin as [j [r [_ Heq]]].
      unfold FileUtils.info_dest, FileUtils.result_dest in Heq.
      apply Hjoin in Heq. discriminate.
Qed.

Lemma plain_env_join_inj (d a b : string) :
  FileUtils.join plain_env d a = FileUtils.join plain_env d b -> a = b.
Proof.
  simpl. intros H. apply append_inj_l in H. now injection H.
Qed.

Lemma export_destinations_are_distinct_witness :
  NoDup
    (FileUtils.written
       (snd (FileUtils.save_search_results plain_env "q.jpg"
               [("a.jpg", 0.9%Q); ("b.jpg", 0.9%Q)] "out" "toy" 0.5%Q))).
Proof.
  apply (export_destinations_are_distinct plain_env "q.jpg"
           [("a.jpg", 0.9%Q); ("b.jpg", 0.9%Q)] "out" "toy" 0.5%Q).
  intros a b. apply plain_env_join_inj.
Defined.

(** ** Beyond the claims: dragging files onto the window *)

Lemma after_last_dot_no_dot (s : string) :
  DragDropMixin.has_dot s = false -> DragDropMixin.after_last_dot s = s.
Proof.
  destruct s as [|c t]; simpl; [reflexivity|].
  destruct (Ascii.eqb c _) eqn:E; [discriminate|].
  intros ->. reflexivity.
Qed.

Lemma after_last_dot_split (s : string) :
  DragDropMixin.has_dot s = true ->
  exists stem, s = (stem ++ "." ++ DragDropMixin.after_last_dot s)%string.
Proof.
  induction s as [|c t IH]; simpl; [discriminate|].
  destruct (DragDropMixin.has_dot t) eqn:Ht.
  - intros _. destruct (IH eq_refl) as [stem Hs].
    exists (String c stem). cbn [append]. f_equal. exact Hs.
  - destruct (Ascii.eqb c _) eqn:E; [|discriminate].
    intros _. apply Ascii.eqb_eq in E. subst c. now exists EmptyString.
Qed.

Lemma has_dot_app (a b : string) :
  DragDropMixin.has_dot (a ++ b)
  = DragDropMixin.has_dot a || DragDropMixin.has_dot b.
Proof.
  induction a as [|c a IH]; simpl; [reflexivity|].
  destruct (Ascii.eqb c _); auto.
Qed.

Lemma after_last_dot_app (stem y : string) :
  DragDropMixin.has_dot y = false ->
  DragDropMixin.after_last_dot (stem ++ "." ++ y)%string = y.
Proof.
  intros Hy. induction stem as [|c t IH]; simpl.
  - now rewrite Hy.
  - rewrite has_dot_app. simpl. rewrite orb_true_r. exact IH.
Qed.

Lemma image_suffixes_no_dot (x : string) :
  In x DragDropMixin.image_suffixes -> DragDropMixin.has_dot x = false.
Proof.
  simpl. intros H.
  repeat (destruct H as [<-|H]; [reflexivity|]). destruct H.
Qed.

(** X23. What the drag-and-drop handlers take for an image. A path
    passes the test [file_path.lower().split('.')[-1] in [...]] exactly
    when its lower-cased form ends in a dot followed by one of jpg,
    jpeg, png, bmp, tiff, webp, or is itself one of these six words (a path
    without any dot passes when it is, say, png). *)
Theorem dropped_file_counts_as_image (lower : string -> string)
    (file_path : string) :
  DragDropMixin.is_image lower file_path = true
  <-> exists suffix,
        In suffix DragDropMixin.image_suffixes
        /\ (lower file_path = suffix
            \/ exists stem, lower file_path = (stem ++ "." ++ suffix)%string).
Proof.
  unfold DragDropMixin.is_image. rewrite existsb_exists. split.
  - intros [x [Hin Heq]]. apply String.eqb_eq in Heq. subst x.
    exists (DragDropMixin.after_last_dot (lower file_path)). split; [exact Hin|].
    destruct (DragDropMixin.has_dot (lower file_path)) eqn:Hd.
    + right. now apply after_last_dot_split.
    + left. symmetry. now apply after_last_dot_no_dot.
  - intros [x [Hin H]]. exists x. split; [exact Hin|].
    apply String.eqb_eq. pose proof (image_suffixes_no_dot x Hin) as Hx.
    destruct H as [->|[stem ->]].
    + now apply after_last_dot_no_dot.
    + now apply after_last_dot_app.
Qed.

(** X24. Dragging and dropping disagree on several files. The drag is
    accepted as soon as any of the dragged files passes the image test,
    but the drop looks at the first file only. So a drop that hands a
    file to [handle_image_drop] hands over the first file, and its drag
    was accepted; and an accepted drag is ignored on drop exactly when
    the first file fails the test while a later one passes. *)
Theorem drop_looks_at_the_first_file_only (lower : string -> string)
    (urls : list string) :
  (forall p,
      DragDropMixin.dropEvent lower urls = Some p ->
      hd_error urls = Some p
      /\ DragDropMixin.is_image lower p = true
      /\ DragDropMixin.dragEnterEvent lower urls = true)
  /\ (DragDropMixin.dragEnterEvent lower urls = true
      /\ DragDropMixin.dropEvent lower urls = None
      <-> exists first rest later,
            urls = first :: rest
            /\ DragDropMixin.is_image lower first = false
            /\ In later rest
            /\ DragDropMixin.is_image lower later = true).
Proof.
  unfold DragDropMixin.dragEnterEvent, DragDropMixin.dropEvent. split.
  - intros p. destruct urls as [|u rest]; [discriminate|]. simpl.
    destruct (DragDropMixin.is_image lower u) eqn:Hu; [|discriminate].
    intros H. injection H as <-. auto.
  - split.
    + intros [Hd Hp]. destruct urls as [|u rest]; [discriminate|].
      simpl in Hd. destruct (DragDropMixin.is_image lower u) eqn:Hu;
        [discriminate|].
      simpl in Hd. apply existsb_exists in Hd as [later [Hin Hl]].
      exists u, rest, later. auto.
    + intros [first [rest [later [-> [Hf [Hin Hl]]]]]]. simpl. rewrite Hf.
      split; [|reflexivity]. simpl. apply existsb_exists. eauto.
Qed.

(** ** Beyond the claims: an index file that cannot be written *)




